(** * NyayDarpan: contract-analysis front end and Karma Check pipeline

    A shallow embedding of the React pages of the repository (input form,
    analysing page, report page) together with the retrieval and scoring
    core that the design document describes.

    - JavaScript strings are sequences of UTF-16 code units ([list N]).
    - JavaScript values coming out of [JSON.parse] / [response.json()] are
      the inductive type [Value].
    - React state, [sessionStorage], toasts, the console and the router are
      explicit records that every handler takes and returns.
    - [try { ... } catch] blocks are written as a body in the error monad
      [Exn + _] followed by the handler.
    - Timers ([setInterval], [setTimeout]) are a step function on a machine
      state: one step is one timer callback. *)

From Stdlib Require Import List String Ascii NArith ZArith QArith Bool Lia.
From Stdlib Require Import Permutation Sorted.
From Stdlib Require Import Reals Qreals.
From Stdlib Require Lra Lqa.
Import ListNotations.

Set Implicit Arguments.
Set Warnings "-register-all".
Close Scope Q_scope.
Close Scope R_scope.

(* ================================================================== *)
(** * JavaScript strings                                                *)
(* ================================================================== *)

Module JSString.

(** A string is its sequence of UTF-16 code units. *)
Definition jstring := list N.

(** ASCII literals of the source text. *)
Definition lit (s : string) : jstring :=
  map N_of_ascii (list_ascii_of_string s).

Fixpoint eqb (a b : jstring) : bool :=
  match a, b with
  | [], [] => true
  | x :: a', y :: b' => N.eqb x y && eqb a' b'
  | _, _ => false
  end.

(** ECMAScript [WhiteSpace] and [LineTerminator] code points, the set that
    [String.prototype.trim] removes.  All of them are in the basic
    multilingual plane, so one code unit each. *)
Definition isWhiteSpace (c : N) : bool :=
  (  N.eqb c 0x0009 || N.eqb c 0x000A || N.eqb c 0x000B || N.eqb c 0x000C
  || N.eqb c 0x000D || N.eqb c 0x0020 || N.eqb c 0x00A0 || N.eqb c 0x1680
  || (N.leb 0x2000 c && N.leb c 0x200A)
  || N.eqb c 0x2028 || N.eqb c 0x2029 || N.eqb c 0x202F || N.eqb c 0x205F
  || N.eqb c 0x3000 || N.eqb c 0xFEFF)%N.

Fixpoint trimStart (s : jstring) : jstring :=
  match s with
  | [] => []
  | c :: r => if isWhiteSpace c then trimStart r else s
  end.

Definition trimEnd (s : jstring) : jstring := rev (trimStart (rev s)).

(** [s.trim()] *)
Definition trim (s : jstring) : jstring := trimEnd (trimStart s).

(** ToBoolean on a string: the empty string is the only falsy one. *)
Definition truthy (s : jstring) : bool :=
  match s with [] => false | _ :: _ => true end.

(** "empty or only whitespace" *)
Definition blank (s : jstring) : bool := forallb isWhiteSpace s.

(** The ASCII part of [String.prototype.toLowerCase]: A-Z go to a-z and
    every other code unit below 128 is left alone.  Code units from 128 on
    are left alone here too; the statements about [getRiskColor] below do
    not depend on this choice, they are proved for every lower-casing
    function. *)
Definition lowerUnit (c : N) : N :=
  if (N.leb 65 c && N.leb c 90)%N then (c + 32)%N else c.

Definition asciiLower (s : jstring) : jstring := map lowerUnit s.

End JSString.

Import JSString.

(* ================================================================== *)
(** * JavaScript values                                                 *)
(* ================================================================== *)

Module JSValue.

(** What [JSON.parse] and [response.json()] produce, plus [undefined],
    which property access produces.  Numbers are kept as integers: the
    only operation applied to a number below is ToBoolean. *)
Inductive Value : Type :=
| VUndefined
| VNull
| VBool (b : bool)
| VNum (z : Z)
| VStr (s : jstring)
| VArr (items : list Value)
| VObj (fields : list (jstring * Value)).

Inductive Exn : Type :=
| TypeError        (* property access on undefined or null, call of a non-function *)
| NetworkError     (* fetch rejected *)
| HttpError (status : Z)   (* new Error(`HTTP error! status: ...`) *)
| SyntaxError.     (* response.json() rejected *)

(** ToBoolean *)
Definition truthy (v : Value) : bool :=
  match v with
  | VUndefined | VNull => false
  | VBool b => b
  | VNum z => negb (Z.eqb z 0)
  | VStr s => JSString.truthy s
  | VArr _ | VObj _ => true
  end.

Definition nullish (v : Value) : bool :=
  match v with VUndefined | VNull => true | _ => false end.

Fixpoint lookup (k : jstring) (fields : list (jstring * Value)) : Value :=
  match fields with
  | [] => VUndefined
  | (k', v) :: rest => if JSString.eqb k k' then v else lookup k rest
  end.

(** [v.k] for the property names read by the pages ([analysis],
    [loophole_type], [risk_level], ...), none of which is a property of a
    String, Number, Boolean or Array object: the read throws on
    [undefined] and [null], looks the key up in an object and is
    [undefined] on everything else. *)
Definition getProp (v : Value) (k : jstring) : Exn + Value :=
  match v with
  | VUndefined | VNull => inl TypeError
  | VObj fields => inr (lookup k fields)
  | _ => inr VUndefined
  end.

(** [v?.k] *)
Definition getPropOpt (v : Value) (k : jstring) : Value :=
  match getProp v k with
  | inl _ => VUndefined
  | inr x => x
  end.

(** [v === 'literal'] *)
Definition strictEqStr (v : Value) (s : jstring) : bool :=
  match v with
  | VStr s' => JSString.eqb s' s
  | _ => false
  end.

End JSValue.

Import JSValue.

(* ================================================================== *)
(** * The browser: session storage, toasts, console, router             *)
(* ================================================================== *)

Inductive Language : Type := En | Hi.

(** The object that [handleSubmit] stringifies into [sessionStorage] under
    the key ['contractData'] and that the other pages parse back. *)
Record ContractData : Type := mkContractData {
  contractText : jstring;
  partyName : jstring;
  language : Language;
  timestamp : Z
}.

(** [sessionStorage], restricted to the two keys the pages use.  A stored
    item is kept as the value that [JSON.parse] gives back. *)
Record Storage : Type := mkStorage {
  item_contractData : option ContractData;
  item_analysisResult : option Value
}.

Inductive ToastVariant : Type := Plain | Destructive.

Record Toast : Type := mkToast {
  toast_title : string;
  toast_description : string;
  toast_variant : ToastVariant
}.

Record Browser : Type := mkBrowser {
  sessionStorage : Storage;
  toasts : list Toast;          (* in the order shown *)
  navigations : list string;    (* routes passed to [navigate], in order *)
  alerts : list string;         (* [alert(...)] dialogs *)
  consoleErrors : list Exn      (* what [console.error] was given *)
}.

Definition emptyStorage : Storage := mkStorage None None.
Definition freshBrowser : Browser := mkBrowser emptyStorage [] [] [] [].

Definition toast (t : Toast) (b : Browser) : Browser :=
  mkBrowser (sessionStorage b) (toasts b ++ [t]) (navigations b)
            (alerts b) (consoleErrors b).

Definition navigate (route : string) (b : Browser) : Browser :=
  mkBrowser (sessionStorage b) (toasts b) (navigations b ++ [route])
            (alerts b) (consoleErrors b).

Definition alert (msg : string) (b : Browser) : Browser :=
  mkBrowser (sessionStorage b) (toasts b) (navigations b)
            (alerts b ++ [msg]) (consoleErrors b).

Definition consoleError (e : Exn) (b : Browser) : Browser :=
  mkBrowser (sessionStorage b) (toasts b) (navigations b)
            (alerts b) (consoleErrors b ++ [e]).

Definition setItem_contractData (d : ContractData) (b : Browser) : Browser :=
  mkBrowser (mkStorage (Some d) (item_analysisResult (sessionStorage b)))
            (toasts b) (navigations b) (alerts b) (consoleErrors b).

Definition setItem_analysisResult (v : Value) (b : Browser) : Browser :=
  mkBrowser (mkStorage (item_contractData (sessionStorage b)) (Some v))
            (toasts b) (navigations b) (alerts b) (consoleErrors b).

(* ================================================================== *)
(** * InputPage.handleSubmit                                            *)
(* ================================================================== *)

Module InputPage.

(** The component state read by the handler. *)
Record Form : Type := mkForm {
  form_contractText : jstring;
  form_partyName : jstring;
  form_language : Language
}.

Definition contractRequired : Toast :=
  mkToast "Contract Required"
          "Please paste your contract text to continue." Destructive.

Definition partyNameRequired : Toast :=
  mkToast "Party Name Required"
          "Please enter the name of the other party." Destructive.

Definition analysisStarting : Toast :=
  mkToast "Analysis Starting" "Redirecting to analysis page..." Plain.

(** [handleSubmit]; [now] is what [Date.now()] returns. *)
Definition handleSubmit (f : Form) (now : Z) (b : Browser) : Browser :=
  if negb (JSString.truthy (trim (form_contractText f))) then
    toast contractRequired b
  else if negb (JSString.truthy (trim (form_partyName f))) then
    toast partyNameRequired b
  else
    let b1 := setItem_contractData
                (mkContractData (form_contractText f) (form_partyName f)
                                (form_language f) now) b in
    let b2 := toast analysisStarting b1 in
    navigate "/analyzing" b2.

End InputPage.

(* ================================================================== *)
(** * ReportPage.getRiskColor                                           *)
(* ================================================================== *)

Module RiskColor.

Section WithLowerCase.

(** [String.prototype.toLowerCase], whatever it does outside ASCII. *)
Variable toLowerCase : jstring -> jstring.

Definition getRiskColor (level : jstring) : string :=
  let l := toLowerCase level in
  if JSString.eqb l (lit "high") then "destructive"
  else if JSString.eqb l (lit "medium") then "warning"
  else if JSString.eqb l (lit "low") then "success"
  else "secondary".

End WithLowerCase.

End RiskColor.

(* ================================================================== *)
(** * The network                                                       *)
(* ================================================================== *)

(** What one [fetch] followed by [response.json()] can do. *)
Inductive FetchOutcome : Type :=
| FetchRejects                          (* the promise of [fetch] rejects *)
| FetchResponse (ok : bool) (status : Z) (body : option Value).
                                        (* [body = None]: [json()] rejects *)

(** "the fetch throws or returns a non-OK status" *)
Definition backendFails (o : FetchOutcome) : bool :=
  match o with
  | FetchRejects => true
  | FetchResponse ok _ _ => negb ok
  end.

(* ================================================================== *)
(** * ReportPage (the page that reads [analysisResult] from storage)    *)
(* ================================================================== *)

Module ReportPage.

Record State : Type := mkState {
  contractData : option ContractData;   (* useState<any>(null) *)
  analysisResults : Value;              (* useState<any>(null) *)
  karmaCheckResults : Value;            (* useState<any>(null) *)
  companyReviews : Value                (* useState<any>(null) *)
}.

Definition initialState : State := mkState None VNull VNull VNull.

Definition setKarmaCheckResults (v : Value) (st : State) : State :=
  mkState (contractData st) (analysisResults st) v (companyReviews st).

Definition setCompanyReviews (v : Value) (st : State) : State :=
  mkState (contractData st) (analysisResults st) (karmaCheckResults st) v.

(** The body of the [try] block of [performKarmaCheck].  The request body
    reads [contractData.partyName], which throws when [contractData] is
    still [null]. *)
Definition performKarmaCheck_try (o : FetchOutcome) (st : State)
  : Exn + State :=
  match contractData st with
  | None => inl TypeError
  | Some _ =>
      match o with
      | FetchRejects => inl NetworkError
      | FetchResponse ok _ body =>
          if ok then
            match body with
            | None => inl SyntaxError
            | Some result => inr (setKarmaCheckResults result st)
            end
          else inr st
      end
  end.

(** [performKarmaCheck]: the [catch] logs and swallows. *)
Definition performKarmaCheck (o : FetchOutcome) (b : Browser) (st : State)
  : Browser * State :=
  match performKarmaCheck_try o st with
  | inl e => (consoleError e b, st)
  | inr st' => (b, st')
  end.

(** The body of the [try] block of [getCompanyReviews], which has the
    shape of the one of [performKarmaCheck]. *)
Definition getCompanyReviews_try (o : FetchOutcome) (st : State)
  : Exn + State :=
  match contractData st with
  | None => inl TypeError
  | Some _ =>
      match o with
      | FetchRejects => inl NetworkError
      | FetchResponse ok _ body =>
          if ok then
            match body with
            | None => inl SyntaxError
            | Some result => inr (setCompanyReviews result st)
            end
          else inr st
      end
  end.

(** [getCompanyReviews]: the [catch] logs and swallows. *)
Definition getCompanyReviews (o : FetchOutcome) (b : Browser) (st : State)
  : Browser * State :=
  match getCompanyReviews_try o st with
  | inl e => (consoleError e b, st)
  | inr st' => (b, st')
  end.

(** The effect with dependencies [[navigate, contractData?.partyName]].
    [st] is the state the effect closure was created with; [o] is what the
    Karma Check request does and [r] what the company reviews request
    does. *)
Definition effect (o r : FetchOutcome) (b : Browser) (st : State)
  : Browser * State :=
  match item_contractData (sessionStorage b) with
  | None => (navigate "/input" b, st)
  | Some parsedData =>
      let st1 := mkState (Some parsedData) (analysisResults st)
                         (karmaCheckResults st) (companyReviews st) in
      let st2 := match item_analysisResult (sessionStorage b) with
                 | Some parsed =>
                     mkState (contractData st1) parsed (karmaCheckResults st1)
                             (companyReviews st1)
                 | None => st1
                 end in
      match contractData st with
      | Some d =>
          if JSString.truthy (partyName d) then
            let '(b1, stK) := performKarmaCheck o b st in
            let '(b2, stR) := getCompanyReviews r b1 st in
            (b2, mkState (contractData st2) (analysisResults st2)
                         (karmaCheckResults stK) (companyReviews stR))
          else (b, st2)
      | None => (b, st2)
      end
  end.

(** The effect runs on mount and again once [contractData?.partyName] has
    changed from [undefined] to the stored name. *)
Definition load (o r : FetchOutcome) (b : Browser) : Browser * State :=
  let '(b1, st1) := effect o r b initialState in
  match contractData st1 with
  | Some _ => effect o r b1 st1
  | None => (b1, st1)
  end.

(** A template literal, kept as its parts. *)
Inductive TemplatePart : Type :=
| Lit (s : string)
| Hole (v : Value).

Record Finding : Type := mkFinding {
  finding_id : Z;
  finding_title : string;
  finding_riskLevel : string;
  finding_summary : Value;
  finding_details : Value;
  finding_clause : string;
  finding_recommendation : Value
}.

Record KarmaItem : Type := mkKarmaItem {
  karma_id : Z;
  karma_caseName : list TemplatePart;
  karma_summary : Value;
  karma_relevance : list TemplatePart;
  karma_outcome : string;
  karma_year : string
}.

Record Insight : Type := mkInsight {
  insight_theme : string;
  insight_count : Z;
  insight_summary : string
}.

Record DisplayResults : Type := mkDisplayResults {
  overallRisk : Value;
  riskLevel : Value;
  contractAnalysis : list Finding;
  karmaCheck : list KarmaItem;
  communityInsights : list Insight
}.

(** [a || b] *)
Definition orElse (a b : Value) : Value := if truthy a then a else b.

(** The callback given to [loophole_analysis.map]. *)
Definition mapLoophole (item : Value) (index : nat) : Exn + Finding :=
  match getProp item (lit "loophole_type"),
        getProp item (lit "exploitation_potential"),
        getProp item (lit "description"),
        getProp item (lit "mitigation_strategy") with
  | inr ty, inr pot, inr desc, inr mit =>
      inr (mkFinding
             (Z.of_nat index + 1)
             (if strictEqStr ty (lit "ambiguity")
              then "Ambiguous Clause" else "Missing Protection")
             (if strictEqStr pot (lit "high") then "High"
              else if strictEqStr pot (lit "medium") then "Medium"
              else "Low")
             desc desc "N/A" mit)
  | _, _, _, _ => inl TypeError
  end.

(** [Array.prototype.map] with a callback that may throw: left to right,
    the first exception aborts. *)
Fixpoint mapFrom (index : nat) (items : list Value)
  : Exn + list Finding :=
  match items with
  | [] => inr []
  | item :: rest =>
      match mapLoophole item index with
      | inl e => inl e
      | inr f =>
          match mapFrom (S index) rest with
          | inl e => inl e
          | inr fs => inr (f :: fs)
          end
      end
  end.

(** [analysisResults.analysis?.advanced_risk_analysis?.loophole_analysis
     ?.map(...) || []] for a truthy [analysisResults]. *)
Definition contractAnalysisOf (analysisResults : Value)
  : Exn + list Finding :=
  match getProp analysisResults (lit "analysis") with
  | inl e => inl e
  | inr analysis =>
      let loopholes :=
        getPropOpt (getPropOpt analysis (lit "advanced_risk_analysis"))
                   (lit "loophole_analysis") in
      match loopholes with
      | VUndefined | VNull => inr []
      | VArr items => mapFrom 0 items
      | _ => inl TypeError       (* [.map] is not a function *)
      end
  end.

Definition karmaCheckOf (karmaCheckResults : Value) : list KarmaItem :=
  if truthy karmaCheckResults then
    let risk_level := getPropOpt karmaCheckResults (lit "risk_level") in
    [ mkKarmaItem
        1
        [Hole (getPropOpt karmaCheckResults (lit "company"));
         Lit " Legal History"]
        (getPropOpt karmaCheckResults (lit "summary"))
        [Lit "Found ";
         Hole (getPropOpt karmaCheckResults (lit "cases_found"));
         Lit " cases with risk level: ";
         Hole risk_level]
        (if strictEqStr risk_level (lit "low")
         then "No major issues found" else "Some concerns identified")
        "Recent" ]
  else [].

Definition mockInsights : list Insight :=
  [ mkInsight "Payment Delays" 3
      "3 users reported slow payment from this company. Average delay: 45 days.";
    mkInsight "Communication Issues" 2
      "2 users mentioned poor response time to queries and concerns.";
    mkInsight "Contract Clarity" 4
      "4 users noted unclear termination clauses in similar contracts." ].

Definition displayResults (st : State) : Exn + DisplayResults :=
  if truthy (analysisResults st) then
    match getProp (analysisResults st) (lit "analysis") with
    | inl e => inl e
    | inr analysis =>
        let summary := getPropOpt analysis (lit "executive_summary") in
        match contractAnalysisOf (analysisResults st) with
        | inl e => inl e
        | inr findings =>
            inr (mkDisplayResults
                   (orElse (getPropOpt summary (lit "risk_score")) (VNum 0))
                   (orElse (getPropOpt summary (lit "overall_risk_level"))
                           (VStr (lit "Unknown")))
                   findings
                   (karmaCheckOf (karmaCheckResults st))
                   mockInsights)
        end
    end
  else
    inr (mkDisplayResults (VNum 0) (VStr (lit "Unknown")) [] [] []).

(** ** The report itself *)

(** What an element of the report is given as a child: text of the page's
    own (a string literal, a template literal, a string or number of its
    own state), or a value that a backend sent. *)
Inductive Child : Type :=
| Text
| Given (v : Value).

(** What React does with a value it is given as a child: strings and
    numbers become text, booleans, [null] and [undefined] render nothing, an
    array is rendered element by element, and a plain object is refused
    ("Objects are not valid as a React child"). *)
Fixpoint validChild (v : Value) : bool :=
  match v with
  | VObj _ => false
  | VArr items => forallb validChild items
  | _ => true
  end.

Definition accepted (child : Child) : bool :=
  match child with
  | Text => true
  | Given v => validChild v
  end.

(** A piece of JSX: evaluating it throws, or gives the children it hands
    to React, in document order. *)
Definition Jsx : Type := Exn + list Child.

(** Two pieces one after the other. *)
Definition next (a b : Jsx) : Jsx :=
  match a with
  | inl e => inl e
  | inr x => match b with
             | inl e => inl e
             | inr y => inr (x ++ y)
             end
  end.

Fixpoint fragment (parts : list Jsx) : Jsx :=
  match parts with
  | [] => inr []
  | part :: rest => next part (fragment rest)
  end.

(** [{cond && <element/>}]: a falsy [cond] is itself the child. *)
Definition andElement (cond : Value) (element : Jsx) : Jsx :=
  if truthy cond then element else inr [Given cond].

(** [{items.map((item) => <element/>)}]: anything but an array has no
    [map] to call. *)
Definition mapElements (element : Value -> Jsx) (items : Value) : Jsx :=
  match items with
  | VArr entries => fragment (map element entries)
  | _ => inl TypeError
  end.

(** A piece of JSX that throws nothing but a [TypeError]. *)
Definition typeErrorOnly (j : Jsx) : Prop :=
  forall e, j = inl e -> e = TypeError.

(** The "Recommendation:" line of the risk card; [.replace] exists on
    strings only. *)
Definition recommendationLine (analysisResults : Value) : Jsx :=
  let recommendation :=
    getPropOpt
      (getPropOpt (getPropOpt analysisResults (lit "analysis"))
                  (lit "executive_summary"))
      (lit "recommendation") in
  andElement recommendation
    match recommendation with
    | VStr _ => inr [Text]
    | _ => inl TypeError
    end.

(** [entries && (<ul>{entries.map((entry) => <li>{entry}</li>)}</ul>)] *)
Definition bulletList (entries : Value) : Jsx :=
  andElement entries (mapElements (fun entry => inr [Given entry]) entries).

(** The "AI Executive Summary" card. *)
Definition executiveSummaryCard (analysisResults : Value) : Jsx :=
  let executive_summary :=
    getPropOpt (getPropOpt analysisResults (lit "analysis"))
               (lit "executive_summary") in
  andElement executive_summary
    (next (bulletList (getPropOpt executive_summary (lit "key_findings")))
          (bulletList
             (getPropOpt executive_summary (lit "immediate_concerns")))).

(** The "How AI Analyzed Your Contract" card.  The date line is the
    string that [new Date(analysisResults.timestamp).toLocaleString()]
    gives. *)
Definition transparencyCard (analysisResults : Value) : Jsx :=
  let analysis := getPropOpt analysisResults (lit "analysis") in
  andElement analysis
    (fragment
       [ (let confidence_metrics :=
            getPropOpt analysis (lit "confidence_metrics") in
          andElement confidence_metrics
            (inr [Given (getPropOpt confidence_metrics (lit "legal_accuracy"));
                  Given (getPropOpt confidence_metrics
                                    (lit "analysis_confidence"));
                  Given (getPropOpt confidence_metrics (lit "completeness"))]));
         (let legal_compliance_audit :=
            getPropOpt analysis (lit "legal_compliance_audit") in
          andElement legal_compliance_audit
            (next
               (inr [Given (getPropOpt
                              (getPropOpt legal_compliance_audit
                                          (lit "indian_contract_act_1872"))
                              (lit "compliance_status"))])
               (andElement
                  (getPropOpt
                     (getPropOpt legal_compliance_audit
                                 (lit "sector_specific_laws"))
                     (lit "employment_law"))
                  (inr []))));
         inr [Given (orElse (getPropOpt analysisResults (lit "model_used"))
                            (VStr (lit "Gemini 1.5 Pro")));
              Given (orElse (getPropOpt analysisResults (lit "analysis_depth"))
                            (VStr (lit "Ultra-intensive")));
              Text] ]).

(** One card per entry of [displayResults.karmaCheck]: case name, year,
    outcome, summary, relevance. *)
Definition karmaCards (results : DisplayResults) : Jsx :=
  inr (flat_map (fun caseItem =>
                   [Text; Text; Text; Given (karma_summary caseItem); Text])
                (karmaCheck results)).

(** One card of the list of reviews.  [Math.floor(review.rating)] only
    picks the colour of the five stars. *)
Definition reviewCard (review : Value) : Jsx :=
  match getProp review (lit "title") with
  | inl e => inl e
  | inr title =>
      fragment
        [ inr [Given title;
               Given (getPropOpt review (lit "source"));
               Given (getPropOpt review (lit "date"));
               Given (getPropOpt review (lit "content"))];
          (let pros := getPropOpt review (lit "pros") in
           andElement pros (inr [Given pros]));
          (let cons := getPropOpt review (lit "cons") in
           andElement cons (inr [Given cons])) ]
  end.

(** The summary of the reviews; [analysis.sentiment_analysis.positive] is
    read without [?.]. *)
Definition reviewSummary (analysis : Value) : Jsx :=
  let sentiment_analysis := getPropOpt analysis (lit "sentiment_analysis") in
  match getProp sentiment_analysis (lit "positive"),
        getProp sentiment_analysis (lit "negative") with
  | inr positive, inr negative =>
      inr [Given (getPropOpt analysis (lit "risk_level"));
           Given (getPropOpt analysis (lit "average_rating"));
           Given positive;
           Given negative;
           Given (getPropOpt analysis (lit "recommendation"))]
  | _, _ => inl TypeError
  end.

(** [companyReviews && companyReviews.success && (...)];
    [companyReviews.reviews.map] is called without [?.]. *)
Definition companyReviewsSection (companyReviews : Value) : Jsx :=
  andElement companyReviews
    (andElement (getPropOpt companyReviews (lit "success"))
       (fragment
          [ inr [Given (getPropOpt companyReviews (lit "total_reviews"))];
            (let analysis := getPropOpt companyReviews (lit "analysis") in
             andElement analysis (reviewSummary analysis));
            mapElements reviewCard
                        (getPropOpt companyReviews (lit "reviews")) ])).

(** One card per community insight: theme, count, summary. *)
Definition insightCards (results : DisplayResults) : Jsx :=
  inr (flat_map (fun _ : Insight => [Text; Text; Text])
                (communityInsights results)).

(** The JSX of the last [return] of the component, for a page on which no
    X-ray analysis has been requested and no question has been asked
    ([xrayResults] is [null], [isXrayLoading] is [false] and [chatHistory]
    is empty, as the effect leaves them): the X-ray panel and the chat are
    then fixed text.  The collapsible sections are open, as [defaultOpen]
    makes them. *)
Definition reportJsx (st : State) (results : DisplayResults) : Jsx :=
  fragment
    [ inr [Text];                                   (* contractData.partyName *)
      recommendationLine (analysisResults st);
      inr [Given (overallRisk results); Given (riskLevel results)];
      executiveSummaryCard (analysisResults st);
      transparencyCard (analysisResults st);
      karmaCards results;
      companyReviewsSection (companyReviews st);
      insightCards results;
      inr [Text] ].                                 (* contractData.partyName *)

(** What the component returns. *)
Inductive View : Type :=
| Nothing                               (* [return null] *)
| AnalysisResultsNotFound               (* the notice with the link to /input *)
| Report (d : DisplayResults).          (* the report itself *)

(** How the page fails to render: the component function throws, or React
    refuses one of the children it was given. *)
Inductive Failure : Type :=
| Throws (e : Exn)
| ObjectAsChild.

(** The component, from [if (!contractData)] to the end, and what React
    makes of the result. *)
Definition render (st : State) : Failure + View :=
  match contractData st with
  | None => inr Nothing
  | Some _ =>
      match displayResults st with
      | inl e => inl (Throws e)
      | inr results =>
          if truthy (analysisResults st) then
            match reportJsx st results with
            | inl e => inl (Throws e)
            | inr children =>
                if forallb accepted children then inr (Report results)
                else inl ObjectAsChild
            end
          else inr AnalysisResultsNotFound
      end
  end.

End ReportPage.

(** A Karma Check result that is a degraded score in the sense of the design
    document: [risk_level] is ['unknown'] and there is a summary text. *)
Definition degradedKarmaScore (v : Value) : Prop :=
  getPropOpt v (lit "risk_level") = VStr (lit "unknown")
  /\ exists s, getPropOpt v (lit "summary") = VStr s.

(* ================================================================== *)
(** * AnalyzingPage: [callBackendAPI] and its timers                    *)
(* ================================================================== *)

Module AnalyzingPage.

Record Step : Type := mkStep {
  step_title : string;
  step_description : string;
  step_duration : Z
}.

Definition steps : list Step :=
  [ mkStep "Reading your document..."
           "Parsing contract structure and identifying key sections" 2000;
    mkStep "Performing AI X-Ray scan..."
           "Analyzing clauses for hidden risks and ambiguous terms" 3000;
    mkStep "Scanning public legal records..."
           "Searching 10,000+ court cases and legal databases" 2500;
    mkStep "Consulting The People's Ledger..."
           "Gathering community insights and experiences" 2000;
    mkStep "Compiling your NyayDarpan Report..."
           "Generating comprehensive risk assessment" 1500 ].

(** The timer that is pending, with the variables its callback closes
    over. *)
Inductive Timer : Type :=
| NoTimer
| SuccessInterval (stepIndex : nat)
    (* [setInterval(..., 1200)] of the [try] block *)
| FallbackInterval (stepIndex : nat) (progressValue : Z)
                   (stepDuration : Z) (stepProgress startProgress : Q)
    (* [setInterval(..., 50)] of [runAnalysis] *)
| FallbackNextStep (stepIndex : nat) (progressValue : Z)
    (* [setTimeout(runAnalysis, 300)] *)
| NavigateToReport.
    (* [setTimeout(() => navigate('/report'), ...)] *)

Record Machine : Type := mkMachine {
  browser : Browser;
  progress : Q;          (* useState(0) *)
  currentStep : nat;     (* useState(0) *)
  timer : Timer
}.

Definition setProgress (p : Q) (m : Machine) : Machine :=
  mkMachine (browser m) p (currentStep m) (timer m).

Definition setCurrentStep (i : nat) (m : Machine) : Machine :=
  mkMachine (browser m) (progress m) i (timer m).

Definition setTimer (t : Timer) (m : Machine) : Machine :=
  mkMachine (browser m) (progress m) (currentStep m) t.

Definition onBrowser (f : Browser -> Browser) (m : Machine) : Machine :=
  mkMachine (f (browser m)) (progress m) (currentStep m) (timer m).

Definition Qmin (a b : Q) : Q := if Qle_bool a b then a else b.

(** [runAnalysis] of the [catch] block; [stepIndex] and [progressValue]
    are the two [let] variables it shares with its interval callback. *)
Definition runAnalysis (stepIndex : nat) (progressValue : Z) (m : Machine)
  : Machine :=
  match nth_error steps stepIndex with
  | Some s =>                      (* [stepIndex < steps.length] *)
      let stepProgress := (100 / inject_Z (Z.of_nat (List.length steps)))%Q in
      let startProgress := (inject_Z (Z.of_nat stepIndex) * stepProgress)%Q in
      setTimer (FallbackInterval stepIndex progressValue (step_duration s)
                                 stepProgress startProgress)
               (setCurrentStep stepIndex m)
  | None => setTimer NoTimer m
  end.

(** The body of the [try] block up to the first exception.  The two state
    updates before the [fetch] are kept when it throws. *)
Definition callBackendAPI_try (o : FetchOutcome) (m : Machine)
  : Machine * (Exn + Value) :=
  let m1 := setProgress 10 (setCurrentStep 0 m) in
  match o with
  | FetchRejects => (m1, inl NetworkError)
  | FetchResponse ok status body =>
      if negb ok then (m1, inl (HttpError status))
      else match body with
           | None => (m1, inl SyntaxError)
           | Some analysisResult => (m1, inr analysisResult)
           end
  end.

(** [callBackendAPI] *)
Definition callBackendAPI (o : FetchOutcome) (m : Machine) : Machine :=
  match callBackendAPI_try o m with
  | (m1, inr analysisResult) =>
      setTimer (SuccessInterval 0)
               (onBrowser (setItem_analysisResult analysisResult) m1)
  | (m1, inl e) =>
      (* Fallback to mock animation if backend fails *)
      runAnalysis 0 0 (onBrowser (consoleError e) m1)
  end.

(** The two effects of the component: read [contractData] from storage
    (back to the input page when it is missing), then call the backend. *)
Definition mount (o : FetchOutcome) (b : Browser) : Machine :=
  let m := mkMachine b 0 0 NoTimer in
  match item_contractData (sessionStorage b) with
  | None => onBrowser (navigate "/input") m
  | Some _ => callBackendAPI o m
  end.

(** One timer callback. *)
Definition step (m : Machine) : Machine :=
  match timer m with
  | NoTimer => m
  | SuccessInterval stepIndex =>
      let stepIndex := S stepIndex in
      let m1 := setProgress
                  (inject_Z (Z.of_nat stepIndex + 1) * 20)%Q
                  (setCurrentStep stepIndex m) in
      if (List.length steps - 1 <=? stepIndex)%nat then
        setTimer NavigateToReport (setProgress 100 m1)
      else setTimer (SuccessInterval stepIndex) m1
  | FallbackInterval stepIndex progressValue stepDuration
                     stepProgress startProgress =>
      let progressValue := (progressValue + 2)%Z in
      let currentProgress :=
        Qmin (startProgress
              + inject_Z progressValue / inject_Z stepDuration
                * stepProgress * 100)%Q
             (inject_Z (Z.of_nat stepIndex + 1) * stepProgress)%Q in
      let m1 := setProgress currentProgress m in
      if (stepDuration <=? progressValue)%Z then
        let stepIndex := S stepIndex in
        if (List.length steps <=? stepIndex)%nat then
          setTimer NavigateToReport m1
        else setTimer (FallbackNextStep stepIndex 0) m1
      else
        setTimer (FallbackInterval stepIndex progressValue stepDuration
                                   stepProgress startProgress) m1
  | FallbackNextStep stepIndex progressValue =>
      runAnalysis stepIndex progressValue m
  | NavigateToReport =>
      setTimer NoTimer (onBrowser (navigate "/report") m)
  end.

Fixpoint run (n : nat) (m : Machine) : Machine :=
  match n with
  | O => m
  | S n' => run n' (step m)
  end.

(** Number of interval callbacks a step of duration [dur] takes. *)
Definition ticksOf (dur : Z) : nat := Z.to_nat ((dur + 1) / 2).

(** Callbacks of the fallback animation from step [i] on: the interval
    callbacks of each step and, after each, one timeout (the next
    [runAnalysis], or the navigation after the last step). *)
Definition callbacksFrom (i : nat) : nat :=
  fold_right (fun s n => (ticksOf (step_duration s) + (1 + n))%nat) 0%nat
             (skipn i steps).

Definition fallbackCallbacks : nat := callbacksFrom 0.

(** What no timer callback touches. *)
Definition quiet (b b' : Browser) : Prop :=
  sessionStorage b' = sessionStorage b
  /\ toasts b' = toasts b
  /\ alerts b' = alerts b
  /\ consoleErrors b' = consoleErrors b.

End AnalyzingPage.

(** The other AnalyzingPage of the repository, which posts with axios
    ([analyzeContractBackend]): any failure is reported with [alert] and the
    animation, which ends in the navigation, is never started. *)
Module AnalyzingPageAxios.

(** [axios.post] rejects on a network error and on a status outside 2xx. *)
Inductive AxiosOutcome : Type :=
| AxiosRejects (e : Exn)
| AxiosResolves (data : Value).

Inductive Started : Type :=
| AnimationStarted     (* [runAnimation()] was called *)
| NotStarted.

Definition analyzeContractBackend (o : AxiosOutcome) (b : Browser)
  : Browser * Started :=
  match o with
  | AxiosResolves data => (setItem_analysisResult data b, AnimationStarted)
  | AxiosRejects e =>
      (alert "Contract analysis failed. Check console for details."
             (consoleError e b), NotStarted)
  end.

End AnalyzingPageAxios.

(** The route the router shows: the last one passed to [navigate]. *)
Definition currentRoute (b : Browser) : string :=
  last (navigations b) "/input"%string.

(** The whole flow of one submission: the form handler, then (when it
    navigated there) the analysing page until [fuel] timer callbacks have
    run, then (when that navigated there) the report page.  [None] when the
    report page is not reached. *)
Definition pipeline (f : InputPage.Form) (now : Z)
    (analysis karma reviews : FetchOutcome) (fuel : nat) (b : Browser)
  : Browser * option (ReportPage.Failure + ReportPage.View) :=
  let b1 := InputPage.handleSubmit f now b in
  if String.eqb (currentRoute b1) "/analyzing" then
    let m := AnalyzingPage.run fuel (AnalyzingPage.mount analysis b1) in
    if String.eqb (currentRoute (AnalyzingPage.browser m)) "/report" then
      let '(b2, st) :=
        ReportPage.load karma reviews (AnalyzingPage.browser m) in
      (b2, Some (ReportPage.render st))
    else (AnalyzingPage.browser m, None)
  else (b1, None).

(* ================================================================== *)
(** * Counterparty name normalization (Case Retriever, step 1)          *)
(* ================================================================== *)

Module NameNormalizer.

Definition token := jstring.

(** Modelled from the spec: "collapse whitespace" of the name
    normalization, which is not in the sources at hand.
    Splitting at whitespace; runs of whitespace separate once and leading
    and trailing whitespace gives no token.  [cur] is the token being
    read, in reverse. *)
Fixpoint tokensFrom (cur : list N) (s : jstring) : list token :=
  match s with
  | [] => match cur with [] => [] | _ :: _ => [rev cur] end
  | c :: rest =>
      if isWhiteSpace c then
        match cur with
        | [] => tokensFrom [] rest
        | _ :: _ => rev cur :: tokensFrom [] rest
        end
      else tokensFrom (c :: cur) rest
  end.

Definition tokens (s : jstring) : list token := tokensFrom [] s.

(** Joining with single spaces. *)
Fixpoint unwords (ts : list token) : jstring :=
  match ts with
  | [] => []
  | [t] => t
  | t :: rest => t ++ 32%N :: unwords rest
  end.

(** [isPrefix p l]: the list of tokens [l] starts with [p]. *)
Fixpoint isPrefix (p l : list token) : bool :=
  match p, l with
  | [], _ => true
  | x :: p', y :: l' => JSString.eqb x y && isPrefix p' l'
  | _ :: _, [] => false
  end.

Section WithSuffixes.

(** The corporate suffixes, each a sequence of lower-case tokens, such
    as [["pvt"; "ltd"]] and [["llp"]]. *)
Variable suffixes : list (list token).

(** Length of the first suffix that the name, given as its tokens in
    reverse, ends with.  An empty suffix never counts. *)
Fixpoint matchedSuffix (sufs : list (list token)) (revName : list token)
  : option nat :=
  match sufs with
  | [] => None
  | suf :: more =>
      match suf with
      | [] => matchedSuffix more revName
      | _ :: _ =>
          if isPrefix (rev suf) revName then Some (List.length suf)
          else matchedSuffix more revName
      end
  end.

(** Modelled from the spec: "strip corporate suffixes" of the name
      normalization, which is not in the sources at hand.
      Stripping for as long as a suffix matches; every round removes at
    least one token, so [fuel = length] is enough. *)
Fixpoint stripFuel (fuel : nat) (revName : list token) : list token :=
  match fuel with
  | O => revName
  | S fuel' =>
      match matchedSuffix suffixes revName with
      | Some k => stripFuel fuel' (skipn k revName)
      | None => revName
      end
  end.

Definition stripSuffixes (name : list token) : list token :=
  rev (stripFuel (List.length name) (rev name)).

(** Modelled from the spec: the Case Retriever's name normalization is
    not in the sources at hand; the design document gives it as
    "case-fold, strip corporate suffixes such as Pvt Ltd, LLP, collapse
    whitespace". *)
Definition normalize (raw_name : jstring) : jstring :=
  unwords (stripSuffixes (tokens (asciiLower raw_name))).

End WithSuffixes.

Definition corporateSuffixes : list (list token) :=
  [ [lit "pvt"; lit "ltd"]; [lit "private"; lit "limited"];
    [lit "llp"]; [lit "ltd"]; [lit "limited"]; [lit "inc"] ].

(** A well-formed token: not empty, no whitespace inside. *)
Definition solid (t : token) : Prop :=
  t <> [] /\ Forall (fun c => isWhiteSpace c = false) t.

(** A lower-cased string is one that lower-casing leaves alone. *)
Definition lowered (s : jstring) : Prop := asciiLower s = s.

End NameNormalizer.

(* ================================================================== *)
(** * Case Retriever (merge, rank, truncate)                            *)
(* ================================================================== *)

Module CaseRetriever.

Record RetrievedCase : Type := mkRetrievedCase {
  document_id : N;
  similarity_score : Q;
  name_match_confidence : Q
}.

Record RetrievalQuery : Type := mkRetrievalQuery {
  raw_name : jstring;
  normalized_aliases : list jstring;
  free_text_context : option jstring;
  limit : Z
}.

Inductive RetrieverError : Type := InvalidInput.

(** Modelled from the spec: the Case Retriever's data and steps are not in
    the sources at hand; records and formulas are those of the design
    document.
    The score a pool gives a document; 0 when the document is not in the
    pool. *)
Fixpoint scoreIn (pool : list (N * Q)) (d : N) : Q :=
  match pool with
  | [] => 0%Q
  | (d', x) :: rest => if N.eqb d' d then x else scoreIn rest d
  end.

(** Modelled from the spec: the composite score of step 4,
    [0.6 * name_match_confidence + 0.4 * similarity_score]. *)
Definition composite (c : RetrievedCase) : Q :=
  ((6 # 10) * name_match_confidence c + (4 # 10) * similarity_score c)%Q.

(** Modelled from the spec: the example the design document gives for the
    minimum [name_match_confidence] of step 2 ("e.g., less than 0.4"). *)
Definition documented_minimum_confidence : Q := 4 # 10.

Section WithCorpus.

(** The Corpus Store's [filed_date] of a document, as a day number. *)
Variable filed_date : N -> Z.

(** Step 2's minimum [name_match_confidence]. *)
Variable minimum_confidence : Q.

(** Steps 2 and 3: the documents the string match finds, with their
    confidences, and the semantic candidates that the Embedding Index's
    [search] returns, with their similarities. *)
Variable name_match_pool : RetrievalQuery -> list (N * Q).
Variable semantic_pool : RetrievalQuery -> list (N * Q).

(** Modelled from the spec: the union of the two pools by [document_id]
    of step 4, every document once. *)
Definition unionIds (q : RetrievalQuery) : list N :=
  nodup N.eq_dec (map fst (name_match_pool q) ++ map fst (semantic_pool q)).

(** Modelled from the spec: step 2, second half, of the Case Retriever:
      "below a minimum threshold a document is excluded regardless of
    semantic similarity".  A document the string match did not find has
    confidence 0. *)
Definition excluded (q : RetrievalQuery) (d : N) : bool :=
  match Qcompare (scoreIn (name_match_pool q) d) minimum_confidence with
  | Lt => true
  | _ => false
  end.

(** Modelled from the spec: the documents of the two pools that step 2
    does not exclude, every document once. *)
Definition candidateIds (q : RetrievalQuery) : list N :=
  filter (fun d => negb (excluded q d)) (unionIds q).

(** Modelled from the spec: step 4, first half, of the Case Retriever:
      the union of the two pools by [document_id], every document once,
    without the documents that step 2 excludes. *)
Definition merge (q : RetrievalQuery) : list RetrievedCase :=
  map (fun d => mkRetrievedCase d (scoreIn (semantic_pool q) d)
                                  (scoreIn (name_match_pool q) d))
      (candidateIds q).

(** Descending composite score; among equal scores the more recent
    filed date first. *)
Definition rankedBefore (a b : RetrievedCase) : Prop :=
  (composite b < composite a)%Q
  \/ ((composite a == composite b)%Q
      /\ (filed_date (document_id b) <= filed_date (document_id a))%Z).

(** Modelled from the spec: the ranking order of step 5.
      [a] is ranked no later than [b]: higher composite score first, and
    among equal scores the more recently filed first. *)
Definition ranksBefore (a b : RetrievedCase) : bool :=
  match Qcompare (composite b) (composite a) with
  | Lt => true
  | Eq => Z.leb (filed_date (document_id b)) (filed_date (document_id a))
  | Gt => false
  end.

Fixpoint insert (c : RetrievedCase) (l : list RetrievedCase)
  : list RetrievedCase :=
  match l with
  | [] => [c]
  | x :: rest => if ranksBefore c x then c :: l else x :: insert c rest
  end.

(** A stable sort: of two cases that tie completely the one that came
    first stays first. *)
Fixpoint rank (l : list RetrievedCase) : list RetrievedCase :=
  match l with
  | [] => []
  | c :: rest => insert c (rank rest)
  end.

(** Modelled from the spec: the Case Retriever is not in the sources at
    hand; this follows steps 2, 4 and 5 of its algorithm in the design
    document (exclude the documents below the minimum confidence, merge
    the pools by [document_id], rank by composite score with the filed
    date as tie-break, truncate to [limit]) and the [InvalidInput] rule of
    the error taxonomy.  A document that is in one pool only gets 0 for
    the score of the other pool. *)
Definition retrieve (q : RetrievalQuery)
  : RetrieverError + list RetrievedCase :=
  if blank (raw_name q) || (limit q <=? 0)%Z then inl InvalidInput
  else inr (firstn (Z.to_nat (limit q)) (rank (merge q))).

End WithCorpus.

End CaseRetriever.

(* ================================================================== *)
(** * Risk Scorer                                                       *)
(* ================================================================== *)

Module RiskScorer.
Import CaseRetriever.

Inductive Outcome : Type :=
| plaintiff_won | defendant_won | settled | dismissed | unknown.

Inductive CaseType : Type :=
| civil | criminal | labor | contract_dispute | other.

(** What the scorer reads of the CaseDocument behind a retrieved case. *)
Record CaseMetadata : Type := mkCaseMetadata {
  outcome : Outcome;
  case_type : CaseType;
  counterparty_was_defendant : bool;
  age_years : Q                     (* time since [filed_date] *)
}.

Record ScoredCase : Type := mkScoredCase {
  retrieved : RetrievedCase;
  metadata : CaseMetadata
}.

Inductive RiskLevel : Type := low | medium | high | risk_unknown.

Inductive Summary : Type :=
| NoAdverseHistoryFound
| CitesTopCases (top : list ScoredCase)
| Degraded.

Record KarmaScore : Type := mkKarmaScore {
  counterparty_name : jstring;
  risk_level : RiskLevel;
  numeric_score : Z;
  cases_considered : list RetrievedCase;
  summary_text : Summary;
  generated_at : Z
}.

(** Modelled from the spec: [outcome_weight] of the Risk Scorer. *)
Definition outcome_weight (m : CaseMetadata) : Q :=
  match outcome m with
  | defendant_won | settled => 1
  | dismissed => 3 # 10
  | plaintiff_won => if counterparty_was_defendant m then 1 else 2 # 10
  | unknown => 5 # 10
  end%Q.

(** Modelled from the spec: [recency_weight] of the Risk Scorer:
    1.0 up to 2 years, then down linearly to 0.2 at 10 years, 0.2 from
    there on. *)
Definition recency_weight (m : CaseMetadata) : Q :=
  (if Qle_bool (age_years m) 2 then 1
   else if Qle_bool 10 (age_years m) then 2 # 10
   else 1 - (age_years m - 2) * (1 # 10))%Q.

(** Modelled from the spec:
    [case_weight = outcome_weight * recency_weight * name_match_confidence]. *)
Definition case_weight (c : ScoredCase) : Q :=
  (outcome_weight (metadata c) * recency_weight (metadata c)
   * name_match_confidence (retrieved c))%Q.

Definition total_weight (cases : list ScoredCase) : Q :=
  fold_right Qplus 0%Q (map case_weight cases).

(** Modelled from the spec: [round] of the score formula, taken as the
    nearest integer with halves up. *)
Definition round (x : R) : Z := Int_part (x + / 2)%R.

(** Modelled from the spec: the saturating score of the Risk Scorer,
    [min(100, round(100 * (1 - exp(-sum(case_weight) / normalization_constant))))]. *)
Definition saturate (normalization_constant : Q) (sum : Q) : Z :=
  Z.min 100
    (round (100 * (1 - exp (- Q2R sum / Q2R normalization_constant)))%R).

Definition scoreOf (normalization_constant : Q) (cases : list ScoredCase)
  : Z :=
  match cases with
  | [] => 0%Z
  | _ :: _ => saturate normalization_constant (total_weight cases)
  end.

(** Modelled from the spec: the fixed tertile thresholds of [risk_level]. *)
Definition levelOf (score : Z) : RiskLevel :=
  if (score <? 34)%Z then low
  else if (score <? 67)%Z then medium
  else high.

Fixpoint insertByWeight (c : ScoredCase) (l : list ScoredCase)
  : list ScoredCase :=
  match l with
  | [] => [c]
  | x :: rest =>
      if Qle_bool (case_weight x) (case_weight c) then c :: l
      else x :: insertByWeight c rest
  end.

(** The top 1-3 cases by [case_weight]. *)
Definition topCases (cases : list ScoredCase) : list ScoredCase :=
  firstn 3 (fold_right insertByWeight [] cases).

Definition default_normalization_constant : Q := 3%Q.

(** Modelled from the spec: the Risk Scorer is not in the sources at
    hand; this is the algorithm of the design document, with exact
    rational weights and the exponential over the real numbers.  [cases]
    are the retrieved cases with well-formed metadata, in rank order. *)
Definition score (normalization_constant : Q) (name : jstring)
    (cases : list ScoredCase) (now : Z) : KarmaScore :=
  match cases with
  | [] => mkKarmaScore name low 0 [] NoAdverseHistoryFound now
  | _ :: _ =>
      let n := scoreOf normalization_constant cases in
      mkKarmaScore name (levelOf n) n (map retrieved cases)
                   (CitesTopCases (topCases cases)) now
  end.

End RiskScorer.

(* ================================================================== *)
(** * Sample inputs                                                     *)
(* ================================================================== *)

Module Samples.

Definition contract : ContractData :=
  mkContractData (lit "The employee shall ...") (lit "TechCorp India")
                 En 1700000000000.

Definition form : InputPage.Form :=
  InputPage.mkForm (lit "The employee shall ...") (lit "TechCorp India") En.

(** Only whitespace in the party name: space, tab, no-break space. *)
Definition blankPartyForm : InputPage.Form :=
  InputPage.mkForm (lit "The employee shall ...") [32; 9; 160]%N En.

(** Findings whose vocabulary has drifted. *)
Definition rawFindings : list Value :=
  [ VObj [(lit "loophole_type", VStr (lit "unfair_clause"));
          (lit "exploitation_potential", VStr (lit "critical"));
          (lit "description", VStr (lit "d"))];
    VObj [(lit "loophole_type", VStr (lit "ambiguity"))] ].

Definition analysis : Value :=
  VObj [(lit "analysis",
         VObj [(lit "advanced_risk_analysis",
                VObj [(lit "loophole_analysis", VArr rawFindings)])])].

(** A finding whose type and potential are written the way the page
    itself prints them. *)
Definition capitalisedFinding : Value :=
  VObj [(lit "loophole_type", VStr (lit "Ambiguous Clause"));
        (lit "exploitation_potential", VStr (lit "High"));
        (lit "description", VStr (lit "The notice period is not stated."))].

(** The findings above followed by a [null] entry. *)
Definition analysisWithNullFinding : Value :=
  VObj [(lit "analysis",
         VObj [(lit "advanced_risk_analysis",
                VObj [(lit "loophole_analysis",
                       VArr (rawFindings ++ [VNull]))])])].

(** A browser in which a contract and an (empty) analysis are stored. *)
Definition analysedBrowser : Browser :=
  mkBrowser (mkStorage (Some contract) (Some (VObj []))) [] [] [] [].

(** "TechCorp India Pvt Ltd" lost as defendant one year ago. *)
Definition recentCase : RiskScorer.ScoredCase :=
  RiskScorer.mkScoredCase
    (CaseRetriever.mkRetrievedCase 1 (8 # 10)%Q 1)
    (RiskScorer.mkCaseMetadata RiskScorer.defendant_won
                               RiskScorer.contract_dispute true 1).

(** The same case, nine years old. *)
Definition oldCase : RiskScorer.ScoredCase :=
  RiskScorer.mkScoredCase
    (CaseRetriever.mkRetrievedCase 2 (8 # 10)%Q 1)
    (RiskScorer.mkCaseMetadata RiskScorer.defendant_won
                               RiskScorer.contract_dispute true 9).

Definition query : CaseRetriever.RetrievalQuery :=
  CaseRetriever.mkRetrievalQuery (lit "TechCorp India")
                                 [lit "techcorp india"] None 2.

(** The same query with room for every document. *)
Definition wideQuery : CaseRetriever.RetrievalQuery :=
  CaseRetriever.mkRetrievalQuery (lit "TechCorp India")
                                 [lit "techcorp india"] None 10.

(** Four documents; 7 is in both pools with an exact name match, 8 is a
    fuzzy name match only, 6 is a weak name match (0.3) that is
    semantically very close, 9 is a semantic candidate only. *)
Definition namePool (_ : CaseRetriever.RetrievalQuery) : list (N * Q) :=
  [(7%N, 1%Q); (8%N, (5 # 10)%Q); (6%N, (3 # 10)%Q)].

Definition semanticPool (_ : CaseRetriever.RetrievalQuery) : list (N * Q) :=
  [(9%N, (9 # 10)%Q); (7%N, (5 # 10)%Q); (6%N, (95 # 100)%Q)].

Definition filedDate (d : N) : Z := Z.of_N d.

End Samples.

(* ================================================================== *)
(** * ReportPage: chat, experience form and X-Ray request               *)
(* ================================================================== *)

Module ReportPageHandlers.

(** The text of a chat entry.  Template literals and values coming from
    the backend are kept as they are, without ToString. *)
Inductive ChatText : Type :=
| Typed (s : jstring)          (* what the user typed *)
| FromBackend (v : Value)      (* [result.chat_response.answer] *)
| ErrorReport (v : Value)      (* `Error: ${v}` *)
| Canned (s : string).         (* a string literal of the page *)

Record ChatEntry : Type := mkChatEntry {
  role : string;
  message : ChatText
}.

Record ChatState : Type := mkChatState {
  chatMessage : jstring;
  chatHistory : list ChatEntry;
  isChatLoading : bool
}.

(** [a && b] *)
Definition andAlso (a b : Value) : Value := if truthy a then b else a.

(** The [try] block of [handleChatSubmit] after the request was sent: the
    entry it appends, or the exception it throws. *)
Definition chatReply (o : FetchOutcome) : Exn + ChatEntry :=
  match o with
  | FetchRejects => inl NetworkError
  | FetchResponse ok status body =>
      if negb ok then inl (HttpError status)
      else
        match body with
        | None => inl SyntaxError
        | Some result =>
            match getProp result (lit "success"),
                  getProp result (lit "chat_response"),
                  getProp result (lit "error") with
            | inr success, inr chat_response, inr error =>
                if truthy (andAlso success chat_response) then
                  inr (mkChatEntry "ai"
                         (let answer := getPropOpt chat_response (lit "answer") in
                          if truthy answer then FromBackend answer
                          else Canned "I couldn't process your question. Please try again."))
                else
                  inr (mkChatEntry "ai"
                         (ErrorReport
                            (if truthy error then error
                             else VStr (lit "Unknown error"))))
            | _, _, _ => inl TypeError
            end
        end
  end.

(** [handleChatSubmit]; [contractData] is the page's state of that name. *)
Definition handleChatSubmit (contractData : option ContractData)
    (o : FetchOutcome) (b : Browser) (st : ChatState) : Browser * ChatState :=
  if negb (JSString.truthy (trim (chatMessage st)))
     || match contractData with None => true | Some _ => false end
  then (b, st)
  else
    let newHistory :=
      chatHistory st ++ [mkChatEntry "user" (Typed (chatMessage st))] in
    match chatReply o with
    | inr entry => (b, mkChatState [] (newHistory ++ [entry]) false)
    | inl e =>
        (consoleError e b,
         mkChatState []
           (newHistory
            ++ [mkChatEntry "ai"
                  (Canned "Sorry, I encountered an error. Please try again.")])
           false)
    end.

Record ExperienceState : Type := mkExperienceState {
  userExperience : jstring;
  isSubmittingExperience : bool;
  submissionPending : bool     (* the [setTimeout(..., 1000)] is armed *)
}.

(** [handleExperienceSubmit] up to the [setTimeout]. *)
Definition handleExperienceSubmit (b : Browser) (st : ExperienceState)
  : Browser * ExperienceState :=
  if negb (JSString.truthy (trim (userExperience st))) then
    (toast (mkToast "Experience Required"
                    "Please share your experience before submitting."
                    Destructive) b,
     st)
  else (b, mkExperienceState (userExperience st) true true).

(** The callback of the [setTimeout]. *)
Definition experienceSubmitted (b : Browser) (st : ExperienceState)
  : Browser * ExperienceState :=
  if submissionPending st then
    (toast (mkToast "Thank You!"
              "Your experience has been submitted anonymously and will help others."
              Plain) b,
     mkExperienceState [] false false)
  else (b, st).

Record XrayState : Type := mkXrayState {
  xrayResults : Value;          (* useState<any>(null) *)
  isXrayLoading : bool
}.

(** [contractData?.contractText] as a condition. *)
Definition hasContractText (contractData : option ContractData) : bool :=
  match contractData with
  | None => false
  | Some d => JSString.truthy (contractText d)
  end.

(** [fetchXrayAnalysis]; the second component tells whether a request was
    sent. *)
Definition fetchXrayAnalysis (contractData : option ContractData)
    (o : FetchOutcome) (b : Browser) (st : XrayState)
  : Browser * XrayState * bool :=
  if truthy (xrayResults st) || isXrayLoading st
     || negb (hasContractText contractData)
  then (b, st, false)
  else
    let failed (e : Exn) :=
      (toast (mkToast "X-Ray Analysis Failed"
                "Could not perform X-Ray analysis. Please try again."
                Destructive)
             (consoleError e b),
       mkXrayState (xrayResults st) false, true) in
    match o with
    | FetchRejects => failed NetworkError
    | FetchResponse ok status body =>
        if ok then
          match body with
          | Some result => (b, mkXrayState result false, true)
          | None => failed SyntaxError
          end
        else failed (HttpError status)
    end.

End ReportPageHandlers.

(* ================================================================== *)
(** * AnalyzingPage, axios variant: validation and [runAnimation]       *)
(* ================================================================== *)

Module AxiosAnalyzing.
Import AnalyzingPageAxios.

Definition steps : list AnalyzingPage.Step :=
  [ AnalyzingPage.mkStep "Reading your document..."
      "Parsing contract structure" 2000;
    AnalyzingPage.mkStep "Performing AI X-Ray scan..."
      "Analyzing clauses for hidden risks" 3000;
    AnalyzingPage.mkStep "Scanning public legal records..."
      "Searching legal databases" 2500;
    AnalyzingPage.mkStep "Consulting The People's Ledger..."
      "Gathering community insights" 2000;
    AnalyzingPage.mkStep "Compiling your NyayDarpan Report..."
      "Generating comprehensive risk assessment" 1500 ].

Inductive Timer : Type :=
| NoTimer
| Interval (stepIndex : nat) (progressValue : Z)
           (stepDuration : Z) (stepProgress : Q)
    (* the [setInterval(..., 50)] of [nextStep] *)
| NextStep (stepIndex : nat)
    (* [setTimeout(nextStep, 300)] *)
| NavigateToReport.
    (* [setTimeout(() => navigate("/report"), 500)] *)

Record Machine : Type := mkMachine {
  browser : Browser;
  contractData : option ContractData;   (* useState<any>(null) *)
  analysisResult : Value;               (* useState<any>(null) *)
  progress : Q;
  currentStep : nat;
  timer : Timer
}.

Definition onBrowser (f : Browser -> Browser) (m : Machine) : Machine :=
  mkMachine (f (browser m)) (contractData m) (analysisResult m)
            (progress m) (currentStep m) (timer m).

Definition setProgress (p : Q) (m : Machine) : Machine :=
  mkMachine (browser m) (contractData m) (analysisResult m)
            p (currentStep m) (timer m).

Definition setTimer (t : Timer) (m : Machine) : Machine :=
  mkMachine (browser m) (contractData m) (analysisResult m)
            (progress m) (currentStep m) t.

(** [nextStep] of [runAnimation]. *)
Definition nextStep (stepIndex : nat) (m : Machine) : Machine :=
  match nth_error steps stepIndex with
  | Some s =>
      mkMachine (browser m) (contractData m) (analysisResult m)
                (progress m) stepIndex
                (Interval stepIndex 0 (AnalyzingPage.step_duration s)
                          (100 / inject_Z (Z.of_nat (List.length steps)))%Q)
  | None =>
      setTimer NavigateToReport (setProgress 100 m)
  end.

(** The first effect: load and validate [contractData]. *)
Definition loadContractData (b : Browser) : Browser * option ContractData :=
  match item_contractData (sessionStorage b) with
  | None => (navigate "/input" b, None)
  | Some parsed =>
      if negb (JSString.truthy (contractText parsed))
         || negb (JSString.truthy (partyName parsed))
      then (navigate "/input"
              (alert "Invalid contract data in sessionStorage" b), None)
      else (b, Some parsed)
  end.

(** The second effect: [analyzeContractBackend], and [runAnimation] when
    the request succeeded. *)
Definition mount (o : AxiosOutcome) (b : Browser) : Machine :=
  let '(b1, data) := loadContractData b in
  let m := mkMachine b1 data VNull 0 0 NoTimer in
  match data with
  | None => m
  | Some _ =>
      match o with
      | AxiosResolves result =>
          nextStep 0
            (mkMachine (setItem_analysisResult result b1) data result
                       0 0 NoTimer)
      | AxiosRejects e =>
          onBrowser (fun b =>
                       alert "Contract analysis failed. Check console for details."
                             (consoleError e b)) m
      end
  end.

(** One timer callback. *)
Definition step (m : Machine) : Machine :=
  match timer m with
  | NoTimer => m
  | Interval stepIndex progressValue stepDuration stepProgress =>
      let progressValue := (progressValue + 50)%Z in
      let currentProgress :=
        AnalyzingPage.Qmin
          (inject_Z (Z.of_nat stepIndex) * stepProgress
           + inject_Z progressValue / inject_Z stepDuration * stepProgress)%Q
          (inject_Z (Z.of_nat stepIndex + 1) * stepProgress)%Q in
      let m1 := setProgress currentProgress m in
      if (stepDuration <=? progressValue)%Z then
        setTimer (NextStep (S stepIndex)) m1
      else setTimer (Interval stepIndex progressValue stepDuration
                              stepProgress) m1
  | NextStep stepIndex => nextStep stepIndex m
  | NavigateToReport =>
      setTimer NoTimer (onBrowser (navigate "/report") m)
  end.

Fixpoint run (n : nat) (m : Machine) : Machine :=
  match n with
  | O => m
  | S n' => run n' (step m)
  end.

(** Interval callbacks of the five steps (every 50 ms), one timeout after
    each step and the timeout that navigates. *)
Definition animationCallbacks : nat :=
  fold_right (fun s n => (Z.to_nat ((AnalyzingPage.step_duration s + 49) / 50)
                          + (1 + n))%nat)
             1%nat steps.

End AxiosAnalyzing.

(* ================================================================== *)
(** * SignupPage: password strength and the sign-up guard               *)
(* ================================================================== *)

Module SignupPage.

Definition isUpper (c : N) : bool := (N.leb 65 c && N.leb c 90)%N.
Definition isLower (c : N) : bool := (N.leb 97 c && N.leb c 122)%N.
Definition isDigit (c : N) : bool := (N.leb 48 c && N.leb c 57)%N.
(** A code unit matched by [/[^A-Za-z0-9]/]. *)
Definition isOther (c : N) : bool :=
  negb (isUpper c || isLower c || isDigit c).

Definition bump (cond : bool) (strength : Z) : Z :=
  if cond then (strength + 1)%Z else strength.

Definition getPasswordStrength (pass : jstring) : Z :=
  bump (existsb isOther pass)
    (bump (existsb isDigit pass)
       (bump (existsb isLower pass)
          (bump (existsb isUpper pass)
             (bump (8 <=? Z.of_nat (List.length pass))%Z 0%Z)))).

Definition strengthLabels : list string :=
  ["Very Weak"; "Weak"; "Fair"; "Good"; "Strong"]%string.

(** [passwordStrength > 0 ? strengthLabels[passwordStrength - 1] : "Too short"];
    [None] stands for [undefined]. *)
Definition strengthLabel (pass : jstring) : option string :=
  let s := getPasswordStrength pass in
  if (0 <? s)%Z then nth_error strengthLabels (Z.to_nat (s - 1))
  else Some "Too short"%string.

Record Form : Type := mkForm {
  fullName : jstring;
  email : jstring;
  password : jstring;
  agreeToTerms : bool
}.

(** What the page shows; [error.message] of the auth hook is kept as it
    comes. *)
Inductive Notice : Type :=
| TermsRequired
| PasswordTooWeak
| ErrorCreatingAccount (message : jstring)
| AccountCreated.

Definition destructive (n : Notice) : bool :=
  match n with AccountCreated => false | _ => true end.

Record Outcome : Type := mkOutcome {
  signUpCalls : list (jstring * jstring * jstring);  (* email, password, name *)
  notices : list Notice;
  navigatedTo : list string;
  isLoading : bool
}.

(** [handleEmailSignup]; [signUp] is the auth hook's function, which
    resolves to [{ error }] with [error] either [null] or an object with a
    [message]. *)
Definition handleEmailSignup
    (signUp : jstring -> jstring -> jstring -> option jstring)
    (f : Form) : Outcome :=
  if negb (agreeToTerms f) then mkOutcome [] [TermsRequired] [] false
  else if (getPasswordStrength (password f) <? 3)%Z then
    mkOutcome [] [PasswordTooWeak] [] false
  else
    let call := (email f, password f, fullName f) in
    match signUp (email f) (password f) (fullName f) with
    | Some message =>
        mkOutcome [call] [ErrorCreatingAccount message] [] false
    | None => mkOutcome [call] [AccountCreated] ["/input"%string] false
    end.

End SignupPage.

(* ================================================================== *)
(** * InputPage: file upload                                            *)
(* ================================================================== *)

Module FileUpload.

(** A [File] of the browser, together with what the environment does with
    it: what [file.text()] resolves to ([None] when it rejects) and what
    the POST of the file to /api/extract-text does. *)
Record File : Type := mkFile {
  file_name : jstring;
  file_type : jstring;
  file_size : Z;
  file_text : option jstring;
  extraction : FetchOutcome
}.

(** The toasts of the two handlers; template literals keep their holes. *)
Inductive Notice : Type :=
| InvalidFileType
| FileTooLarge
| FileUploaded (extracted : bool)
| UploadFailed
| ProcessingFiles (totalFiles : nat)
| UnsupportedSkipping (name : jstring)
| TooLargeSkipping (name : jstring)
| MultipleFilesProcessed (processedCount totalFiles : nat).

Definition destructive (n : Notice) : bool :=
  match n with
  | InvalidFileType | FileTooLarge | UploadFailed
  | UnsupportedSkipping _ | TooLargeSkipping _ => true
  | FileUploaded _ | ProcessingFiles _ | MultipleFilesProcessed _ _ => false
  end.

(** What [console.error] is given in the [catch] blocks. *)
Inductive Failure : Type :=
| ReadRejected                  (* [file.text()] rejected *)
| Thrown (e : Exn)
| NotExtracted (reason : Value). (* [new Error(result.error || ...)] *)

Record State : Type := mkState {
  contractText : jstring;       (* the page's state of that name *)
  notices : list Notice;
  errors : list Failure
}.

Definition notify (n : Notice) (st : State) : State :=
  mkState (contractText st) (notices st ++ [n]) (errors st).

Definition logError (e : Failure) (st : State) : State :=
  mkState (contractText st) (notices st) (errors st ++ [e]).

(** [setContractText(prev => prev + (prev ? '\n\n' : '') + text)] *)
Definition appendText (text : jstring) (st : State) : State :=
  mkState (contractText st
           ++ (if JSString.truthy (contractText st) then [10; 10]%N else [])
           ++ text)
          (notices st) (errors st).

Definition maxSize : Z := 10 * 1024 * 1024.

Definition includes (types : list jstring) (t : jstring) : bool :=
  existsb (JSString.eqb t) types.

(** [s.endsWith(suffix)] *)
Definition endsWith (s suffix : jstring) : bool :=
  JSString.eqb (skipn (List.length s - List.length suffix) s) suffix
  && (List.length suffix <=? List.length s)%nat.

Definition allowedTypes : list jstring :=
  [ lit "application/pdf"; lit "application/msword";
    lit "application/vnd.openxmlformats-officedocument.wordprocessingml.document";
    lit "text/plain" ].

Definition allowedTypesMultiple : list jstring :=
  allowedTypes
  ++ [ lit "image/jpeg"; lit "image/png"; lit "image/gif"; lit "image/webp" ].

Definition extensions : list jstring :=
  [ lit ".pdf"; lit ".doc"; lit ".docx"; lit ".txt"; lit ".jpg";
    lit ".jpeg"; lit ".png"; lit ".gif"; lit ".webp" ].

(** [name.match(/\.(pdf|doc|docx|txt|jpg|jpeg|png|gif|webp)$/i)]: without
    the [u] flag a code unit from 128 on never matches an ASCII letter, so
    ignoring case is ignoring the case of A-Z. *)
Definition hasKnownExtension (name : jstring) : bool :=
  existsb (endsWith (asciiLower name)) extensions.

Definition isTextFile (f : File) : bool :=
  JSString.eqb (file_type f) (lit "text/plain")
  || endsWith (file_name f) (lit ".txt").

(** [result.extracted_text || result.text || ''] *)
Definition extractedText (result : Value) : Value :=
  ReportPage.orElse (getPropOpt result (lit "extracted_text"))
    (ReportPage.orElse (getPropOpt result (lit "text")) (VStr [])).

(** [`--- ${file.name} ---\n`] *)
Definition header (name : jstring) : jstring :=
  lit "--- " ++ name ++ lit " ---" ++ [10%N].

Section WithToString.

(** JavaScript's ToString, applied when a value of the backend is
    concatenated to the contract text. *)
Variable toStr : Value -> jstring.

(** The [catch] of [handleFileUpload]. *)
Definition uploadFailed (e : Failure) (st : State) : State :=
  notify UploadFailed (logError e st).

(** [handleFileUpload] for a single file. *)
Definition uploadOne (f : File) (st : State) : State :=
  if negb (includes allowedTypes (file_type f)) then notify InvalidFileType st
  else if (maxSize <? file_size f)%Z then notify FileTooLarge st
  else if isTextFile f then
    match file_text f with
    | Some text => notify (FileUploaded false) (appendText text st)
    | None => uploadFailed ReadRejected st
    end
  else
    match extraction f with
    | FetchRejects => uploadFailed (Thrown NetworkError) st
    | FetchResponse ok status body =>
        if ok then
          match body with
          | None => uploadFailed (Thrown SyntaxError) st
          | Some result =>
              match getProp result (lit "success") with
              | inl e => uploadFailed (Thrown e) st
              | inr success =>
                  if truthy success then
                    notify (FileUploaded true)
                           (appendText (toStr (extractedText result)) st)
                  else
                    uploadFailed
                      (NotExtracted
                         (ReportPage.orElse (getPropOpt result (lit "error"))
                            (VStr (lit "Failed to extract text")))) st
              end
          end
        else uploadFailed (Thrown (HttpError status)) st
    end.

(** The loop of [handleMultipleFileUpload]; the second component is
    [processedCount]. *)
Fixpoint processFiles (files : list File) (processedCount : nat) (st : State)
  : State * nat :=
  match files with
  | [] => (st, processedCount)
  | f :: rest =>
      if negb (includes allowedTypesMultiple (file_type f))
         && negb (hasKnownExtension (file_name f))
      then processFiles rest processedCount
             (notify (UnsupportedSkipping (file_name f)) st)
      else if (maxSize <? file_size f)%Z
      then processFiles rest processedCount
             (notify (TooLargeSkipping (file_name f)) st)
      else if isTextFile f then
        match file_text f with
        | Some text =>
            processFiles rest (S processedCount)
              (appendText (header (file_name f) ++ text) st)
        | None => processFiles rest processedCount (logError ReadRejected st)
        end
      else
        match extraction f with
        | FetchRejects =>
            processFiles rest processedCount
              (logError (Thrown NetworkError) st)
        | FetchResponse ok status body =>
            if ok then
              match body with
              | None =>
                  processFiles rest processedCount
                    (logError (Thrown SyntaxError) st)
              | Some result =>
                  match getProp result (lit "success") with
                  | inl e =>
                      processFiles rest processedCount
                        (logError (Thrown e) st)
                  | inr success =>
                      if truthy success then
                        processFiles rest (S processedCount)
                          (appendText
                             (header (file_name f)
                              ++ toStr (extractedText result)) st)
                      else processFiles rest processedCount st
                  end
              end
            else processFiles rest processedCount st
        end
  end.

(** [handleMultipleFileUpload] *)
Definition handleMultipleFileUpload (files : list File) (st : State) : State :=
  let totalFiles := List.length files in
  let '(st1, processedCount) :=
    processFiles files 0 (notify (ProcessingFiles totalFiles) st) in
  notify (MultipleFilesProcessed processedCount totalFiles) st1.

(** [handleFileUpload]; [files] is [event.target.files], [None] for
    [null]. *)
Definition handleFileUpload (files : option (list File)) (st : State)
  : State :=
  match files with
  | None | Some [] => st
  | Some [f] => uploadOne f st
  | Some (f :: g :: more) => handleMultipleFileUpload (f :: g :: more) st
  end.

End WithToString.

End FileUpload.

(* ================================================================== *)
(** * ChatPage.handleSendMessage                                        *)
(* ================================================================== *)

Module ChatPage.
Import AnalyzingPageAxios.

Inductive ChatText : Type :=
| Typed (s : jstring)           (* the trimmed input *)
| Answer (v : Value)            (* [response.data.answer] *)
| NoResponse                    (* "No response from AI" *)
| BackendError (v : Value)      (* `Error: ${response.data.error}` *)
| RequestFailed (e : Exn).      (* `Request failed: ${err.message}` *)

Record ChatMessage : Type := mkChatMessage {
  sender : string;
  text : ChatText
}.

Record State : Type := mkState {
  contractText : jstring;
  inputMessage : jstring;
  messages : list ChatMessage
}.

(** The [try] block after the user's message was added: the message it
    appends, or what it throws. *)
Definition reply (o : AxiosOutcome) : Exn + ChatMessage :=
  match o with
  | AxiosRejects e => inl e
  | AxiosResolves data =>
      match getProp data (lit "success") with
      | inl e => inl e
      | inr success =>
          if truthy success then
            let answer := getPropOpt data (lit "answer") in
            inr (mkChatMessage "ai"
                   (if truthy answer then Answer answer else NoResponse))
          else
            inr (mkChatMessage "ai"
                   (BackendError (getPropOpt data (lit "error"))))
      end
  end.

Definition handleSendMessage (o : AxiosOutcome) (st : State) : State :=
  if negb (JSString.truthy (trim (inputMessage st)))
     || negb (JSString.truthy (contractText st))
  then st
  else
    let userMessage := trim (inputMessage st) in
    let withUser := messages st ++ [mkChatMessage "user" (Typed userMessage)] in
    mkState (contractText st) []
      (withUser
       ++ [match reply o with
           | inr m => m
           | inl e => mkChatMessage "ai" (RequestFailed e)
           end]).

End ChatPage.

(** The [analysisResults] the report page takes from [sessionStorage]:
    the stored item, [null] when there is none. *)
Definition storedAnalysis (b : Browser) : Value :=
  match item_analysisResult (sessionStorage b) with
  | Some a => a
  | None => VNull
  end.

(** What holds of the analysing page at every moment: the step shown
    exists, the progress is a percentage, and the pending timer carries
    values that keep it so. *)
Definition timerInRange (t : AnalyzingPage.Timer) : Prop :=
  match t with
  | AnalyzingPage.NoTimer | AnalyzingPage.NavigateToReport => True
  | AnalyzingPage.SuccessInterval stepIndex => (stepIndex < 4)%nat
  | AnalyzingPage.FallbackInterval stepIndex progressValue stepDuration
                                   stepProgress startProgress =>
      (stepIndex < 5)%nat /\ (0 <= progressValue)%Z /\ (0 < stepDuration)%Z
      /\ (stepProgress == 20)%Q /\ (0 <= startProgress)%Q
  | AnalyzingPage.FallbackNextStep _ progressValue => (0 <= progressValue)%Z
  end.

Definition pageInRange (m : AnalyzingPage.Machine) : Prop :=
  (AnalyzingPage.currentStep m < List.length AnalyzingPage.steps)%nat
  /\ (0 <= AnalyzingPage.progress m)%Q
  /\ (AnalyzingPage.progress m <= 100)%Q
  /\ timerInRange (AnalyzingPage.timer m).

Module MoreSamples.

(** A text file whose browser-reported type is empty. *)
Definition untypedTextFile : FileUpload.File :=
  FileUpload.mkFile (lit "contract.txt") [] 120 (Some (lit "Clause 1"))
                    FetchRejects.

Definition plainTextFile : FileUpload.File :=
  FileUpload.mkFile (lit "contract.txt") (lit "text/plain") 120
                    (Some (lit "Clause 1")) FetchRejects.

Definition hugePdf : FileUpload.File :=
  FileUpload.mkFile (lit "scan.PDF") (lit "application/pdf")
                    (FileUpload.maxSize + 1) None FetchRejects.

Definition emptyUpload : FileUpload.State := FileUpload.mkState [] [] [].

(** A stand-in for ToString in examples: strings as they are, anything
    else empty. *)
Definition toStrSample (v : Value) : jstring :=
  match v with VStr s => s | _ => [] end.

End MoreSamples.

(* ================================================================== *)
(** * ReportPage, variant that fetches the analysis itself              *)
(* ================================================================== *)

Module ReportPageFetch.

Inductive Notice : Type :=
| ErrorFetchingAnalysis (e : Exn).   (* description: [error.message] *)

Record State : Type := mkState {
  contractData : option ContractData;
  analysisResults : Value;            (* useState<any>(null) *)
  notices : list Notice
}.

(** [fetchAnalysis], run by the effect once [contractData] is set. *)
Definition fetchAnalysis (o : FetchOutcome) (st : State) : State :=
  match contractData st with
  | None => st
  | Some _ =>
      let failed (e : Exn) :=
        mkState (contractData st) (analysisResults st)
                (notices st ++ [ErrorFetchingAnalysis e]) in
      match o with
      | FetchRejects => failed NetworkError
      | FetchResponse ok status body =>
          if negb ok then failed (HttpError status)
          else match body with
               | None => failed SyntaxError
               | Some data => mkState (contractData st) data (notices st)
               end
      end
  end.

(** [!contractData || !analysisResults]: the page shows "Loading contract
    analysis..." instead of the report. *)
Definition showsLoading (st : State) : bool :=
  match contractData st with
  | None => true
  | Some _ => negb (truthy (analysisResults st))
  end.

Section WithLowerCase.

Variable toLowerCase : jstring -> jstring.

(** [getRiskColor(finding.riskLevel)] as the JSX calls it, on whatever the
    backend put there: reading [riskLevel] of [null] throws, and so does
    calling [toLowerCase] on anything that is not a string. *)
Definition badgeOf (finding : Value) : Exn + string :=
  match getProp finding (lit "riskLevel") with
  | inl e => inl e
  | inr (VStr level) => inr (RiskColor.getRiskColor toLowerCase level)
  | inr _ => inl TypeError
  end.

(** The badges of [analysisResults.contractAnalysis.map(...)], left to
    right. *)
Fixpoint badgesOf (findings : list Value) : Exn + list string :=
  match findings with
  | [] => inr []
  | finding :: rest =>
      match badgeOf finding with
      | inl e => inl e
      | inr badge =>
          match badgesOf rest with
          | inl e => inl e
          | inr badges => inr (badge :: badges)
          end
      end
  end.

(** The findings section of the report for a truthy [analysisResults]. *)
Definition findingBadges (analysisResults : Value) : Exn + list string :=
  match getProp analysisResults (lit "contractAnalysis") with
  | inl e => inl e
  | inr (VArr findings) => badgesOf findings
  | inr _ => inl TypeError
  end.

End WithLowerCase.

End ReportPageFetch.

(* ================================================================== *)
(** * InputPage, variant whose [handleSubmit] guards the storage write   *)
(* ================================================================== *)

Module InputPageGuarded.

(** What [sessionStorage.setItem] may throw. *)
Inductive DOMException : Type :=
| QuotaExceededError
| SecurityError.

Record Result : Type := mkResult {
  browser : Browser;
  logged : list DOMException;   (* [console.error(error)] of the handler *)
  loading : bool
}.

(** [handleSubmit]; [setItemThrows] is what [sessionStorage.setItem] throws,
    if it does (quota exceeded, storage disabled). *)
Definition handleSubmit (f : InputPage.Form) (now : Z)
    (setItemThrows : option DOMException) (b : Browser) : Result :=
  if negb (JSString.truthy (trim (InputPage.form_contractText f))) then
    mkResult (toast (mkToast "Contract Required"
                             "Please paste your contract text." Destructive) b)
             [] false
  else if negb (JSString.truthy (trim (InputPage.form_partyName f))) then
    mkResult (toast (mkToast "Party Name Required"
                             "Please enter the other party's name."
                             Destructive) b)
             [] false
  else
    match setItemThrows with
    | Some error =>
        mkResult (toast (mkToast "Unexpected Error"
                           "Something went wrong while saving contract locally."
                           Destructive) b)
                 [error] false
    | None =>
        mkResult
          (navigate "/analyzing"
             (toast (mkToast "Analysis Starting"
                             "Redirecting to analysis page..." Plain)
                (setItem_contractData
                   (mkContractData (InputPage.form_contractText f)
                                   (InputPage.form_partyName f)
                                   (InputPage.form_language f) now) b)))
          [] false
    end.

End InputPageGuarded.

(* ================================================================== *)
(** * NyayBot (the assistant that asks /api/nyaybot)                    *)
(* ================================================================== *)

Module NyayBot.

Fixpoint startsWith (s prefix : jstring) : bool :=
  match prefix, s with
  | [], _ => true
  | p :: prefix', c :: s' => N.eqb p c && startsWith s' prefix'
  | _ :: _, [] => false
  end.

(** [s.includes(sub)] *)
Fixpoint includes (s sub : jstring) : bool :=
  startsWith s sub
  || match s with
     | [] => false
     | _ :: rest => includes rest sub
     end.

Definition aboutAnalysis : string :=
  "Our AI-powered contract analysis uses advanced machine learning to scan your documents for hidden risks, unclear terms, and potential legal issues. It provides a comprehensive risk score and actionable recommendations in simple language.".
Definition aboutSecurity : string :=
  "Yes, your data is completely secure! We use end-to-end encryption, and all documents are processed anonymously. We never store your personal information or share your contracts with third parties.".
Definition aboutContracts : string :=
  "We can analyze various types of contracts including employment agreements, service contracts, lease agreements, partnership agreements, and more. We support PDF, DOC, DOCX, and text files up to 10MB.".
Definition aboutPricing : string :=
  "NyayDarpan offers both free and premium services. The basic analysis is free, while advanced features like detailed legal precedents and priority support are available with our premium plans.".
Definition aboutKarma : string :=
  "Our Karma Check feature analyzes the legal history of the other party using public court records and legal databases. It helps you understand if there have been any disputes or issues with this party in the past.".
Definition aboutCommunity : string :=
  "The Community Intelligence feature allows users to anonymously share their experiences with different parties. This helps others make informed decisions based on real user experiences.".
Definition introduction : string :=
  "I'm NyayBot, your AI legal assistant! I can help you understand contract analysis, data security, supported document types, pricing, and more. Feel free to ask me anything about NyayDarpan!".

Definition cannedResponses : list string :=
  [aboutAnalysis; aboutSecurity; aboutContracts; aboutPricing; aboutKarma;
   aboutCommunity; introduction].

Inductive Content : Type :=
| Typed (s : jstring)
| FromBackend (v : Value)       (* [result.response] *)
| Rephrase                      (* "I'm here to help! Could you please rephrase your question?" *)
| Canned (s : string).

Record Message : Type := mkMessage {
  type : string;
  content : Content
}.

Record State : Type := mkState {
  messages : list Message;
  inputMessage : jstring;
  isLoading : bool
}.

Section WithLowerCase.

Variable toLowerCase : jstring -> jstring.

Definition getFallbackResponse (message : jstring) : string :=
  let lowerMessage := toLowerCase message in
  let has (word : string) := includes lowerMessage (lit word) in
  if has "analysis"%string || has "analyze"%string then aboutAnalysis
  else if has "secure"%string || has "privacy"%string || has "data"%string then aboutSecurity
  else if has "contract"%string || has "document"%string then aboutContracts
  else if has "free"%string || has "cost"%string || has "price"%string then aboutPricing
  else if has "karma"%string || has "background"%string then aboutKarma
  else if has "community"%string || has "review"%string then aboutCommunity
  else introduction.

(** What the bot appends for [userMessage]. *)
Definition botReply (o : FetchOutcome) (userMessage : jstring) : Content :=
  match o with
  | FetchRejects => Canned (getFallbackResponse userMessage)
  | FetchResponse ok _ body =>
      if ok then
        match body with
        | None => Canned (getFallbackResponse userMessage)
        | Some result =>
            match getProp result (lit "response") with
            | inl _ => Canned (getFallbackResponse userMessage)
            | inr response =>
                if truthy response then FromBackend response else Rephrase
            end
        end
      else Canned (getFallbackResponse userMessage)
  end.

(** [handleSendMessage(message?)]; [message] is [None] when the form is
    submitted and the text of a quick question otherwise. *)
Definition handleSendMessage (message : option jstring) (o : FetchOutcome)
    (st : State) : State :=
  let userMessage :=
    match message with
    | Some m => if JSString.truthy m then m else trim (inputMessage st)
    | None => trim (inputMessage st)
    end in
  if negb (JSString.truthy userMessage) then st
  else
    mkState (messages st ++ [mkMessage "user" (Typed userMessage);
                             mkMessage "bot" (botReply o userMessage)])
            [] false.

End WithLowerCase.

End NyayBot.

(* ================================================================== *)
(** * Facts about strings and values                                    *)
(* ================================================================== *)

Unset Implicit Arguments.

Module JSStringFacts.

Lemma eqb_spec (a b : jstring) : reflect (a = b) (JSString.eqb a b).
Proof.
  revert b; induction a as [|x a IH]; intros [|y b]; simpl;
    try (constructor; congruence).
  destruct (N.eqb_spec x y) as [->|Hxy]; simpl.
  - destruct (IH b) as [->|Hab]; constructor; congruence.
  - constructor; congruence.
Qed.

Lemma eqb_eq (a b : jstring) : JSString.eqb a b = true <-> a = b.
Proof. destruct (eqb_spec a b); split; congruence. Qed.

Lemma eqb_refl (a : jstring) : JSString.eqb a a = true.
Proof. apply eqb_eq; reflexivity. Qed.

Lemma trimStart_blank (s : jstring) :
  blank s = true -> trimStart s = [].
Proof.
  induction s as [|c s IH]; simpl; [reflexivity|].
  intros H; apply andb_true_iff in H as [Hc Hs].
  rewrite Hc; auto.
Qed.

Lemma trimStart_nil_blank (s : jstring) :
  trimStart s = [] -> blank s = true.
Proof.
  induction s as [|c s IH]; simpl; [reflexivity|].
  destruct (isWhiteSpace c); [auto | discriminate].
Qed.

Lemma trimStart_head (s : jstring) c r :
  trimStart s = c :: r -> isWhiteSpace c = false.
Proof.
  induction s as [|d s IH]; simpl; [discriminate|].
  destruct (isWhiteSpace d) eqn:Hd; [auto|].
  intros H; injection H as -> _; exact Hd.
Qed.

Lemma trimStart_nonblank (s : jstring) :
  blank s = false -> blank (trimStart s) = false.
Proof.
  induction s as [|c s IH]; simpl; [discriminate|].
  destruct (isWhiteSpace c) eqn:Hc; simpl; [auto|].
  rewrite Hc; reflexivity.
Qed.

Lemma blank_rev (s : jstring) : blank (rev s) = blank s.
Proof.
  unfold blank; induction s as [|c s IH]; simpl; [reflexivity|].
  rewrite forallb_app, IH; simpl.
  rewrite andb_true_r; apply andb_comm.
Qed.

(** [!s.trim()] holds exactly for the blank strings. *)
Lemma trim_nil_iff_blank (s : jstring) :
  trim s = [] <-> blank s = true.
Proof.
  unfold trim, trimEnd; split.
  - intros H.
    assert (H' : trimStart (rev (trimStart s)) = []).
    { rewrite <- (rev_involutive (trimStart _)), H; reflexivity. }
    apply trimStart_nil_blank in H'; rewrite blank_rev in H'.
    destruct (blank s) eqn:Hb; [reflexivity|].
    apply trimStart_nonblank in Hb; congruence.
  - intros H; rewrite (trimStart_blank _ H); reflexivity.
Qed.

Lemma truthy_trim (s : jstring) : JSString.truthy (trim s) = negb (blank s).
Proof.
  destruct (blank s) eqn:Hb.
  - apply trim_nil_iff_blank in Hb; rewrite Hb; reflexivity.
  - destruct (trim s) eqn:Ht; [|reflexivity].
    apply trim_nil_iff_blank in Ht; congruence.
Qed.

End JSStringFacts.

Module JSValueFacts.

Lemma strictEqStr_true (v : Value) (s : jstring) :
  strictEqStr v s = true <-> v = VStr s.
Proof.
  destruct v; simpl; try (split; [discriminate | congruence]).
  rewrite JSStringFacts.eqb_eq; split; congruence.
Qed.

Lemma getProp_not_nullish (v : Value) (k : jstring) :
  nullish v = false -> exists x, getProp v k = inr x.
Proof. destruct v; simpl; try discriminate; eauto. Qed.

End JSValueFacts.

(* ================================================================== *)
(** * InputPage: blank input is rejected                                *)
(* ================================================================== *)

Module InputPageFacts.
Import InputPage.

Lemma handleSubmit_cases (f : Form) (now : Z) (b : Browser) :
  handleSubmit f now b =
    if blank (form_contractText f) then toast contractRequired b
    else if blank (form_partyName f) then toast partyNameRequired b
    else navigate "/analyzing"
           (toast analysisStarting
              (setItem_contractData
                 (mkContractData (form_contractText f) (form_partyName f)
                                 (form_language f) now) b)).
Proof.
  unfold handleSubmit.
  rewrite !JSStringFacts.truthy_trim, !negb_involutive; reflexivity.
Qed.

(** A form with text in both fields is stored and sent on. *)
Lemma handleSubmit_accepts (f : Form) (now : Z) (b : Browser) :
  blank (form_contractText f) = false ->
  blank (form_partyName f) = false ->
  let b' := handleSubmit f now b in
  item_contractData (sessionStorage b')
    = Some (mkContractData (form_contractText f) (form_partyName f)
                           (form_language f) now)
  /\ item_analysisResult (sessionStorage b')
     = item_analysisResult (sessionStorage b)
  /\ navigations b' = navigations b ++ ["/analyzing"%string]
  /\ toasts b' = toasts b ++ [analysisStarting]
  /\ alerts b' = alerts b
  /\ consoleErrors b' = consoleErrors b.
Proof.
  intros Hc Hp; cbv zeta; rewrite handleSubmit_cases, Hc, Hp; simpl.
  repeat split; reflexivity.
Qed.

End InputPageFacts.

(** C7. A submission whose party name or whose contract text is empty or
    made only of whitespace is rejected by [handleSubmit]: it shows one
    destructive toast and returns with [sessionStorage] untouched (no
    [contractData] item is written) and without navigating, so the analysing
    page is never entered. *)
Theorem handleSubmit_rejects_blank_input
    (f : InputPage.Form) (now : Z) (b : Browser) :
  blank (InputPage.form_partyName f) = true
  \/ blank (InputPage.form_contractText f) = true ->
  let b' := InputPage.handleSubmit f now b in
  sessionStorage b' = sessionStorage b
  /\ navigations b' = navigations b
  /\ exists t, toasts b' = toasts b ++ [t] /\ toast_variant t = Destructive.
Proof.
  intros H; cbv zeta; rewrite InputPageFacts.handleSubmit_cases.
  destruct (blank (InputPage.form_contractText f)) eqn:Hc.
  - repeat split; eexists; split; reflexivity.
  - destruct H as [Hp|Habs]; [|discriminate].
    rewrite Hp; repeat split; eexists; split; reflexivity.
Qed.

Lemma handleSubmit_rejects_blank_input_witness :
  let b' := InputPage.handleSubmit Samples.blankPartyForm 1700000000000
                                   freshBrowser in
  sessionStorage b' = emptyStorage
  /\ navigations b' = []
  /\ exists t, toasts b' = [] ++ [t] /\ toast_variant t = Destructive.
Proof.
  exact (handleSubmit_rejects_blank_input
           Samples.blankPartyForm 1700000000000 freshBrowser
           (or_introl eq_refl)).
Defined.

(* ================================================================== *)
(** * ReportPage.getRiskColor                                           *)
(* ================================================================== *)

Module RiskColorFacts.
Import RiskColor.

Example getRiskColor_HIGH :
  getRiskColor asciiLower (lit "HIGH") = "destructive"%string.
Proof. reflexivity. Qed.

Example getRiskColor_Medium :
  getRiskColor asciiLower (lit "Medium") = "warning"%string.
Proof. reflexivity. Qed.

Example getRiskColor_low :
  getRiskColor asciiLower (lit "low") = "success"%string.
Proof. reflexivity. Qed.

Example getRiskColor_Unknown :
  getRiskColor asciiLower (lit "Unknown") = "secondary"%string.
Proof. reflexivity. Qed.

Example getRiskColor_empty :
  getRiskColor asciiLower [] = "secondary"%string.
Proof. reflexivity. Qed.

End RiskColorFacts.

(** Closes one branch of the [switch]: every conjunct compares two string
    literals or contradicts the branch condition. *)
Ltac risk_color_case :=
  repeat split; intros;
  repeat match goal with H : _ /\ _ |- _ => destruct H end;
  try reflexivity; try congruence;
  try (exfalso; congruence);
  try (vm_compute in *; discriminate);
  try (simpl; tauto).

(** C10. [getRiskColor] is total on strings.  Whatever [toLowerCase] does,
    the result is ['destructive'] exactly when the level lower-cases to
    ['high'], ['warning'] exactly for ['medium'], ['success'] exactly for
    ['low'] and ['secondary'] exactly for every other string; so every input
    yields one of these four values. *)
Theorem getRiskColor_by_lowercased_level
    (toLowerCase : jstring -> jstring) (level : jstring) :
  let c := RiskColor.getRiskColor toLowerCase level in
  (c = "destructive"%string <-> toLowerCase level = lit "high")
  /\ (c = "warning"%string <-> toLowerCase level = lit "medium")
  /\ (c = "success"%string <-> toLowerCase level = lit "low")
  /\ (c = "secondary"%string <->
        toLowerCase level <> lit "high"
        /\ toLowerCase level <> lit "medium"
        /\ toLowerCase level <> lit "low")
  /\ In c ["destructive"; "warning"; "success"; "secondary"]%string.
Proof.
  cbv zeta; unfold RiskColor.getRiskColor.
  destruct (JSStringFacts.eqb_spec (toLowerCase level) (lit "high")) as [E|Nh];
    [rewrite E; risk_color_case|].
  destruct (JSStringFacts.eqb_spec (toLowerCase level) (lit "medium")) as [E|Nm];
    [rewrite E; risk_color_case|].
  destruct (JSStringFacts.eqb_spec (toLowerCase level) (lit "low")) as [E|Nl];
    [rewrite E; risk_color_case|].
  risk_color_case.
Qed.

(* ================================================================== *)
(** * ReportPage: the Karma Check request                               *)
(* ================================================================== *)

Module ReportPageFacts.
Import ReportPage.

(** A failing backend makes the [try] block either throw or fall through
    without a state update. *)
Lemma performKarmaCheck_try_fails (o : FetchOutcome) (st : State) :
  backendFails o = true ->
  performKarmaCheck_try o st = inr st
  \/ exists e, performKarmaCheck_try o st = inl e.
Proof.
  unfold performKarmaCheck_try; intros Hf.
  destruct (contractData st); [|right; eauto].
  destruct o as [|ok status body]; simpl in *; [right; eauto|].
  destruct ok; [discriminate | left; reflexivity].
Qed.

(** What the [catch] does with an exception of the [try] block: one line
    on the console, nothing else. *)
Lemma performKarmaCheck_catch (o : FetchOutcome) (b : Browser) (st : State) e :
  performKarmaCheck_try o st = inl e ->
  performKarmaCheck o b st = (consoleError e b, st).
Proof. unfold performKarmaCheck; intros ->; reflexivity. Qed.

Lemma performKarmaCheck_fails (o : FetchOutcome) (b : Browser) (st : State) :
  backendFails o = true ->
  snd (performKarmaCheck o b st) = st
  /\ sessionStorage (fst (performKarmaCheck o b st)) = sessionStorage b
  /\ toasts (fst (performKarmaCheck o b st)) = toasts b
  /\ alerts (fst (performKarmaCheck o b st)) = alerts b
  /\ navigations (fst (performKarmaCheck o b st)) = navigations b.
Proof.
  intros Hf; unfold performKarmaCheck.
  destruct (performKarmaCheck_try_fails o st Hf) as [-> | [e ->]];
    simpl; repeat split; reflexivity.
Qed.

(** A successful request stores whatever the backend sent. *)
Lemma performKarmaCheck_ok (b : Browser) (st : State) d status result :
  contractData st = Some d ->
  performKarmaCheck (FetchResponse true status (Some result)) b st
  = (b, setKarmaCheckResults result st).
Proof.
  intros H; unfold performKarmaCheck, performKarmaCheck_try; rewrite H.
  reflexivity.
Qed.

(** The company reviews request touches [companyReviews] and the console,
    nothing else, whatever it does. *)
Lemma getCompanyReviews_quiet (r : FetchOutcome) (b : Browser) (st : State) :
  sessionStorage (fst (getCompanyReviews r b st)) = sessionStorage b
  /\ toasts (fst (getCompanyReviews r b st)) = toasts b
  /\ alerts (fst (getCompanyReviews r b st)) = alerts b
  /\ navigations (fst (getCompanyReviews r b st)) = navigations b
  /\ contractData (snd (getCompanyReviews r b st)) = contractData st
  /\ analysisResults (snd (getCompanyReviews r b st)) = analysisResults st
  /\ karmaCheckResults (snd (getCompanyReviews r b st))
     = karmaCheckResults st.
Proof.
  unfold getCompanyReviews, getCompanyReviews_try.
  destruct (contractData st) eqn:E; [|simpl; rewrite E; repeat split].
  destruct r as [|ok status body]; [simpl; rewrite E; repeat split|].
  destruct ok; [|simpl; rewrite E; repeat split].
  destruct body; simpl; rewrite E; repeat split.
Qed.

Lemma effect_fails (o r : FetchOutcome) (b : Browser) (st : State) :
  backendFails o = true ->
  karmaCheckResults (snd (effect o r b st)) = karmaCheckResults st
  /\ sessionStorage (fst (effect o r b st)) = sessionStorage b
  /\ toasts (fst (effect o r b st)) = toasts b
  /\ alerts (fst (effect o r b st)) = alerts b.
Proof.
  intros Hf; unfold effect.
  destruct (item_contractData (sessionStorage b)) as [parsed|];
    [|simpl; repeat split; reflexivity].
  destruct (contractData st) as [d|].
  2:{ destruct (item_analysisResult (sessionStorage b));
      simpl; repeat split; reflexivity. }
  destruct (JSString.truthy (partyName d)).
  2:{ destruct (item_analysisResult (sessionStorage b));
      simpl; repeat split; reflexivity. }
  pose proof (performKarmaCheck_fails o b st Hf) as (H1 & H2 & H3 & H4 & _).
  destruct (performKarmaCheck o b st) as [b1 stK]; simpl in *; subst stK.
  pose proof (getCompanyReviews_quiet r b1 st) as (R1 & R2 & R3 & _).
  destruct (getCompanyReviews r b1 st) as [b2 stR]; simpl in *.
  repeat split; congruence.
Qed.

Lemma karmaCheckOf_falsy (v : Value) :
  truthy v = false -> karmaCheckOf v = [].
Proof. unfold karmaCheckOf; intros ->; reflexivity. Qed.

(** With a truthy result there is exactly one card, and it repeats the
    backend's [risk_level] and [summary]. *)
Lemma karmaCheckOf_truthy (v : Value) :
  truthy v = true ->
  exists item, karmaCheckOf v = [item]
    /\ karma_summary item = getPropOpt v (lit "summary")
    /\ In (Hole (getPropOpt v (lit "risk_level"))) (karma_relevance item).
Proof.
  unfold karmaCheckOf; intros ->; eexists; split; [reflexivity|].
  simpl; auto 6.
Qed.

Lemma displayResults_karmaCheck (st : State) d :
  displayResults st = inr d ->
  karmaCheck d = if truthy (analysisResults st)
                 then karmaCheckOf (karmaCheckResults st) else [].
Proof.
  unfold displayResults.
  destruct (truthy (analysisResults st)).
  - destruct (getProp (analysisResults st) (lit "analysis")); [discriminate|].
    destruct (contractAnalysisOf (analysisResults st)); [discriminate|].
    intros H; injection H as <-; reflexivity.
  - intros H; injection H as <-; reflexivity.
Qed.

End ReportPageFacts.

(** C1, as stated, fails: when the fetch to /api/karma-check rejects, the
    page is left with [karmaCheckResults = null]; that is no score with
    [risk_level = 'unknown'] and a summary, and the Karma Check section of
    the report has no card at all. *)
Lemma karma_failure_yields_no_degraded_score :
  let st := snd (ReportPage.load FetchRejects FetchRejects
                                 Samples.analysedBrowser) in
  backendFails FetchRejects = true
  /\ ReportPage.karmaCheckResults st = VNull
  /\ ~ degradedKarmaScore (ReportPage.karmaCheckResults st)
  /\ (exists r, ReportPage.render st = inr (ReportPage.Report r)
                /\ ReportPage.karmaCheck r = []).
Proof.
  cbv zeta; repeat split.
  - intros [H _]; vm_compute in H; discriminate.
  - eexists; split; [vm_compute; reflexivity | reflexivity].
Qed.

(** C1, amended.  When the Karma Check backend fails (the fetch rejects or
    answers with a non-OK status), the report page raises nothing and shows
    nothing to the user (no toast, no alert), [karmaCheckResults] stays
    [null], and the Karma Check section of every report rendered from that
    state is empty. *)
Theorem karma_failure_leaves_section_empty
    (o reviews : FetchOutcome) (b : Browser) :
  backendFails o = true ->
  let b' := fst (ReportPage.load o reviews b) in
  let st := snd (ReportPage.load o reviews b) in
  ReportPage.karmaCheckResults st = VNull
  /\ toasts b' = toasts b
  /\ alerts b' = alerts b
  /\ sessionStorage b' = sessionStorage b
  /\ forall r, ReportPage.displayResults st = inr r ->
               ReportPage.karmaCheck r = [].
Proof.
  intros Hf; cbv zeta.
  assert (H : ReportPage.karmaCheckResults (snd (ReportPage.load o reviews b))
              = VNull
              /\ toasts (fst (ReportPage.load o reviews b)) = toasts b
              /\ alerts (fst (ReportPage.load o reviews b)) = alerts b
              /\ sessionStorage (fst (ReportPage.load o reviews b))
                 = sessionStorage b).
  { unfold ReportPage.load.
    pose proof (ReportPageFacts.effect_fails o reviews b ReportPage.initialState Hf)
      as (K1 & S1 & T1 & A1).
    destruct (ReportPage.effect o reviews b ReportPage.initialState) as [b1 st1].
    simpl in K1, S1, T1, A1.
    pose proof (ReportPageFacts.effect_fails o reviews b1 st1 Hf)
      as (K2 & S2 & T2 & A2).
    destruct (ReportPage.contractData st1) as [d|]; [|simpl; auto].
    repeat split; congruence. }
  destruct H as (K & T & A & S); repeat split; try assumption.
  intros r Hr; rewrite (ReportPageFacts.displayResults_karmaCheck _ _ Hr), K.
  destruct (truthy _); reflexivity.
Qed.

Lemma karma_failure_leaves_section_empty_witness :
  let b := Samples.analysedBrowser in
  let o := FetchResponse false 503 None in
  let reviews := FetchRejects in
  ReportPage.karmaCheckResults (snd (ReportPage.load o reviews b)) = VNull
  /\ toasts (fst (ReportPage.load o reviews b)) = toasts b
  /\ alerts (fst (ReportPage.load o reviews b)) = alerts b
  /\ sessionStorage (fst (ReportPage.load o reviews b)) = sessionStorage b
  /\ forall r, ReportPage.displayResults (snd (ReportPage.load o reviews b))
               = inr r ->
               ReportPage.karmaCheck r = [].
Proof.
  exact (karma_failure_leaves_section_empty
           (FetchResponse false 503 None) FetchRejects
           Samples.analysedBrowser eq_refl).
Defined.

(* ================================================================== *)
(** * ReportPage: reshaping the findings of the analysis                *)
(* ================================================================== *)

Module FindingFacts.
Import ReportPage.

(** The callback throws on [null] and [undefined] entries only. *)
Lemma mapLoophole_nullish (item : Value) (index : nat) :
  nullish item = true -> mapLoophole item index = inl TypeError.
Proof. destruct item; simpl; try discriminate; reflexivity. Qed.

Lemma mapLoophole_total (item : Value) (index : nat) :
  nullish item = false ->
  mapLoophole item index =
    inr (mkFinding
           (Z.of_nat index + 1)
           (if strictEqStr (getPropOpt item (lit "loophole_type"))
                           (lit "ambiguity")
            then "Ambiguous Clause" else "Missing Protection")
           (if strictEqStr (getPropOpt item (lit "exploitation_potential"))
                           (lit "high") then "High"
            else if strictEqStr
                      (getPropOpt item (lit "exploitation_potential"))
                      (lit "medium") then "Medium"
            else "Low")
           (getPropOpt item (lit "description"))
           (getPropOpt item (lit "description"))
           "N/A"
           (getPropOpt item (lit "mitigation_strategy"))).
Proof.
  intros H; unfold mapLoophole, getPropOpt.
  destruct item; simpl in *; try discriminate; reflexivity.
Qed.

Lemma mapFrom_total (items : list Value) :
  Forall (fun item => nullish item = false) items ->
  forall k, exists fs,
    mapFrom k items = inr fs
    /\ List.length fs = List.length items
    /\ forall i item, nth_error items i = Some item ->
         exists f, nth_error fs i = Some f
                   /\ mapLoophole item (k + i) = inr f.
Proof.
  induction 1 as [|item items Hitem _ IH]; intros k.
  - exists []; repeat split; intros [|i] item; discriminate.
  - destruct (IH (S k)) as (fs & Hfs & Hlen & Hnth).
    simpl; rewrite (mapLoophole_total item k Hitem), Hfs.
    eexists; repeat split; [simpl; congruence|].
    intros [|i] x Hx; simpl in *.
    + injection Hx as <-; eexists; split; [reflexivity|].
      rewrite Nat.add_0_r; apply mapLoophole_total; assumption.
    + destruct (Hnth i x Hx) as (f & Hf & Hmap).
      exists f; split; [assumption|].
      rewrite <- Hmap; f_equal; lia.
Qed.

(** One [null] or [undefined] entry makes the whole [map] throw, whatever
    the other entries are. *)
Lemma mapFrom_throws (items : list Value) :
  Exists (fun item => nullish item = true) items ->
  forall k, mapFrom k items = inl TypeError.
Proof.
  induction 1 as [item items Hitem | item items _ IH]; intros k; simpl.
  - rewrite (mapLoophole_nullish item k Hitem); reflexivity.
  - destruct (mapLoophole item k) as [e|f] eqn:E.
    + destruct item; cbv in E; try discriminate; congruence.
    + rewrite IH; reflexivity.
Qed.

(** The title is decided by one comparison with ['ambiguity']. *)
Lemma title_cases (ty : Value) :
  let title := (if strictEqStr ty (lit "ambiguity")
                then "Ambiguous Clause" else "Missing Protection")%string in
  (title = "Ambiguous Clause"%string <-> ty = VStr (lit "ambiguity"))
  /\ (title = "Missing Protection"%string <-> ty <> VStr (lit "ambiguity")).
Proof.
  cbv zeta.
  pose proof (JSValueFacts.strictEqStr_true ty (lit "ambiguity")) as H.
  destruct (strictEqStr ty (lit "ambiguity")).
  - assert (E : ty = VStr (lit "ambiguity")) by (apply H; reflexivity).
    repeat split; try discriminate; try tauto.
  - assert (E : ty <> VStr (lit "ambiguity"))
      by (intros E; apply H in E; discriminate).
    repeat split; try discriminate; try tauto.
Qed.

(** The risk level is decided by two comparisons; everything that is not
    exactly ['high'] or ['medium'] is ['Low']. *)
Lemma level_cases (pot : Value) :
  let level := (if strictEqStr pot (lit "high") then "High"
                else if strictEqStr pot (lit "medium") then "Medium"
                else "Low")%string in
  (level = "High"%string <-> pot = VStr (lit "high"))
  /\ (level = "Medium"%string <-> pot = VStr (lit "medium"))
  /\ (level = "Low"%string
      <-> pot <> VStr (lit "high") /\ pot <> VStr (lit "medium")).
Proof.
  cbv zeta.
  pose proof (JSValueFacts.strictEqStr_true pot (lit "high")) as Hh.
  pose proof (JSValueFacts.strictEqStr_true pot (lit "medium")) as Hm.
  destruct (strictEqStr pot (lit "high")).
  - assert (E : pot = VStr (lit "high")) by (apply Hh; reflexivity).
    subst pot; repeat split; try discriminate; try tauto;
      try (intros E; discriminate E);
      try (intros [H _]; elim H; reflexivity).
  - assert (N : pot <> VStr (lit "high"))
      by (intros E; apply Hh in E; discriminate).
    destruct (strictEqStr pot (lit "medium")).
    + assert (E : pot = VStr (lit "medium")) by (apply Hm; reflexivity).
      subst pot; repeat split; try discriminate; try tauto;
        try (intros E; discriminate E);
        try (intros [_ H]; elim H; reflexivity).
    + assert (M : pot <> VStr (lit "medium"))
        by (intros E; apply Hm in E; discriminate).
      repeat split; try discriminate; try tauto.
Qed.

(** One [null] among the findings makes the whole [map] throw. *)
Example mapFrom_null_entry :
  mapFrom 0 [VObj [(lit "loophole_type", VStr (lit "ambiguity"))]; VNull]
  = inl TypeError.
Proof. reflexivity. Qed.

Example mapFrom_drifted_vocabulary :
  mapFrom 0 [VObj [(lit "loophole_type", VStr (lit "unfair_clause"));
                   (lit "exploitation_potential", VStr (lit "critical"));
                   (lit "description", VStr (lit "d"))];
             VObj [(lit "loophole_type", VStr (lit "ambiguity"));
                   (lit "exploitation_potential", VNum 7)];
             VStr (lit "free text")]
  = inr [ mkFinding 1 "Missing Protection" "Low"
                    (VStr (lit "d")) (VStr (lit "d")) "N/A" VUndefined;
          mkFinding 2 "Ambiguous Clause" "Low"
                    VUndefined VUndefined "N/A" VUndefined;
          mkFinding 3 "Missing Protection" "Low"
                    VUndefined VUndefined "N/A" VUndefined ].
Proof. reflexivity. Qed.

End FindingFacts.

(** C8, as stated, fails.  A [null] entry beside two findings makes the
    reshaping throw, so none of the raw findings appears in
    [displayResults.contractAnalysis] (and the page has no [displayResults]
    at all).  And the values outside the vocabulary do not go to the closest
    defined value but to fixed defaults: a finding whose potential is
    ['High'] and whose type is ['Ambiguous Clause'], the very words the page
    prints, comes out as ['Low'] and ['Missing Protection'], and so does one
    with ['critical'] and ['unfair_clause']. *)
Lemma null_finding_loses_all_and_defaults_are_fixed :
  ReportPage.contractAnalysisOf Samples.analysisWithNullFinding
  = inl TypeError
  /\ (exists e,
        ReportPage.displayResults
          (ReportPage.mkState (Some Samples.contract)
                              Samples.analysisWithNullFinding VNull VNull)
        = inl e)
  /\ (exists f,
        ReportPage.mapLoophole Samples.capitalisedFinding 0 = inr f
        /\ ReportPage.finding_riskLevel f = "Low"%string
        /\ ReportPage.finding_title f = "Missing Protection"%string)
  /\ (exists f,
        ReportPage.mapLoophole
          (VObj [(lit "loophole_type", VStr (lit "unfair_clause"));
                 (lit "exploitation_potential", VStr (lit "critical"));
                 (lit "description", VStr (lit "d"))]) 0 = inr f
        /\ ReportPage.finding_riskLevel f = "Low"%string
        /\ ReportPage.finding_title f = "Missing Protection"%string).
Proof.
  split; [reflexivity|].
  split; [eexists; vm_compute; reflexivity|].
  split; eexists; repeat split; reflexivity.
Qed.

(** C8, amended.  Every entry of [loophole_analysis] that is not [null] or
    [undefined] is mapped and none is rejected:
    [displayResults.contractAnalysis] has one finding per entry, in the same
    order, numbered from 1.  The mapping uses fixed defaults, not the
    closest value: the title is ['Ambiguous Clause'] exactly when
    [loophole_type] is the string ['ambiguity'] and ['Missing Protection']
    for everything else; the risk level is ['High'] exactly for the string
    ['high'], ['Medium'] exactly for ['medium'] and ['Low'] for everything
    else.  A [null] or [undefined] entry makes the whole reshaping throw, so
    that no finding is produced. *)
Theorem raw_findings_get_fixed_defaults
    (analysisResults : Value) (items : list Value) :
  getPropOpt (getPropOpt (getPropOpt analysisResults (lit "analysis"))
                         (lit "advanced_risk_analysis"))
             (lit "loophole_analysis") = VArr items ->
  (Exists (fun item => nullish item = true) items ->
   ReportPage.contractAnalysisOf analysisResults = inl TypeError)
  /\ (Forall (fun item => nullish item = false) items ->
      exists findings,
        ReportPage.contractAnalysisOf analysisResults = inr findings
        /\ List.length findings = List.length items
        /\ forall i item, nth_error items i = Some item ->
             exists f,
               nth_error findings i = Some f
               /\ ReportPage.finding_id f = (Z.of_nat i + 1)%Z
               /\ (ReportPage.finding_title f = "Ambiguous Clause"%string
                   <-> getPropOpt item (lit "loophole_type")
                       = VStr (lit "ambiguity"))
               /\ (ReportPage.finding_title f = "Missing Protection"%string
                   <-> getPropOpt item (lit "loophole_type")
                       <> VStr (lit "ambiguity"))
               /\ (ReportPage.finding_riskLevel f = "High"%string
                   <-> getPropOpt item (lit "exploitation_potential")
                       = VStr (lit "high"))
               /\ (ReportPage.finding_riskLevel f = "Medium"%string
                   <-> getPropOpt item (lit "exploitation_potential")
                       = VStr (lit "medium"))
               /\ (ReportPage.finding_riskLevel f = "Low"%string
                   <-> getPropOpt item (lit "exploitation_potential")
                       <> VStr (lit "high")
                       /\ getPropOpt item (lit "exploitation_potential")
                          <> VStr (lit "medium"))
               /\ ReportPage.finding_summary f
                  = getPropOpt item (lit "description")
               /\ ReportPage.finding_details f
                  = getPropOpt item (lit "description")
               /\ ReportPage.finding_recommendation f
                  = getPropOpt item (lit "mitigation_strategy")).
Proof.
  intros Hpath.
  assert (Hmap : ReportPage.contractAnalysisOf analysisResults
                 = ReportPage.mapFrom 0 items).
  { unfold ReportPage.contractAnalysisOf.
    destruct (getProp analysisResults (lit "analysis")) as [e|analysis] eqn:Ha.
    - unfold getPropOpt in Hpath at 3; rewrite Ha in Hpath.
      simpl in Hpath; discriminate.
    - unfold getPropOpt in Hpath at 3; rewrite Ha in Hpath.
      rewrite Hpath; reflexivity. }
  rewrite Hmap; split.
  { intros Hnull; apply FindingFacts.mapFrom_throws; exact Hnull. }
  intros Hitems.
  destruct (FindingFacts.mapFrom_total items Hitems 0)
    as (fs & Hfs & Hlen & Hnth).
  exists fs; split; [exact Hfs|]; split; [exact Hlen|].
  intros i item Hi.
  destruct (Hnth i item Hi) as (f & Hf & Hm).
  assert (Hnn : nullish item = false).
  { rewrite Forall_forall in Hitems; apply Hitems.
    eapply nth_error_In; eassumption. }
  rewrite (FindingFacts.mapLoophole_total item (0 + i) Hnn) in Hm.
  injection Hm as <-.
  eexists; split; [exact Hf|].
  cbn [ReportPage.finding_id ReportPage.finding_title
       ReportPage.finding_riskLevel ReportPage.finding_summary
       ReportPage.finding_details ReportPage.finding_recommendation].
  destruct (FindingFacts.title_cases (getPropOpt item (lit "loophole_type")))
    as [T1 T2].
  destruct (FindingFacts.level_cases
              (getPropOpt item (lit "exploitation_potential")))
    as (L1 & L2 & L3).
  split; [reflexivity|].
  split; [exact T1|]; split; [exact T2|].
  split; [exact L1|]; split; [exact L2|]; split; [exact L3|].
  repeat split.
Qed.

Lemma raw_findings_get_fixed_defaults_witness :
  exists findings,
    ReportPage.contractAnalysisOf Samples.analysis = inr findings
    /\ List.length findings = 2%nat.
Proof.
  assert (Hitems : Forall (fun item => nullish item = false)
                          Samples.rawFindings)
    by (repeat constructor).
  destruct (raw_findings_get_fixed_defaults
              Samples.analysis Samples.rawFindings eq_refl)
    as [_ H].
  destruct (H Hitems) as (findings & H1 & H2 & _).
  exists findings; split; [exact H1 | exact H2].
Defined.

(* ================================================================== *)
(** * AnalyzingPage: what the timers do                                 *)
(* ================================================================== *)

Module AnalyzingPageFacts.
Import AnalyzingPage.

Lemma quiet_refl (b : Browser) : quiet b b.
Proof. repeat split. Qed.

Lemma quiet_trans (a b c : Browser) : quiet a b -> quiet b c -> quiet a c.
Proof.
  unfold quiet; intros (S1 & T1 & A1 & C1) (S2 & T2 & A2 & C2).
  repeat split; congruence.
Qed.

Lemma runAnalysis_browser (i : nat) (pv : Z) (m : Machine) :
  browser (runAnalysis i pv m) = browser m.
Proof. unfold runAnalysis; destruct (nth_error steps i); reflexivity. Qed.

Lemma step_quiet (m : Machine) : quiet (browser m) (browser (step m)).
Proof.
  unfold step; destruct (timer m) as [|i|i pv dur sp st|i pv|].
  - apply quiet_refl.
  - destruct (_ <=? _)%nat; apply quiet_refl.
  - destruct (_ <=? _)%Z; [destruct (_ <=? _)%nat|]; apply quiet_refl.
  - rewrite runAnalysis_browser; apply quiet_refl.
  - repeat split.
Qed.

Lemma run_quiet (n : nat) (m : Machine) :
  quiet (browser m) (browser (run n m)).
Proof.
  revert m; induction n as [|n IH]; intros m; simpl.
  - apply quiet_refl.
  - eapply quiet_trans; [apply step_quiet | apply IH].
Qed.

(** The only route a timer callback navigates to is the report. *)
Lemma step_navigations (m : Machine) :
  navigations (browser (step m)) = navigations (browser m)
  \/ navigations (browser (step m))
     = navigations (browser m) ++ ["/report"%string].
Proof.
  unfold step; destruct (timer m) as [|i|i pv dur sp st|i pv|].
  - left; reflexivity.
  - destruct (_ <=? _)%nat; left; reflexivity.
  - destruct (_ <=? _)%Z; [destruct (_ <=? _)%nat|]; left; reflexivity.
  - rewrite runAnalysis_browser; left; reflexivity.
  - right; reflexivity.
Qed.

(** Once no timer is pending nothing moves any more. *)
Lemma run_NoTimer (n : nat) (m : Machine) :
  timer m = NoTimer -> run n m = m.
Proof.
  revert m; induction n as [|n IH]; intros m H; simpl; [reflexivity|].
  assert (Hs : step m = m) by (unfold step; rewrite H; reflexivity).
  rewrite Hs; apply IH; assumption.
Qed.

Lemma run_add (n k : nat) (m : Machine) :
  run (n + k) m = run k (run n m).
Proof.
  revert m; induction n as [|n IH]; intros m; simpl; [reflexivity|apply IH].
Qed.

(** ** The interval of the fallback animation

    While [progressValue + 2] stays below the duration of the step, a
    callback only advances [progressValue] and the progress bar. *)
Lemma fallback_ticks (k : nat) :
  forall (m : Machine) i pv dur sp st,
    timer m = FallbackInterval i pv dur sp st ->
    (pv + 2 * Z.of_nat k < dur)%Z ->
    let m' := run k m in
    timer m' = FallbackInterval i (pv + 2 * Z.of_nat k) dur sp st
    /\ browser m' = browser m
    /\ currentStep m' = currentStep m.
Proof.
  induction k as [|k IH]; intros m i pv dur sp st Ht Hlt; cbv zeta.
  - simpl run; rewrite Z.mul_0_r, Z.add_0_r; auto.
  - simpl run.
    assert (Hstep : timer (step m) = FallbackInterval i (pv + 2) dur sp st
                    /\ browser (step m) = browser m
                    /\ currentStep (step m) = currentStep m).
    { unfold step; rewrite Ht.
      destruct (Z.leb_spec dur (pv + 2)) as [Hle|_]; [lia|].
      repeat split. }
    destruct Hstep as (Ht' & Hb' & Hc').
    destruct (IH (step m) i (pv + 2)%Z dur sp st Ht' ltac:(lia))
      as (Ht'' & Hb'' & Hc'').
    replace (pv + 2 * Z.of_nat (S k))%Z with (pv + 2 + 2 * Z.of_nat k)%Z
      by lia.
    repeat split; congruence.
Qed.

(** The callback on which [progressValue] reaches the duration stops the
    interval and schedules what comes next. *)
Lemma fallback_step_completes (m : Machine) i dur sp st :
  timer m = FallbackInterval i 0 dur sp st ->
  (0 < dur)%Z ->
  let m' := run (ticksOf dur) m in
  timer m' = (if (List.length steps <=? S i)%nat then NavigateToReport
              else FallbackNextStep (S i) 0)
  /\ browser m' = browser m
  /\ currentStep m' = currentStep m.
Proof.
  intros Ht Hdur; cbv zeta.
  assert (Hk : exists k, ticksOf dur = S k
                         /\ (2 * Z.of_nat k < dur)%Z
                         /\ (dur <= 2 * Z.of_nat k + 2)%Z).
  { exists (Z.to_nat ((dur + 1) / 2 - 1)).
    pose proof (Z.div_mod (dur + 1) 2 ltac:(lia)) as Hdm.
    pose proof (Z.mod_pos_bound (dur + 1) 2 ltac:(lia)) as Hmod.
    unfold ticksOf; repeat split; try lia. }
  destruct Hk as (k & -> & Hlo & Hhi).
  replace (S k) with (k + 1)%nat by lia; rewrite run_add.
  destruct (fallback_ticks k m i 0 dur sp st Ht ltac:(lia)) as (Ht' & Hb' & Hc').
  cbv zeta in Ht'; rewrite Z.add_0_l in Ht'.
  cbn [run]; unfold step; rewrite Ht'.
  destruct (Z.leb_spec dur (2 * Z.of_nat k + 2)) as [_|Hgt]; [|lia].
  destruct (_ <=? _)%nat;
    cbn [timer browser currentStep setTimer setProgress];
    repeat split; assumption.
Qed.

(** One step of the animation, from [runAnalysis] to the callback that
    ends its interval. *)
Lemma fallback_phase (i : nat) (s : Step) (m : Machine) :
  nth_error steps i = Some s ->
  (0 < step_duration s)%Z ->
  let m' := run (ticksOf (step_duration s)) (runAnalysis i 0 m) in
  timer m' = (if (List.length steps <=? S i)%nat then NavigateToReport
              else FallbackNextStep (S i) 0)
  /\ browser m' = browser m
  /\ currentStep m' = i.
Proof.
  intros Hn Hd; unfold runAnalysis; rewrite Hn; cbv zeta.
  match goal with
  | |- context [run _ ?m0] =>
      destruct (fallback_step_completes m0 i (step_duration s) _ _ eq_refl Hd)
        as (T & B & C)
  end.
  repeat split; [exact T | exact B | exact C].
Qed.

Lemma step_FallbackNextStep (m : Machine) i pv :
  timer m = FallbackNextStep i pv -> step m = runAnalysis i pv m.
Proof. unfold step; intros ->; reflexivity. Qed.

Lemma step_NavigateToReport (m : Machine) :
  timer m = NavigateToReport ->
  step m = setTimer NoTimer (onBrowser (navigate "/report") m).
Proof. unfold step; intros ->; reflexivity. Qed.

Example fallbackCallbacks_value :
  Z.of_nat fallbackCallbacks = 5505%Z.
Proof. reflexivity. Qed.

Lemma steps_positive : Forall (fun s => (0 < step_duration s)%Z) steps.
Proof. repeat constructor. Qed.

Lemma skipn_nth_error {A : Type} (l : list A) :
  forall i x, nth_error l i = Some x -> skipn i l = x :: skipn (S i) l.
Proof.
  induction l as [|y l IH]; intros [|i] x H; try discriminate.
  - injection H as ->; reflexivity.
  - simpl in H; cbn [skipn]; rewrite (IH i x H); reflexivity.
Qed.

(** From any step on, the fallback animation runs to its end and then
    navigates to the report, whatever the browser holds. *)
Lemma fallback_from (n : nat) :
  forall (i : nat) (m : Machine),
    (i + S n = List.length steps)%nat ->
    let m' := run (callbacksFrom i) (runAnalysis i 0 m) in
    timer m' = NoTimer
    /\ browser m' = navigate "/report" (browser m)
    /\ currentStep m' = (List.length steps - 1)%nat.
Proof.
  induction n as [|n IH]; intros i m Hi; cbv zeta.
  all: destruct (nth_error steps i) as [s|] eqn:Hs;
    [|apply nth_error_None in Hs; lia].
  all: assert (Hd : (0 < step_duration s)%Z)
    by (apply (proj1 (Forall_forall _ _) steps_positive), (nth_error_In _ _ Hs)).
  all: destruct (fallback_phase i s m Hs Hd) as (T & B & C).
  all: unfold callbacksFrom; rewrite (skipn_nth_error steps i s Hs).
  all: cbn [fold_right]; rewrite run_add, run_add; cbn [run].
  - destruct (Nat.leb_spec (List.length steps) (S i)) as [_|Hlt]; [|lia].
    rewrite (step_NavigateToReport _ T).
    rewrite skipn_all2 by lia; cbn [fold_right run].
    cbn [timer browser currentStep setTimer onBrowser].
    repeat split; [congruence | lia].
  - destruct (Nat.leb_spec (List.length steps) (S i)) as [Hle|_]; [lia|].
    rewrite (step_FallbackNextStep _ _ _ T).
    destruct (IH (S i) (run (ticksOf (step_duration s)) (runAnalysis i 0 m))
                 ltac:(lia)) as (T' & B' & C').
    unfold callbacksFrom in T', B', C'.
    repeat split; congruence.
Qed.

Lemma fallback_animation_completes (m : Machine) :
  let m' := run fallbackCallbacks (runAnalysis 0 0 m) in
  timer m' = NoTimer
  /\ browser m' = navigate "/report" (browser m)
  /\ currentStep m' = 4%nat.
Proof. exact (fallback_from 4 0 m eq_refl). Qed.

(** ** [callBackendAPI] when the backend fails *)

Lemma callBackendAPI_fails (o : FetchOutcome) (m : Machine) :
  backendFails o = true ->
  exists e,
    callBackendAPI o m
    = runAnalysis 0 0 (onBrowser (consoleError e)
                                 (setProgress 10 (setCurrentStep 0 m))).
Proof.
  intros Hf; unfold callBackendAPI, callBackendAPI_try.
  destruct o as [|ok status body]; [eexists; reflexivity|].
  simpl in Hf; destruct ok; [discriminate|].
  eexists; reflexivity.
Qed.

(** With a failing backend the page logs the error, plays the animation
    and ends on the report route; it stores nothing and shows no toast
    and no alert. *)
Lemma mount_fails (o : FetchOutcome) (b : Browser) d :
  item_contractData (sessionStorage b) = Some d ->
  backendFails o = true ->
  let m := run fallbackCallbacks (mount o b) in
  timer m = NoTimer
  /\ navigations (browser m) = navigations b ++ ["/report"%string]
  /\ sessionStorage (browser m) = sessionStorage b
  /\ toasts (browser m) = toasts b
  /\ alerts (browser m) = alerts b
  /\ exists e, consoleErrors (browser m) = consoleErrors b ++ [e].
Proof.
  intros Hd Hf; cbv zeta; unfold mount; rewrite Hd.
  destruct (callBackendAPI_fails o (mkMachine b 0 0 NoTimer) Hf) as (e & ->).
  match goal with
  | |- context [runAnalysis 0 0 ?m0] =>
      destruct (fallback_animation_completes m0) as (T & B & _)
  end.
  rewrite T, B; cbn; repeat split; eauto.
Qed.

(** With a successful backend the result is stored and four callbacks of
    the progress interval plus the timeout lead to the report. *)
Lemma mount_succeeds (b : Browser) d status analysisResult :
  item_contractData (sessionStorage b) = Some d ->
  let m := run 5 (mount (FetchResponse true status (Some analysisResult)) b) in
  timer m = NoTimer
  /\ navigations (browser m) = navigations b ++ ["/report"%string]
  /\ item_analysisResult (sessionStorage (browser m)) = Some analysisResult
  /\ alerts (browser m) = alerts b.
Proof.
  intros Hd; cbv zeta; unfold mount; rewrite Hd.
  repeat split.
Qed.

End AnalyzingPageFacts.

(* ================================================================== *)
(** * The report page: what it loads and what it renders                *)
(* ================================================================== *)

Module ReportLoadFacts.
Import ReportPage.

(** The run of the effect on mount: no request yet. *)
Lemma effect_on_mount (o r : FetchOutcome) (b : Browser) d :
  item_contractData (sessionStorage b) = Some d ->
  effect o r b initialState
  = (b, mkState (Some d) (storedAnalysis b) VNull VNull).
Proof.
  intros Hd; unfold effect, storedAnalysis; rewrite Hd.
  destruct (item_analysisResult (sessionStorage b)); reflexivity.
Qed.

Lemma load_unfold (o r : FetchOutcome) (b : Browser) d :
  item_contractData (sessionStorage b) = Some d ->
  load o r b
  = effect o r b (mkState (Some d) (storedAnalysis b) VNull VNull).
Proof.
  intros Hd; unfold load; rewrite (effect_on_mount o r b d Hd); reflexivity.
Qed.

(** What the page holds after loading: the stored contract and analysis,
    and whatever the two requests have set. *)
Lemma load_shape (o r : FetchOutcome) (b : Browser) d :
  item_contractData (sessionStorage b) = Some d ->
  exists karma reviews,
    snd (load o r b) = mkState (Some d) (storedAnalysis b) karma reviews.
Proof.
  intros Hd; rewrite (load_unfold o r b d Hd).
  unfold effect; rewrite Hd; cbn [contractData].
  destruct (JSString.truthy (partyName d)).
  - destruct (performKarmaCheck o b _) as [b1 stK].
    destruct (getCompanyReviews r b1 _) as [b2 stR].
    unfold storedAnalysis.
    destruct (item_analysisResult (sessionStorage b)); simpl; eauto.
  - unfold storedAnalysis.
    destruct (item_analysisResult (sessionStorage b)); simpl; eauto.
Qed.

Lemma load_state (o r : FetchOutcome) (b : Browser) d :
  item_contractData (sessionStorage b) = Some d ->
  contractData (snd (load o r b)) = Some d
  /\ analysisResults (snd (load o r b)) = storedAnalysis b.
Proof.
  intros Hd; destruct (load_shape o r b d Hd) as (k & c & ->).
  split; reflexivity.
Qed.

(** A successful Karma Check stores the backend's answer. *)
Lemma load_karma_ok (r : FetchOutcome) (b : Browser) d status result :
  item_contractData (sessionStorage b) = Some d ->
  JSString.truthy (partyName d) = true ->
  karmaCheckResults
    (snd (load (FetchResponse true status (Some result)) r b)) = result.
Proof.
  intros Hd Hp; rewrite (load_unfold _ r b d Hd).
  unfold effect; rewrite Hd; cbn [contractData]; rewrite Hp.
  rewrite (ReportPageFacts.performKarmaCheck_ok b
             (mkState (Some d) (storedAnalysis b) VNull VNull) d status result
             eq_refl).
  destruct (getCompanyReviews r b _) as [b2 stR].
  destruct (item_analysisResult (sessionStorage b)); reflexivity.
Qed.

(** A failing Karma Check leaves [karmaCheckResults] at [null]. *)
Lemma load_karma_fail (o r : FetchOutcome) (b : Browser) :
  backendFails o = true ->
  karmaCheckResults (snd (load o r b)) = VNull.
Proof.
  intros Hf; unfold load.
  pose proof (ReportPageFacts.effect_fails o r b initialState Hf)
    as (K1 & _).
  destruct (effect o r b initialState) as [b1 st1]; simpl in K1.
  pose proof (ReportPageFacts.effect_fails o r b1 st1 Hf) as (K2 & _).
  destruct (contractData st1); simpl; congruence.
Qed.

(** A failing company reviews request leaves [companyReviews] at [null]. *)
Lemma load_reviews_fail (o r : FetchOutcome) (b : Browser) d :
  item_contractData (sessionStorage b) = Some d ->
  backendFails r = true ->
  companyReviews (snd (load o r b)) = VNull.
Proof.
  intros Hd Hf; rewrite (load_unfold o r b d Hd).
  unfold effect; rewrite Hd; cbn [contractData].
  destruct (JSString.truthy (partyName d)).
  - destruct (performKarmaCheck o b _) as [b1 stK].
    unfold getCompanyReviews, getCompanyReviews_try; cbn [contractData].
    destruct r as [|ok status body]; simpl in *.
    + destruct (item_analysisResult (sessionStorage b)); reflexivity.
    + destruct ok; [discriminate|].
      destruct (item_analysisResult (sessionStorage b)); reflexivity.
  - destruct (item_analysisResult (sessionStorage b)); reflexivity.
Qed.

Lemma render_not_found (st : State) d :
  contractData st = Some d ->
  truthy (analysisResults st) = false ->
  render st = inr AnalysisResultsNotFound.
Proof.
  intros Hd Ht; unfold render, displayResults; rewrite Hd, Ht; reflexivity.
Qed.

(** A truthy [analysisResults] never gives the notice or nothing: the page
    renders the report or fails. *)
Lemma render_truthy (st : State) d :
  contractData st = Some d ->
  truthy (analysisResults st) = true ->
  (exists failure, render st = inl failure)
  \/ (exists results,
        render st = inr (Report results)
        /\ displayResults st = inr results
        /\ exists children,
             reportJsx st results = inr children
             /\ forallb accepted children = true).
Proof.
  intros Hd Ht; unfold render; rewrite Hd, Ht.
  destruct (displayResults st) as [e|results] eqn:D; [left; eauto|].
  destruct (reportJsx st results) as [e|children] eqn:J; [left; eauto|].
  destruct (forallb accepted children) eqn:R; [|left; eauto].
  right; exists results; split; [reflexivity|]; split; [reflexivity|].
  exists children; split; [exact J | exact R].
Qed.

(** Whenever the report is rendered, it is [displayResults]. *)
Lemma render_report (st : State) results :
  render st = inr (Report results) ->
  displayResults st = inr results
  /\ truthy (analysisResults st) = true.
Proof.
  unfold render.
  destruct (contractData st); [|discriminate].
  destruct (displayResults st) as [e|d]; [discriminate|].
  destruct (truthy (analysisResults st)); [|discriminate].
  destruct (reportJsx st d) as [e|children]; [discriminate|].
  destruct (forallb accepted children); [|discriminate].
  intros H; injection H as <-; split; reflexivity.
Qed.

End ReportLoadFacts.

(* ================================================================== *)
(** * The report page after a failed analysis                           *)
(* ================================================================== *)

Module PipelineFacts.
Import ReportPage.

(** Without a stored [analysisResult] the page shows the notice, whatever
    the Karma Check and company reviews requests do. *)
Lemma load_without_analysis (k r : FetchOutcome) (b : Browser) d :
  item_contractData (sessionStorage b) = Some d ->
  item_analysisResult (sessionStorage b) = None ->
  render (snd (load k r b)) = inr AnalysisResultsNotFound.
Proof.
  intros Hd Ha.
  destruct (ReportLoadFacts.load_state k r b d Hd) as [C A].
  apply (ReportLoadFacts.render_not_found _ d C).
  rewrite A; unfold storedAnalysis; rewrite Ha; reflexivity.
Qed.

(** With a stored, truthy [analysisResult] whose findings can be mapped,
    the page shows a report. *)
Example load_with_analysis :
  exists r,
    render (snd (load FetchRejects FetchRejects
                      (mkBrowser (mkStorage (Some Samples.contract)
                                            (Some Samples.analysis))
                                 [] [] [] [])))
    = inr (Report r)
    /\ List.length (contractAnalysis r) = 2%nat.
Proof. eexists; split; [vm_compute; reflexivity | reflexivity]. Qed.

(** A stored analysis whose [key_findings] is a number: the findings can
    be mapped, but the summary card calls [.map] on the number. *)
Example load_with_number_as_key_findings :
  render (snd (load FetchRejects FetchRejects
                    (mkBrowser
                       (mkStorage
                          (Some Samples.contract)
                          (Some (VObj [(lit "analysis",
                                        VObj [(lit "executive_summary",
                                               VObj [(lit "key_findings",
                                                      VNum 5)])])])))
                       [] [] [] [])))
  = inl (Throws TypeError).
Proof. reflexivity. Qed.

(** A stored analysis whose risk score is an object: React refuses it as
    a child. *)
Example load_with_object_as_risk_score :
  render (snd (load FetchRejects FetchRejects
                    (mkBrowser
                       (mkStorage
                          (Some Samples.contract)
                          (Some (VObj [(lit "analysis",
                                        VObj [(lit "executive_summary",
                                               VObj [(lit "risk_score",
                                                      VObj [])])])])))
                       [] [] [] [])))
  = inl ObjectAsChild.
Proof. reflexivity. Qed.

(** Company reviews that arrive without their list: [.map] is called on
    [undefined]. *)
Example load_with_reviews_without_list :
  render (snd (load FetchRejects
                    (FetchResponse true 200
                       (Some (VObj [(lit "success", VBool true)])))
                    Samples.analysedBrowser))
  = inl (Throws TypeError).
Proof. reflexivity. Qed.

Lemma currentRoute_app (b : Browser) (l : list string) (r : string) :
  navigations b = l ++ [r] -> currentRoute b = r.
Proof. unfold currentRoute; intros ->; apply last_last. Qed.

(** The axios variant of the analysing page: a failed request ends in an
    [alert] and the animation that would navigate is not started. *)
Lemma analyzeContractBackend_fails (e : Exn) (b : Browser) :
  let r := AnalyzingPageAxios.analyzeContractBackend
             (AnalyzingPageAxios.AxiosRejects e) b in
  snd r = AnalyzingPageAxios.NotStarted
  /\ navigations (fst r) = navigations b
  /\ sessionStorage (fst r) = sessionStorage b
  /\ alerts (fst r)
     = alerts b ++ ["Contract analysis failed. Check console for details."%string].
Proof. repeat split. Qed.

End PipelineFacts.

(** C9, as stated, fails: with the backend down and nothing stored from an
    earlier run, the flow does reach the report route, but what is rendered
    there is the "Analysis Results Not Found" notice, not a report. *)
Lemma failed_analysis_renders_no_report :
  backendFails FetchRejects = true
  /\ snd (pipeline Samples.form 1700000000000 FetchRejects FetchRejects
                   FetchRejects AnalyzingPage.fallbackCallbacks freshBrowser)
     = Some (inr ReportPage.AnalysisResultsNotFound)
  /\ ~ exists r,
         snd (pipeline Samples.form 1700000000000 FetchRejects FetchRejects
                       FetchRejects AnalyzingPage.fallbackCallbacks
                       freshBrowser)
         = Some (inr (ReportPage.Report r)).
Proof.
  assert (H : snd (pipeline Samples.form 1700000000000 FetchRejects
                            FetchRejects FetchRejects
                            AnalyzingPage.fallbackCallbacks freshBrowser)
              = Some (inr ReportPage.AnalysisResultsNotFound))
    by (vm_compute; reflexivity).
  split; [reflexivity | split; [exact H|]].
  intros [r Hr]; rewrite H in Hr; discriminate.
Qed.

(** C9, amended.  When the analysis backend fails (the fetch rejects or
    answers with a non-OK status) for an accepted submission,
    [callBackendAPI] raises nothing, shows no alert and no error toast,
    stores no [analysisResult], plays the fallback animation to its end and
    routes to the report view, where it stays.  The report page then renders
    the report only from an [analysisResult] that is already in
    [sessionStorage]; when there is none it renders the "Analysis Results
    Not Found" notice. *)
Theorem failed_analysis_routes_to_report_view
    (f : InputPage.Form) (now : Z) (o k r : FetchOutcome) (b : Browser)
    (later : nat) :
  blank (InputPage.form_contractText f) = false ->
  blank (InputPage.form_partyName f) = false ->
  backendFails o = true ->
  let fuel := (AnalyzingPage.fallbackCallbacks + later)%nat in
  let m := AnalyzingPage.run fuel
             (AnalyzingPage.mount o (InputPage.handleSubmit f now b)) in
  AnalyzingPage.timer m = AnalyzingPage.NoTimer
  /\ navigations (AnalyzingPage.browser m)
     = navigations b ++ ["/analyzing"; "/report"]%string
  /\ toasts (AnalyzingPage.browser m)
     = toasts b ++ [InputPage.analysisStarting]
  /\ alerts (AnalyzingPage.browser m) = alerts b
  /\ item_analysisResult (sessionStorage (AnalyzingPage.browser m))
     = item_analysisResult (sessionStorage b)
  /\ (item_analysisResult (sessionStorage b) = None ->
      snd (pipeline f now o k r fuel b)
      = Some (inr ReportPage.AnalysisResultsNotFound)).
Proof.
  intros Hc Hp Hf; cbv zeta.
  destruct (InputPageFacts.handleSubmit_accepts f now b Hc Hp)
    as (Hd & Ha & Hn & Ht & Hal & _).
  destruct (AnalyzingPageFacts.mount_fails o _ _ Hd Hf)
    as (T & N & S & To & Al & _).
  assert (Hrun : AnalyzingPage.run (AnalyzingPage.fallbackCallbacks + later)
                   (AnalyzingPage.mount o (InputPage.handleSubmit f now b))
                 = AnalyzingPage.run AnalyzingPage.fallbackCallbacks
                     (AnalyzingPage.mount o (InputPage.handleSubmit f now b))).
  { rewrite AnalyzingPageFacts.run_add.
    apply AnalyzingPageFacts.run_NoTimer; exact T. }
  rewrite Hn, <- app_assoc in N; simpl app in N.
  unfold pipeline; rewrite Hrun.
  repeat split; try congruence.
  intros Hnone.
  rewrite (PipelineFacts.currentRoute_app _ _ _ Hn);
    cbn [String.eqb Ascii.eqb Bool.eqb].
  rewrite (PipelineFacts.currentRoute_app _
             (navigations b ++ ["/analyzing"%string]) "/report"%string)
    by (rewrite N, <- app_assoc; reflexivity).
  cbn [String.eqb Ascii.eqb Bool.eqb].
  pose proof (PipelineFacts.load_without_analysis k r
                (AnalyzingPage.browser
                   (AnalyzingPage.run AnalyzingPage.fallbackCallbacks
                      (AnalyzingPage.mount o (InputPage.handleSubmit f now b))))
                _ ltac:(rewrite S; exact Hd) ltac:(rewrite S; congruence)) as Hr.
  destruct (ReportPage.load k r _) as [b2 st]; cbn [snd] in *.
  rewrite Hr; reflexivity.
Qed.

Lemma failed_analysis_routes_to_report_view_witness :
  let fuel := (AnalyzingPage.fallbackCallbacks + 10)%nat in
  let m := AnalyzingPage.run fuel
             (AnalyzingPage.mount (FetchResponse false 500 None)
                (InputPage.handleSubmit Samples.form 1700000000000
                                        freshBrowser)) in
  AnalyzingPage.timer m = AnalyzingPage.NoTimer
  /\ navigations (AnalyzingPage.browser m) = ["/analyzing"; "/report"]%string
  /\ snd (pipeline Samples.form 1700000000000 (FetchResponse false 500 None)
                   FetchRejects FetchRejects fuel freshBrowser)
     = Some (inr ReportPage.AnalysisResultsNotFound).
Proof.
  destruct (failed_analysis_routes_to_report_view
              Samples.form 1700000000000 (FetchResponse false 500 None)
              FetchRejects FetchRejects freshBrowser 10
              eq_refl eq_refl eq_refl)
    as (T & N & _ & _ & _ & R).
  split; [exact T | split; [exact N | exact (R eq_refl)]].
Defined.

(* ================================================================== *)
(** * Name normalization is idempotent                                  *)
(* ================================================================== *)

Module NameNormalizerFacts.
Import NameNormalizer.

Ltac decide_units :=
  repeat match goal with
         | |- context [N.eqb ?a ?b] =>
             destruct (N.eqb_spec a b); [lia|]
         | |- context [N.leb ?a ?b] =>
             destruct (N.leb_spec a b); try lia
         end; try reflexivity.

Lemma lowerUnit_idem (c : N) : lowerUnit (lowerUnit c) = lowerUnit c.
Proof.
  unfold lowerUnit.
  destruct (N.leb_spec 65 c), (N.leb_spec c 90); simpl; decide_units.
Qed.

Lemma isWhiteSpace_lowerUnit (c : N) :
  isWhiteSpace (lowerUnit c) = isWhiteSpace c.
Proof.
  unfold lowerUnit.
  destruct (N.leb_spec 65 c), (N.leb_spec c 90); simpl; try reflexivity.
  unfold isWhiteSpace; decide_units.
Qed.

Lemma asciiLower_idem (s : jstring) : lowered (asciiLower s).
Proof.
  unfold lowered, asciiLower; rewrite map_map.
  apply map_ext; intros c; apply lowerUnit_idem.
Qed.

Lemma lowered_units (s : jstring) :
  lowered s <-> Forall (fun c => lowerUnit c = c) s.
Proof.
  unfold lowered, asciiLower; induction s as [|c s IH]; simpl.
  - split; [constructor | reflexivity].
  - split.
    + intros H; injection H as Hc Hs; constructor; [assumption | tauto].
    + intros H; inversion H; subst; f_equal; [assumption | tauto].
Qed.

(** ** Tokens *)

Lemma tokensFrom_solid (s : jstring) :
  forall cur, Forall (fun c => isWhiteSpace c = false) cur ->
              Forall solid (tokensFrom cur s).
Proof.
  assert (Hrev : forall cur : list N,
             cur <> [] -> Forall (fun c => isWhiteSpace c = false) cur ->
             solid (rev cur)).
  { intros cur Hne Hc; split.
    - intros E; apply Hne; rewrite <- (rev_involutive cur), E; reflexivity.
    - apply Forall_rev; assumption. }
  induction s as [|c s IH]; intros cur Hcur; simpl.
  - destruct cur as [|d cur]; constructor; [|constructor].
    apply Hrev; [discriminate | assumption].
  - destruct (isWhiteSpace c) eqn:Hc.
    + destruct cur as [|d cur]; [apply IH; constructor|].
      constructor; [apply Hrev; [discriminate | assumption]|].
      apply IH; constructor.
    + apply IH; constructor; assumption.
Qed.

Lemma tokens_solid (s : jstring) : Forall solid (tokens s).
Proof. apply tokensFrom_solid; constructor. Qed.

Lemma tokensFrom_units (P : N -> Prop) (s : jstring) :
  forall cur, Forall P cur -> Forall P s ->
              Forall (Forall P) (tokensFrom cur s).
Proof.
  induction s as [|c s IH]; intros cur Hcur Hs; simpl.
  - destruct cur; constructor; [apply Forall_rev; assumption | constructor].
  - inversion Hs as [|? ? Hc Hs']; subst.
    destruct (isWhiteSpace c).
    + destruct cur as [|d cur]; [apply IH; auto|].
      constructor; [apply Forall_rev; assumption | apply IH; auto].
    + apply IH; auto.
Qed.

Lemma tokens_lowered (s : jstring) :
  lowered s -> Forall lowered (tokens s).
Proof.
  intros H; apply lowered_units in H.
  pose proof (tokensFrom_units (fun c => lowerUnit c = c) s []
                (Forall_nil _) H) as Hts.
  eapply Forall_impl; [|exact Hts].
  intros t Ht; apply lowered_units; exact Ht.
Qed.

(** Reading a solid token appends it to the token being read. *)
Lemma tokensFrom_app (t : token) :
  Forall (fun c => isWhiteSpace c = false) t ->
  forall cur rest, tokensFrom cur (t ++ rest) = tokensFrom (rev t ++ cur) rest.
Proof.
  induction 1 as [|c t Hc _ IH]; intros cur rest; simpl; [reflexivity|].
  rewrite Hc, IH, <- app_assoc; reflexivity.
Qed.

(** Splitting what was joined gives the tokens back. *)
Lemma tokens_unwords (ts : list token) :
  Forall solid ts -> tokens (unwords ts) = ts.
Proof.
  unfold tokens; induction 1 as [|t ts [Hne Hws] Hts IH]; [reflexivity|].
  destruct ts as [|t2 ts].
  - simpl unwords; rewrite <- (app_nil_r t) at 1.
    rewrite (tokensFrom_app t Hws), app_nil_r; simpl.
    destruct (rev t) eqn:E.
    + exfalso; apply Hne; rewrite <- (rev_involutive t), E; reflexivity.
    + rewrite <- E, rev_involutive; reflexivity.
  - change (unwords (t :: t2 :: ts)) with (t ++ 32%N :: unwords (t2 :: ts)).
    rewrite (tokensFrom_app t Hws), app_nil_r.
    change (tokensFrom (rev t) (32%N :: unwords (t2 :: ts)))
      with (match rev t with
            | [] => tokensFrom [] (unwords (t2 :: ts))
            | _ :: _ => rev (rev t) :: tokensFrom [] (unwords (t2 :: ts))
            end).
    destruct (rev t) eqn:E.
    + exfalso; apply Hne; rewrite <- (rev_involutive t), E; reflexivity.
    + rewrite <- E, rev_involutive, IH; reflexivity.
Qed.

Lemma unwords_lowered (ts : list token) :
  Forall lowered ts -> lowered (unwords ts).
Proof.
  unfold lowered, asciiLower.
  induction 1 as [|t ts Ht Hts IH]; [reflexivity|].
  destruct ts as [|t2 ts]; [exact Ht|].
  change (unwords (t :: t2 :: ts)) with (t ++ 32%N :: unwords (t2 :: ts)).
  rewrite map_app, map_cons, Ht, IH; reflexivity.
Qed.

(** ** Stripping suffixes *)

Section WithSuffixes.

Variable suffixes : list (list token).

Lemma matchedSuffix_pos (sufs : list (list token)) (l : list token) k :
  matchedSuffix sufs l = Some k -> (0 < k)%nat /\ l <> [].
Proof.
  induction sufs as [|suf sufs IH]; simpl; [discriminate|].
  destruct suf as [|x suf]; [exact IH|].
  destruct (isPrefix (rev (x :: suf)) l) eqn:Hp; [|exact IH].
  intros H; injection H as <-; split; [simpl; lia|].
  intros ->; destruct (rev (x :: suf)) eqn:E; [|discriminate].
  apply (f_equal (@List.length _)) in E; rewrite length_rev in E.
  discriminate.
Qed.

(** Stripping stops only where no suffix matches. *)
Lemma stripFuel_done (fuel : nat) :
  forall l, (List.length l <= fuel)%nat ->
            matchedSuffix suffixes (stripFuel suffixes fuel l) = None.
Proof.
  induction fuel as [|fuel IH]; intros l Hl; simpl.
  - destruct l; [|simpl in Hl; lia].
    destruct (matchedSuffix suffixes []) eqn:E; [|reflexivity].
    apply matchedSuffix_pos in E; tauto.
  - destruct (matchedSuffix suffixes l) as [k|] eqn:E; [|exact E].
    apply matchedSuffix_pos in E as [Hk Hne].
    apply IH; rewrite length_skipn.
    assert (List.length l <> 0)%nat
      by (destruct l; [congruence | discriminate]).
    lia.
Qed.

Lemma stripFuel_fixed (fuel : nat) (l : list token) :
  matchedSuffix suffixes l = None -> stripFuel suffixes fuel l = l.
Proof. destruct fuel; simpl; [reflexivity | intros ->; reflexivity]. Qed.

(** What is left is a part of the name. *)
Lemma stripFuel_Forall (P : token -> Prop) (fuel : nat) :
  forall l, Forall P l -> Forall P (stripFuel suffixes fuel l).
Proof.
  induction fuel as [|fuel IH]; intros l Hl; simpl; [assumption|].
  destruct (matchedSuffix suffixes l) as [k|]; [|assumption].
  apply IH; rewrite <- (firstn_skipn k l) in Hl.
  apply Forall_app in Hl; tauto.
Qed.

Lemma stripSuffixes_Forall (P : token -> Prop) (ts : list token) :
  Forall P ts -> Forall P (stripSuffixes suffixes ts).
Proof.
  intros H; unfold stripSuffixes.
  apply Forall_rev, stripFuel_Forall, Forall_rev; assumption.
Qed.

Lemma stripSuffixes_idem (ts : list token) :
  stripSuffixes suffixes (stripSuffixes suffixes ts)
  = stripSuffixes suffixes ts.
Proof.
  unfold stripSuffixes; rewrite rev_involutive; f_equal.
  apply stripFuel_fixed, stripFuel_done; rewrite length_rev; lia.
Qed.

End WithSuffixes.

Example normalize_TechCorp :
  normalize corporateSuffixes (lit "  TechCorp   India Pvt Ltd ")
  = lit "techcorp india".
Proof. reflexivity. Qed.

Example normalize_repeated_suffixes :
  normalize corporateSuffixes (lit "Foo LLP llp Ltd") = lit "foo".
Proof. reflexivity. Qed.

End NameNormalizerFacts.

(** C6. Name normalization (lower-case, strip the corporate suffixes,
    collapse whitespace) is idempotent, for every list of suffixes:
    [normalize (normalize x) = normalize x]. *)
Theorem normalize_idempotent
    (suffixes : list (list NameNormalizer.token)) (x : jstring) :
  NameNormalizer.normalize suffixes (NameNormalizer.normalize suffixes x)
  = NameNormalizer.normalize suffixes x.
Proof.
  unfold NameNormalizer.normalize.
  set (ts := NameNormalizer.stripSuffixes suffixes
               (NameNormalizer.tokens (asciiLower x))).
  assert (Hsolid : Forall NameNormalizer.solid ts).
  { apply NameNormalizerFacts.stripSuffixes_Forall,
          NameNormalizerFacts.tokens_solid. }
  assert (Hlow : Forall NameNormalizer.lowered ts).
  { apply NameNormalizerFacts.stripSuffixes_Forall,
          NameNormalizerFacts.tokens_lowered,
          NameNormalizerFacts.asciiLower_idem. }
  rewrite (NameNormalizerFacts.unwords_lowered ts Hlow).
  rewrite (NameNormalizerFacts.tokens_unwords ts Hsolid).
  unfold ts; rewrite NameNormalizerFacts.stripSuffixes_idem; reflexivity.
Qed.

(* ================================================================== *)
(** * Risk Scorer: floor, bounds, monotonicity                          *)
(* ================================================================== *)

Module RiskScorerFacts.
Import CaseRetriever RiskScorer.

Local Open Scope R_scope.

(** ** Rounding *)

Lemma Int_part_mono (x y : R) : x <= y -> (Int_part x <= Int_part y)%Z.
Proof.
  intros Hxy.
  destruct (base_Int_part x) as [Hx1 Hx2], (base_Int_part y) as [Hy1 Hy2].
  destruct (Z_le_gt_dec (Int_part x) (Int_part y)) as [H|H]; [exact H|].
  exfalso.
  assert (Hz : (Int_part y + 1 <= Int_part x)%Z) by lia.
  apply IZR_le in Hz; rewrite plus_IZR in Hz; Lra.lra.
Qed.

Lemma round_mono (x y : R) : x <= y -> (round x <= round y)%Z.
Proof. intros H; apply Int_part_mono; Lra.lra. Qed.

Lemma round_IZR (n : Z) : round (IZR n) = n.
Proof.
  unfold round; symmetry; apply Int_part_spec; Lra.lra.
Qed.

(** ** The saturating curve *)

Lemma exp_mono (x y : R) : x <= y -> exp x <= exp y.
Proof.
  intros [H| ->]; [left; apply exp_increasing; exact H | right; reflexivity].
Qed.

Lemma curve_mono (nc s1 s2 : R) :
  0 < nc -> s1 <= s2 ->
  100 * (1 - exp (- s1 / nc)) <= 100 * (1 - exp (- s2 / nc)).
Proof.
  intros Hnc Hs.
  assert (H : - s2 / nc <= - s1 / nc).
  { unfold Rdiv; apply Rmult_le_compat_r; [|Lra.lra].
    left; apply Rinv_0_lt_compat; exact Hnc. }
  apply exp_mono in H; Lra.lra.
Qed.

Lemma curve_at_0 (nc : R) : 100 * (1 - exp (- 0 / nc)) = 0.
Proof.
  replace (- 0 / nc) with 0 by (unfold Rdiv; ring).
  rewrite exp_0; ring.
Qed.

Lemma curve_below_100 (nc s : R) : 100 * (1 - exp (- s / nc)) <= 100.
Proof. pose proof (exp_pos (- s / nc)); Lra.lra. Qed.

Lemma saturate_mono (nc s1 s2 : Q) :
  (0 < nc)%Q -> (s1 <= s2)%Q ->
  (saturate nc s1 <= saturate nc s2)%Z.
Proof.
  intros Hnc Hs; unfold saturate.
  apply Z.min_le_compat_l, round_mono, curve_mono.
  - apply Qlt_Rlt in Hnc; rewrite RMicromega.Q2R_0 in Hnc; exact Hnc.
  - apply Qle_Rle; exact Hs.
Qed.

Lemma saturate_0 (nc : Q) : saturate nc 0 = 0%Z.
Proof.
  unfold saturate; rewrite RMicromega.Q2R_0, curve_at_0.
  rewrite (round_IZR 0); reflexivity.
Qed.

Lemma saturate_le_100 (nc s : Q) : (saturate nc s <= 100)%Z.
Proof. unfold saturate; apply Z.le_min_l. Qed.

Lemma saturate_bounds (nc s : Q) :
  (0 < nc)%Q -> (0 <= s)%Q -> (0 <= saturate nc s <= 100)%Z.
Proof.
  intros Hnc Hs; split; [|apply saturate_le_100].
  rewrite <- (saturate_0 nc); apply saturate_mono; assumption.
Qed.

(** ** Weights *)

Local Close Scope R_scope.
Local Open Scope Q_scope.

Lemma outcome_weight_range (m : CaseMetadata) :
  2 # 10 <= outcome_weight m <= 1.
Proof.
  unfold outcome_weight.
  destruct (outcome m); try destruct (counterparty_was_defendant m);
    split; Lqa.lra.
Qed.

Lemma recency_weight_range (m : CaseMetadata) :
  2 # 10 <= recency_weight m <= 1.
Proof.
  unfold recency_weight.
  destruct (Qle_bool (age_years m) 2) eqn:H2; [split; Lqa.lra|].
  destruct (Qle_bool 10 (age_years m)) eqn:H10; [split; Lqa.lra|].
  assert (L : ~ age_years m <= 2)
    by (rewrite <- Qle_bool_iff, H2; discriminate).
  assert (U : ~ 10 <= age_years m)
    by (rewrite <- Qle_bool_iff, H10; discriminate).
  apply Qnot_le_lt in L, U; split; Lqa.lra.
Qed.

Lemma case_weight_nonneg (c : ScoredCase) :
  0 <= name_match_confidence (retrieved c) -> 0 <= case_weight c.
Proof.
  intros Hc; unfold case_weight.
  pose proof (outcome_weight_range (metadata c)) as [Ho _].
  pose proof (recency_weight_range (metadata c)) as [Hr _].
  apply Qmult_le_0_compat; [apply Qmult_le_0_compat|]; Lqa.lra.
Qed.

Lemma total_weight_nonneg (cases : list ScoredCase) :
  Forall (fun c => 0 <= name_match_confidence (retrieved c)) cases ->
  0 <= total_weight cases.
Proof.
  unfold total_weight; induction 1 as [|c cases Hc _ IH]; simpl.
  - Lqa.lra.
  - pose proof (case_weight_nonneg c Hc); Lqa.lra.
Qed.

(** The score as a function of the sum alone, also for no case at all. *)
Lemma scoreOf_saturate (nc : Q) (cases : list ScoredCase) :
  scoreOf nc cases = saturate nc (total_weight cases).
Proof.
  destruct cases; [symmetry; apply saturate_0 | reflexivity].
Qed.

Lemma score_numeric (nc : Q) name cases now :
  numeric_score (score nc name cases now) = scoreOf nc cases.
Proof. destruct cases; reflexivity. Qed.

(** The more recent of two otherwise identical cases weighs more. *)
Example recent_case_outweighs_old :
  (case_weight Samples.oldCase < case_weight Samples.recentCase)%Q.
Proof. reflexivity. Qed.

Lemma levelOf_cases (n : Z) :
  (levelOf n = low <-> (n < 34)%Z)
  /\ (levelOf n = medium <-> (34 <= n < 67)%Z)
  /\ (levelOf n = high <-> (67 <= n)%Z).
Proof.
  unfold levelOf.
  destruct (Z.ltb_spec n 34); [|destruct (Z.ltb_spec n 67)];
    repeat split; intros; try discriminate; try lia.
Qed.

End RiskScorerFacts.

(** C2. With zero retrieved cases the Risk Scorer gives [numeric_score = 0],
    [risk_level = low], no [cases_considered] and the summary "no adverse
    history found", for every normalization constant. *)
Theorem score_of_empty_retrieval (nc : Q) (name : jstring) (now : Z) :
  let k := RiskScorer.score nc name [] now in
  RiskScorer.numeric_score k = 0%Z
  /\ RiskScorer.risk_level k = RiskScorer.low
  /\ RiskScorer.cases_considered k = []
  /\ RiskScorer.summary_text k = RiskScorer.NoAdverseHistoryFound.
Proof. repeat split. Qed.

(** C3. For every finite list of retrieved cases whose name-match
    confidences are not negative (they are in [0,1] in the data model) and
    every positive normalization constant, [numeric_score] is an integer
    between 0 and 100. *)
Theorem numeric_score_in_0_100
    (nc : Q) (name : jstring) (cases : list RiskScorer.ScoredCase) (now : Z) :
  (0 < nc)%Q ->
  Forall (fun c => (0 <= CaseRetriever.name_match_confidence
                          (RiskScorer.retrieved c))%Q) cases ->
  (0 <= RiskScorer.numeric_score (RiskScorer.score nc name cases now) <= 100)%Z.
Proof.
  intros Hnc Hcases.
  rewrite RiskScorerFacts.score_numeric, RiskScorerFacts.scoreOf_saturate.
  apply RiskScorerFacts.saturate_bounds;
    [exact Hnc | apply RiskScorerFacts.total_weight_nonneg; exact Hcases].
Qed.

(** C4. For two non-empty retrieval results, if the sum of the case weights
    of the first is at most that of the second, the first's [numeric_score]
    is at most the second's (for every positive normalization constant). *)
Theorem numeric_score_monotone
    (nc : Q) (name1 name2 : jstring)
    (cases1 cases2 : list RiskScorer.ScoredCase) (now1 now2 : Z) :
  (0 < nc)%Q ->
  cases1 <> [] -> cases2 <> [] ->
  (RiskScorer.total_weight cases1 <= RiskScorer.total_weight cases2)%Q ->
  (RiskScorer.numeric_score (RiskScorer.score nc name1 cases1 now1)
   <= RiskScorer.numeric_score (RiskScorer.score nc name2 cases2 now2))%Z.
Proof.
  intros Hnc _ _ Hsum.
  rewrite !RiskScorerFacts.score_numeric, !RiskScorerFacts.scoreOf_saturate.
  apply RiskScorerFacts.saturate_mono; assumption.
Qed.

Lemma numeric_score_in_0_100_witness :
  (0 <= RiskScorer.numeric_score
          (RiskScorer.score RiskScorer.default_normalization_constant
                            (lit "TechCorp India")
                            [Samples.recentCase; Samples.oldCase] 0)
   <= 100)%Z.
Proof.
  apply numeric_score_in_0_100.
  - reflexivity.
  - repeat constructor; discriminate.
Defined.

Lemma numeric_score_monotone_witness :
  (RiskScorer.numeric_score
     (RiskScorer.score RiskScorer.default_normalization_constant
                       (lit "TechCorp India") [Samples.oldCase] 0)
   <= RiskScorer.numeric_score
        (RiskScorer.score RiskScorer.default_normalization_constant
                          (lit "TechCorp India") [Samples.recentCase] 0))%Z.
Proof.
  apply numeric_score_monotone.
  - reflexivity.
  - discriminate.
  - discriminate.
  - vm_compute; discriminate.
Defined.

(* ================================================================== *)
(** * Case Retriever: the ranked union                                  *)
(* ================================================================== *)

Module CaseRetrieverFacts.
Import CaseRetriever.

Section WithCorpus.

Variable filed_date : N -> Z.
Variable minimum_confidence : Q.
Variable name_match_pool semantic_pool : RetrievalQuery -> list (N * Q).

Local Abbreviation rankedBefore := (CaseRetriever.rankedBefore filed_date).
Local Abbreviation unionIds :=
  (CaseRetriever.unionIds name_match_pool semantic_pool).
Local Abbreviation excluded :=
  (CaseRetriever.excluded minimum_confidence name_match_pool).
Local Abbreviation candidateIds :=
  (CaseRetriever.candidateIds minimum_confidence name_match_pool
                              semantic_pool).
Local Abbreviation merge :=
  (CaseRetriever.merge minimum_confidence name_match_pool semantic_pool).

Lemma ranksBefore_spec (a b : RetrievedCase) :
  ranksBefore filed_date a b = true <-> rankedBefore a b.
Proof.
  unfold ranksBefore, CaseRetriever.rankedBefore.
  destruct (Qcompare (composite b) (composite a)) eqn:E.
  - apply Qeq_alt in E; rewrite Z.leb_le; split.
    + intros H; right; split; [symmetry; exact E | exact H].
    + intros [H|[_ H]]; [rewrite E in H; elim (Qlt_irrefl _ H) | exact H].
  - apply Qlt_alt in E; split; [left; exact E | reflexivity].
  - apply Qgt_alt in E; split; [discriminate|].
    intros [H|[H _]].
    + elim (Qlt_irrefl (composite a)); eapply Qlt_trans; eassumption.
    + rewrite H in E; elim (Qlt_irrefl _ E).
Qed.

Lemma rankedBefore_total (a b : RetrievedCase) :
  ranksBefore filed_date a b = false -> rankedBefore b a.
Proof.
  unfold ranksBefore, CaseRetriever.rankedBefore.
  destruct (Qcompare (composite b) (composite a)) eqn:E.
  - apply Qeq_alt in E; rewrite Z.leb_gt.
    intros H; right; split; [exact E | lia].
  - discriminate.
  - apply Qgt_alt in E; intros _; left; exact E.
Qed.

Lemma rankedBefore_trans (a b c : RetrievedCase) :
  rankedBefore a b -> rankedBefore b c -> rankedBefore a c.
Proof.
  unfold CaseRetriever.rankedBefore; intros [H1|[E1 D1]] [H2|[E2 D2]].
  - left; eapply Qlt_trans; eassumption.
  - left; rewrite <- E2; exact H1.
  - left; rewrite E1; exact H2.
  - right; split; [rewrite E1; exact E2 | lia].
Qed.

(** ** Insertion sort *)

Lemma insert_perm (c : RetrievedCase) (l : list RetrievedCase) :
  Permutation (insert filed_date c l) (c :: l).
Proof.
  induction l as [|x l IH]; simpl; [reflexivity|].
  destruct (ranksBefore filed_date c x); [reflexivity|].
  rewrite IH; apply perm_swap.
Qed.

Lemma rank_perm (l : list RetrievedCase) :
  Permutation (rank filed_date l) l.
Proof.
  induction l as [|c l IH]; simpl; [reflexivity|].
  rewrite insert_perm; constructor; exact IH.
Qed.

Lemma insert_sorted (c : RetrievedCase) (l : list RetrievedCase) :
  StronglySorted rankedBefore l ->
  StronglySorted rankedBefore (insert filed_date c l).
Proof.
  induction 1 as [|x l Hl IH Hx]; simpl.
  - repeat constructor.
  - destruct (ranksBefore filed_date c x) eqn:E.
    + apply ranksBefore_spec in E.
      constructor; [constructor; assumption|].
      constructor; [exact E|].
      eapply Forall_impl; [|exact Hx].
      intros y Hy; eapply rankedBefore_trans; eassumption.
    + apply rankedBefore_total in E.
      constructor; [exact IH|].
      apply Forall_forall; intros y Hy.
      apply (Permutation_in _ (insert_perm c l)) in Hy.
      destruct Hy as [<-|Hy]; [exact E|].
      rewrite Forall_forall in Hx; auto.
Qed.

Lemma rank_sorted (l : list RetrievedCase) :
  StronglySorted rankedBefore (rank filed_date l).
Proof.
  induction l as [|c l IH]; simpl; [constructor | apply insert_sorted, IH].
Qed.

(** ** Truncation *)

Lemma sorted_app_before (l1 l2 : list RetrievedCase) :
  StronglySorted rankedBefore (l1 ++ l2) ->
  StronglySorted rankedBefore l1
  /\ forall a b, In a l1 -> In b l2 -> rankedBefore a b.
Proof.
  induction l1 as [|x l1 IH]; simpl; intros H.
  - split; [constructor | intros a b []].
  - inversion H as [|? ? Hs Hx]; subst.
    destruct (IH Hs) as [Hs1 Hb].
    apply Forall_app in Hx as [Hx1 Hx2].
    split; [constructor; assumption|].
    intros a b [<-|Ha] Hb2; [|auto].
    rewrite Forall_forall in Hx2; auto.
Qed.

Lemma NoDup_firstn {A : Type} (n : nat) (l : list A) :
  NoDup l -> NoDup (firstn n l).
Proof.
  intros H; rewrite <- (firstn_skipn n l) in H.
  apply NoDup_app_remove_r in H; exact H.
Qed.

Lemma In_firstn {A : Type} (n : nat) (l : list A) (x : A) :
  In x (firstn n l) -> In x l.
Proof.
  intros H; rewrite <- (firstn_skipn n l); apply in_or_app; auto.
Qed.

(** ** The merged pools *)

Lemma excluded_spec (q : RetrievalQuery) (d : N) :
  excluded q d = true
  <-> (scoreIn (name_match_pool q) d < minimum_confidence)%Q.
Proof.
  unfold CaseRetriever.excluded.
  destruct (Qcompare (scoreIn (name_match_pool q) d) minimum_confidence)
    eqn:E.
  - apply Qeq_alt in E; split; [discriminate|].
    intros H; rewrite E in H; elim (Qlt_irrefl _ H).
  - apply Qlt_alt in E; split; [intros _; exact E | reflexivity].
  - apply Qgt_alt in E; split; [discriminate|].
    intros H; elim (Qlt_irrefl minimum_confidence).
    eapply Qlt_trans; eassumption.
Qed.

Lemma unionIds_spec (q : RetrievalQuery) (d : N) :
  In d (unionIds q)
  <-> In d (map fst (name_match_pool q))
      \/ In d (map fst (semantic_pool q)).
Proof. unfold CaseRetriever.unionIds; rewrite nodup_In, in_app_iff; reflexivity. Qed.

Lemma candidateIds_spec (q : RetrievalQuery) (d : N) :
  In d (candidateIds q)
  <-> (In d (map fst (name_match_pool q))
       \/ In d (map fst (semantic_pool q)))
      /\ ~ (scoreIn (name_match_pool q) d < minimum_confidence)%Q.
Proof.
  unfold CaseRetriever.candidateIds.
  rewrite filter_In, unionIds_spec, negb_true_iff, <- excluded_spec.
  destruct (excluded q d); split; intros [H1 H2]; split;
    try assumption; try discriminate; try reflexivity.
  elim H2; reflexivity.
Qed.

Lemma candidateIds_NoDup (q : RetrievalQuery) : NoDup (candidateIds q).
Proof.
  unfold CaseRetriever.candidateIds, CaseRetriever.unionIds.
  apply NoDup_filter, NoDup_nodup.
Qed.

Lemma merge_ids (q : RetrievalQuery) :
  map document_id (merge q) = candidateIds q.
Proof.
  unfold CaseRetriever.merge; rewrite map_map; simpl; apply map_id.
Qed.

Lemma merge_scores (q : RetrievalQuery) (c : RetrievedCase) :
  In c (merge q) ->
  name_match_confidence c = scoreIn (name_match_pool q) (document_id c)
  /\ similarity_score c = scoreIn (semantic_pool q) (document_id c).
Proof.
  unfold CaseRetriever.merge; rewrite in_map_iff; intros (d & <- & _).
  split; reflexivity.
Qed.

(** A semantic candidate that the string match did not find is excluded
    by every positive minimum. *)
Lemma semantic_only_excluded (q : RetrievalQuery) (d : N) :
  (0 < minimum_confidence)%Q ->
  ~ In d (map fst (name_match_pool q)) ->
  excluded q d = true.
Proof.
  intros Hmin Hd; apply excluded_spec.
  assert (E : scoreIn (name_match_pool q) d = 0%Q).
  { induction (name_match_pool q) as [|[d' x] pool IH]; [reflexivity|].
    simpl in *; destruct (N.eqb_spec d' d) as [->|_]; [tauto|].
    apply IH; tauto. }
  rewrite E; exact Hmin.
Qed.

End WithCorpus.

Example retrieve_sample :
  retrieve Samples.filedDate documented_minimum_confidence
           Samples.namePool Samples.semanticPool Samples.query
  = inr [ mkRetrievedCase 7 (5 # 10)%Q 1;
          mkRetrievedCase 8 0 (5 # 10)%Q ].
Proof. reflexivity. Qed.

Example retrieve_without_minimum :
  retrieve Samples.filedDate 0 Samples.namePool Samples.semanticPool
           Samples.query
  = inr [ mkRetrievedCase 7 (5 # 10)%Q 1;
          mkRetrievedCase 6 (95 # 100)%Q (3 # 10)%Q ].
Proof. reflexivity. Qed.

Example retrieve_empty_name :
  retrieve Samples.filedDate documented_minimum_confidence
           Samples.namePool Samples.semanticPool
           (mkRetrievalQuery (lit "  ") [] None 5)
  = inl InvalidInput.
Proof. reflexivity. Qed.

End CaseRetrieverFacts.




(* ================================================================== *)
(** * ReportPage: chat, experience form, X-Ray request                  *)
(* ================================================================== *)

Module ReportPageHandlersFacts.
Import ReportPageHandlers.

(** The reply entry is always an ['ai'] entry. *)
Lemma chatReply_role (o : FetchOutcome) entry :
  chatReply o = inr entry -> role entry = "ai"%string.
Proof.
  unfold chatReply; destruct o as [|ok status body]; [discriminate|].
  destruct ok; [|discriminate]; simpl.
  destruct body as [result|]; [|discriminate].
  destruct (getProp result (lit "success")) as [|success]; [discriminate|].
  destruct (getProp result (lit "chat_response")) as [|cr]; [discriminate|].
  destruct (getProp result (lit "error")) as [|err]; [discriminate|].
  destruct (truthy (andAlso success cr)); intros H; injection H as <-;
    reflexivity.
Qed.

(** A blank message, or a page without contract data, is ignored. *)
Lemma handleChatSubmit_ignored contractData o b st :
  blank (chatMessage st) = true \/ contractData = None ->
  handleChatSubmit contractData o b st = (b, st).
Proof.
  unfold handleChatSubmit; rewrite JSStringFacts.truthy_trim, negb_involutive.
  intros [-> | ->]; [reflexivity|].
  rewrite orb_true_r; reflexivity.
Qed.

(** A blank experience only gets the destructive toast. *)
Lemma handleExperienceSubmit_blank b st :
  blank (userExperience st) = true ->
  snd (handleExperienceSubmit b st) = st
  /\ exists t, toasts (fst (handleExperienceSubmit b st)) = toasts b ++ [t]
               /\ toast_variant t = Destructive.
Proof.
  intros H; unfold handleExperienceSubmit.
  rewrite JSStringFacts.truthy_trim, H; simpl.
  split; [reflexivity | eexists; split; reflexivity].
Qed.

End ReportPageHandlersFacts.



(** X2. [handleExperienceSubmit]: a non-blank experience puts the form in
    the submitting state without showing anything, and when the timeout
    fires the form is reset (text cleared, not submitting) and exactly the
    thank-you toast is shown. *)
Theorem experience_submission_resets_form
    (b : Browser) (st : ReportPageHandlers.ExperienceState) :
  blank (ReportPageHandlers.userExperience st) = false ->
  let r1 := ReportPageHandlers.handleExperienceSubmit b st in
  let r2 := ReportPageHandlers.experienceSubmitted (fst r1) (snd r1) in
  fst r1 = b
  /\ ReportPageHandlers.isSubmittingExperience (snd r1) = true
  /\ ReportPageHandlers.userExperience (snd r1)
     = ReportPageHandlers.userExperience st
  /\ snd r2 = ReportPageHandlers.mkExperienceState [] false false
  /\ exists t, toasts (fst r2) = toasts b ++ [t]
               /\ toast_variant t = Plain
               /\ toast_title t = "Thank You!"%string.
Proof.
  intros Hb; cbv zeta; unfold ReportPageHandlers.handleExperienceSubmit.
  rewrite JSStringFacts.truthy_trim, Hb; simpl.
  repeat split; eexists; repeat split.
Qed.

Lemma experience_submission_resets_form_witness :
  let st := ReportPageHandlers.mkExperienceState (lit "Paid late twice.")
                                                 false false in
  let r1 := ReportPageHandlers.handleExperienceSubmit freshBrowser st in
  let r2 := ReportPageHandlers.experienceSubmitted (fst r1) (snd r1) in
  snd r2 = ReportPageHandlers.mkExperienceState [] false false.
Proof.
  destruct (experience_submission_resets_form freshBrowser
              (ReportPageHandlers.mkExperienceState (lit "Paid late twice.")
                                                    false false) eq_refl)
    as (_ & _ & _ & H & _).
  exact H.
Defined.

(** X3. [fetchXrayAnalysis] sends a request exactly when there is no
    (truthy) result yet, no request in flight and a contract text.  When it
    sends none, nothing changes.  When it sends one, the loading flag ends
    [false] whatever happens; a failing backend leaves the results as they
    were and shows one destructive toast, and only a readable OK response
    replaces the results. *)
Theorem fetchXrayAnalysis_behaviour
    (contractData : option ContractData) (o : FetchOutcome) (b : Browser)
    (st : ReportPageHandlers.XrayState) :
  let r := ReportPageHandlers.fetchXrayAnalysis contractData o b st in
  let b' := fst (fst r) in
  let st' := snd (fst r) in
  let sent := snd r in
  (sent = true <->
     truthy (ReportPageHandlers.xrayResults st) = false
     /\ ReportPageHandlers.isXrayLoading st = false
     /\ ReportPageHandlers.hasContractText contractData = true)
  /\ (sent = false -> b' = b /\ st' = st)
  /\ (sent = true ->
        ReportPageHandlers.isXrayLoading st' = false
        /\ sessionStorage b' = sessionStorage b
        /\ navigations b' = navigations b
        /\ (backendFails o = true ->
              ReportPageHandlers.xrayResults st'
              = ReportPageHandlers.xrayResults st
              /\ exists t, toasts b' = toasts b ++ [t]
                           /\ toast_variant t = Destructive)
        /\ (forall status result,
              o = FetchResponse true status (Some result) ->
              ReportPageHandlers.xrayResults st' = result
              /\ toasts b' = toasts b)).
Proof.
  cbv zeta; unfold ReportPageHandlers.fetchXrayAnalysis.
  destruct (truthy (ReportPageHandlers.xrayResults st)) eqn:Hr; simpl.
  { repeat split; try discriminate; intros (H & _); discriminate. }
  destruct (ReportPageHandlers.isXrayLoading st) eqn:Hl; simpl.
  { repeat split; try discriminate; intros (_ & H & _); discriminate. }
  destruct (ReportPageHandlers.hasContractText contractData) eqn:Hc; simpl.
  2:{ repeat split; try discriminate; intros (_ & _ & H); discriminate. }
  destruct o as [|ok status body]; simpl.
  - repeat split; try discriminate; try (eexists; split; reflexivity).
  - destruct ok; simpl.
    + destruct body as [result|]; simpl; repeat split;
        try discriminate; try congruence;
        try (eexists; split; reflexivity).
    + repeat split; try discriminate; eexists; split; reflexivity.
Qed.

(* ================================================================== *)
(** * ReportPage: what the report shows                                 *)
(* ================================================================== *)

Module DisplayFacts.
Import ReportPage.

Lemma orElse_truthy (a b : Value) :
  truthy b = true -> truthy (orElse a b) = true.
Proof. unfold orElse; destruct (truthy a) eqn:E; auto. Qed.

Lemma orElse_cases (a b : Value) :
  (truthy a = true /\ orElse a b = a) \/ (truthy a = false /\ orElse a b = b).
Proof. unfold orElse; destruct (truthy a); auto. Qed.

(** The callback throws exactly on the nullish entries. *)
Lemma mapLoophole_fails_iff (item : Value) (index : nat) :
  (exists e, mapLoophole item index = inl e) <-> nullish item = true.
Proof.
  split.
  - intros [e H]; destruct (nullish item) eqn:N; [reflexivity|].
    rewrite (FindingFacts.mapLoophole_total item index N) in H; discriminate.
  - intros N; exists TypeError; apply FindingFacts.mapLoophole_nullish, N.
Qed.

Lemma mapFrom_fails_iff (items : list Value) :
  forall k, (exists e, mapFrom k items = inl e)
            <-> Exists (fun item => nullish item = true) items.
Proof.
  induction items as [|item items IH]; intros k; simpl.
  - split; [intros [e H]; discriminate | intros H; inversion H].
  - destruct (nullish item) eqn:N.
    + rewrite (FindingFacts.mapLoophole_nullish item k N).
      split; [intros _; left; exact N | intros _; eexists; reflexivity].
    + rewrite (FindingFacts.mapLoophole_total item k N).
      specialize (IH (S k)).
      destruct (mapFrom (S k) items) as [e|fs].
      * split; [intros _; right; apply IH; eauto | intros _; eauto].
      * split.
        -- intros [e H]; discriminate.
        -- intros H; inversion H as [? ? Hn|? ? Hn]; subst;
             [congruence | apply IH in Hn as [e He]; discriminate].
Qed.

End DisplayFacts.

(** X4. Whatever the stored analysis looks like, a report that renders
    never shows an empty risk level or an empty score: [riskLevel] is a
    truthy value (['Unknown'] when the analysis has none) and [overallRisk]
    is a truthy value or the number 0. *)
Theorem displayResults_never_blank (st : ReportPage.State) r :
  ReportPage.displayResults st = inr r ->
  truthy (ReportPage.riskLevel r) = true
  /\ (truthy (ReportPage.overallRisk r) = true
      \/ ReportPage.overallRisk r = VNum 0).
Proof.
  unfold ReportPage.displayResults.
  destruct (truthy (ReportPage.analysisResults st)).
  - destruct (getProp (ReportPage.analysisResults st) (lit "analysis"))
      as [e|analysis]; [discriminate|].
    destruct (ReportPage.contractAnalysisOf (ReportPage.analysisResults st))
      as [e|findings]; [discriminate|].
    intros H; injection H as <-; simpl; split.
    + apply DisplayFacts.orElse_truthy; reflexivity.
    + match goal with
      | |- context [ReportPage.orElse ?a ?b] =>
          destruct (DisplayFacts.orElse_cases a b) as [[T ->]|[_ ->]]
      end; auto.
  - intros H; injection H as <-; simpl; auto.
Qed.

Lemma displayResults_never_blank_witness :
  exists r,
    ReportPage.displayResults
      (ReportPage.mkState (Some Samples.contract) Samples.analysis VNull
                          VNull)
    = inr r
    /\ truthy (ReportPage.riskLevel r) = true.
Proof.
  destruct (ReportPage.displayResults
              (ReportPage.mkState (Some Samples.contract) Samples.analysis
                                  VNull VNull)) as [e|r] eqn:E;
    [vm_compute in E; discriminate|].
  exists r; split;
    [reflexivity | exact (proj1 (displayResults_never_blank _ r E))].
Defined.


(** X6. When the Karma Check request succeeds with a truthy body for a
    stored contract with a party name, the report that the page renders
    from the loaded state, whatever the company reviews request did, has
    exactly one Karma Check card; the card carries the backend's [summary],
    and its outcome reads "No major issues found" exactly when the
    backend's [risk_level] is the string ['low']. *)
Theorem karma_success_shows_one_card
    (reviews : FetchOutcome) (b : Browser) (d : ContractData) (status : Z)
    (result : Value) r :
  item_contractData (sessionStorage b) = Some d ->
  JSString.truthy (partyName d) = true ->
  truthy result = true ->
  let st := snd (ReportPage.load (FetchResponse true status (Some result))
                                 reviews b) in
  ReportPage.render st = inr (ReportPage.Report r) ->
  exists item,
    ReportPage.karmaCheck r = [item]
    /\ ReportPage.karma_summary item = getPropOpt result (lit "summary")
    /\ (ReportPage.karma_outcome item = "No major issues found"%string
        <-> getPropOpt result (lit "risk_level") = VStr (lit "low")).
Proof.
  intros Hd Hp Ht; cbv zeta; intros Hr.
  pose proof (ReportLoadFacts.load_karma_ok reviews b d status result Hd Hp)
    as Hk.
  set (st := snd (ReportPage.load (FetchResponse true status (Some result))
                                  reviews b)) in *.
  destruct (ReportLoadFacts.render_report st r Hr) as [Hdisp Ha].
  rewrite (ReportPageFacts.displayResults_karmaCheck st r Hdisp), Ha, Hk.
  unfold ReportPage.karmaCheckOf; rewrite Ht.
  eexists; split; [reflexivity|]; split; [reflexivity|].
  cbn [ReportPage.karma_outcome].
  destruct (strictEqStr (getPropOpt result (lit "risk_level")) (lit "low"))
    eqn:E.
  - apply JSValueFacts.strictEqStr_true in E; split; auto.
  - split; [discriminate|].
    intros H; apply JSValueFacts.strictEqStr_true in H; congruence.
Qed.

Lemma karma_success_shows_one_card_witness :
  exists r item,
    ReportPage.render
      (snd (ReportPage.load
              (FetchResponse true 200
                 (Some (VObj [(lit "risk_level", VStr (lit "low"));
                              (lit "summary", VStr (lit "clean"))])))
              FetchRejects Samples.analysedBrowser))
    = inr (ReportPage.Report r)
    /\ ReportPage.karmaCheck r = [item]
    /\ ReportPage.karma_outcome item = "No major issues found"%string.
Proof.
  destruct (ReportPage.render
              (snd (ReportPage.load
                      (FetchResponse true 200
                         (Some (VObj [(lit "risk_level", VStr (lit "low"));
                                      (lit "summary", VStr (lit "clean"))])))
                      FetchRejects Samples.analysedBrowser)))
    as [e|[| |r]] eqn:E;
    try (vm_compute in E; discriminate).
  destruct (karma_success_shows_one_card
              FetchRejects Samples.analysedBrowser Samples.contract 200
              (VObj [(lit "risk_level", VStr (lit "low"));
                     (lit "summary", VStr (lit "clean"))])
              r eq_refl eq_refl eq_refl E) as (item & H1 & _ & H3).
  exists r, item; repeat split; [exact H1 | apply H3; reflexivity].
Defined.

(** X7. The analysing page and the report page, entered without a
    [contractData] item in [sessionStorage], only redirect to /input: the
    analysing page sends no request and arms no timer (so nothing happens
    later either), the report page sends neither the Karma Check nor the
    company reviews request and renders nothing. *)
Theorem pages_without_contract_redirect
    (o k reviews : FetchOutcome) (b : Browser) (n : nat) :
  item_contractData (sessionStorage b) = None ->
  AnalyzingPage.run n (AnalyzingPage.mount o b)
  = AnalyzingPage.mkMachine (navigate "/input" b) 0 0 AnalyzingPage.NoTimer
  /\ ReportPage.load k reviews b
     = (navigate "/input" b, ReportPage.initialState)
  /\ ReportPage.render (snd (ReportPage.load k reviews b))
     = inr ReportPage.Nothing.
Proof.
  intros H; split; [|split].
  - unfold AnalyzingPage.mount; rewrite H.
    apply AnalyzingPageFacts.run_NoTimer; reflexivity.
  - unfold ReportPage.load, ReportPage.effect; rewrite H; reflexivity.
  - unfold ReportPage.load, ReportPage.effect; rewrite H; reflexivity.
Qed.

Lemma pages_without_contract_redirect_witness :
  AnalyzingPage.run 100 (AnalyzingPage.mount FetchRejects freshBrowser)
  = AnalyzingPage.mkMachine (navigate "/input" freshBrowser) 0 0
                            AnalyzingPage.NoTimer
  /\ ReportPage.load FetchRejects FetchRejects freshBrowser
     = (navigate "/input" freshBrowser, ReportPage.initialState).
Proof.
  destruct (pages_without_contract_redirect FetchRejects FetchRejects
              FetchRejects freshBrowser 100 eq_refl) as (H1 & H2 & _).
  split; [exact H1 | exact H2].
Defined.

(* ================================================================== *)
(** * From the form to the report                                       *)
(* ================================================================== *)

Module FlowFacts.

(** [callBackendAPI] never touches the stored contract. *)
Lemma mount_contractData (o : FetchOutcome) (b : Browser) :
  item_contractData (sessionStorage (AnalyzingPage.browser
                                       (AnalyzingPage.mount o b)))
  = item_contractData (sessionStorage b).
Proof.
  unfold AnalyzingPage.mount.
  destruct (item_contractData (sessionStorage b)) as [d|] eqn:Hd;
    [|simpl; exact Hd].
  unfold AnalyzingPage.callBackendAPI, AnalyzingPage.callBackendAPI_try.
  destruct o as [|ok status body];
    [|destruct ok; [destruct body|]]; simpl;
    rewrite ?AnalyzingPageFacts.runAnalysis_browser; simpl; exact Hd.
Qed.

Lemma run_contractData (n : nat) (m : AnalyzingPage.Machine) :
  item_contractData (sessionStorage (AnalyzingPage.browser
                                       (AnalyzingPage.run n m)))
  = item_contractData (sessionStorage (AnalyzingPage.browser m)).
Proof.
  destruct (AnalyzingPageFacts.run_quiet n m) as (S & _); rewrite S.
  reflexivity.
Qed.

End FlowFacts.

(** X8. What the user submitted is what the report page works with: after
    an accepted submission, whatever the analysis request does and however
    many timer callbacks have run, the report page loads exactly the
    contract text, party name, language and timestamp that [handleSubmit]
    stored. *)
Theorem submitted_contract_reaches_report
    (f : InputPage.Form) (now : Z) (o k reviews : FetchOutcome) (b : Browser)
    (n : nat) :
  blank (InputPage.form_contractText f) = false ->
  blank (InputPage.form_partyName f) = false ->
  let bm := AnalyzingPage.browser
              (AnalyzingPage.run n
                 (AnalyzingPage.mount o (InputPage.handleSubmit f now b))) in
  ReportPage.contractData (snd (ReportPage.load k reviews bm))
  = Some (mkContractData (InputPage.form_contractText f)
                         (InputPage.form_partyName f)
                         (InputPage.form_language f) now).
Proof.
  intros Hc Hp; cbv zeta.
  destruct (InputPageFacts.handleSubmit_accepts f now b Hc Hp) as (Hd & _).
  apply ReportLoadFacts.load_state.
  rewrite FlowFacts.run_contractData, FlowFacts.mount_contractData; exact Hd.
Qed.

Lemma submitted_contract_reaches_report_witness :
  ReportPage.contractData
    (snd (ReportPage.load FetchRejects FetchRejects
            (AnalyzingPage.browser
               (AnalyzingPage.run 7
                  (AnalyzingPage.mount FetchRejects
                     (InputPage.handleSubmit Samples.form 1700000000000
                                             freshBrowser))))))
  = Some Samples.contract.
Proof.
  exact (submitted_contract_reaches_report Samples.form 1700000000000
           FetchRejects FetchRejects FetchRejects freshBrowser 7
           eq_refl eq_refl).
Defined.

Module ReportBodyFacts.
Import ReportPage.

(** A falsy value has no properties. *)
Lemma falsy_getPropOpt (v : Value) (k : jstring) :
  truthy v = false -> getPropOpt v k = VUndefined.
Proof. destruct v; simpl; try discriminate; reflexivity. Qed.

Lemma truthy_not_nullish (v : Value) :
  truthy v = true -> nullish v = false.
Proof. destruct v; simpl; try discriminate; reflexivity. Qed.

(** A falsy value is accepted as a child. *)
Lemma falsy_validChild (v : Value) :
  truthy v = false -> validChild v = true.
Proof. destruct v; simpl; try discriminate; reflexivity. Qed.

(** What [displayResults] holds for a truthy [analysisResults]. *)
Lemma displayResults_truthy (st : State) results :
  truthy (analysisResults st) = true ->
  displayResults st = inr results ->
  let summary :=
    getPropOpt (getPropOpt (analysisResults st) (lit "analysis"))
               (lit "executive_summary") in
  overallRisk results
  = orElse (getPropOpt summary (lit "risk_score")) (VNum 0)
  /\ riskLevel results
     = orElse (getPropOpt summary (lit "overall_risk_level"))
              (VStr (lit "Unknown"))
  /\ contractAnalysisOf (analysisResults st) = inr (contractAnalysis results)
  /\ karmaCheck results = karmaCheckOf (karmaCheckResults st)
  /\ communityInsights results = mockInsights.
Proof.
  intros Ht; unfold displayResults; rewrite Ht.
  destruct (getProp (analysisResults st) (lit "analysis"))
    as [e|analysis] eqn:Ha; [discriminate|].
  assert (Hopt : getPropOpt (analysisResults st) (lit "analysis") = analysis)
    by (unfold getPropOpt; rewrite Ha; reflexivity).
  destruct (contractAnalysisOf (analysisResults st)) as [e|findings];
    [discriminate|].
  intros H; injection H as <-; cbv zeta; rewrite Hopt.
  cbn [overallRisk riskLevel contractAnalysis karmaCheck communityInsights].
  repeat split.
Qed.

(** A truthy body without an [analysis] part, with no Karma Check result
    and no company reviews: the report with the defaults. *)
Lemma render_without_analysis (d : ContractData) (a : Value) :
  truthy a = true ->
  truthy (getPropOpt a (lit "analysis")) = false ->
  render (mkState (Some d) a VNull VNull)
  = inr (Report (mkDisplayResults (VNum 0) (VStr (lit "Unknown")) [] []
                                  mockInsights)).
Proof.
  intros Ht Hf.
  pose proof (truthy_not_nullish a Ht) as N.
  destruct (JSValueFacts.getProp_not_nullish a (lit "analysis") N)
    as [analysis Ha].
  assert (Hopt : getPropOpt a (lit "analysis") = analysis)
    by (unfold getPropOpt; rewrite Ha; reflexivity).
  rewrite Hopt in Hf.
  assert (D : displayResults (mkState (Some d) a VNull VNull)
              = inr (mkDisplayResults (VNum 0) (VStr (lit "Unknown")) [] []
                                      mockInsights)).
  { unfold displayResults, contractAnalysisOf.
    cbn [analysisResults karmaCheckResults]; rewrite Ht, Ha.
    rewrite !(falsy_getPropOpt analysis _ Hf).
    reflexivity. }
  unfold render; cbn [contractData analysisResults]; rewrite D, Ht.
  unfold reportJsx, recommendationLine, executiveSummaryCard,
    transparencyCard.
  cbn [analysisResults companyReviews overallRisk riskLevel].
  rewrite Hopt, !(falsy_getPropOpt analysis _ Hf).
  unfold andElement; rewrite Hf.
  cbn [fragment next app truthy getPropOpt getProp bulletList mapElements
       karmaCards insightCards companyReviewsSection andElement karmaCheck
       communityInsights flat_map mockInsights forallb accepted validChild
       andb].
  rewrite (falsy_validChild analysis Hf); reflexivity.
Qed.

End ReportBodyFacts.



(* ================================================================== *)
(** * AnalyzingPage: invariants of the animation                        *)
(* ================================================================== *)

Module AnimationFacts.
Import AnalyzingPage.

Lemma Qmin_le_r (a b : Q) : (Qmin a b <= b)%Q.
Proof.
  unfold Qmin; destruct (Qle_bool a b) eqn:E;
    [apply Qle_bool_iff; exact E | apply Qle_refl].
Qed.

Lemma Qmin_nonneg (a b : Q) : (0 <= a)%Q -> (0 <= b)%Q -> (0 <= Qmin a b)%Q.
Proof. unfold Qmin; destruct (Qle_bool a b); auto. Qed.

Lemma inject_Z_nonneg (z : Z) : (0 <= z)%Z -> (0 <= inject_Z z)%Q.
Proof. intros H; unfold Qle; simpl; lia. Qed.

Lemma ratio_nonneg (pv dur : Z) :
  (0 <= pv)%Z -> (0 < dur)%Z -> (0 <= inject_Z pv / inject_Z dur)%Q.
Proof.
  intros Hpv Hdur; apply Qle_shift_div_l.
  - unfold Qlt; simpl; lia.
  - rewrite Qmult_0_l; apply inject_Z_nonneg; exact Hpv.
Qed.

Lemma cap_in_range (i : nat) (sp : Q) :
  (i < 5)%nat -> (sp == 20)%Q ->
  (0 <= inject_Z (Z.of_nat i + 1) * sp)%Q
  /\ (inject_Z (Z.of_nat i + 1) * sp <= 100)%Q.
Proof.
  intros Hi Hsp; rewrite Hsp; unfold Qle, Qmult, inject_Z; simpl; lia.
Qed.

Lemma stepProgress_20 :
  (100 / inject_Z (Z.of_nat (List.length steps)) == 20)%Q.
Proof. reflexivity. Qed.

Lemma runAnalysis_inRange (i : nat) (pv : Z) (m : Machine) :
  pageInRange m -> (0 <= pv)%Z -> pageInRange (runAnalysis i pv m).
Proof.
  intros (Hc & Hp0 & Hp1 & _) Hpv; unfold runAnalysis.
  destruct (nth_error steps i) as [s|] eqn:Hs.
  - assert (Hi : (i < List.length steps)%nat)
      by (apply nth_error_Some; congruence).
    assert (Hd : (0 < step_duration s)%Z).
    { apply (proj1 (Forall_forall _ _) AnalyzingPageFacts.steps_positive).
      eapply nth_error_In; exact Hs. }
    repeat split; try assumption; try exact stepProgress_20.
    apply Qmult_le_0_compat; [apply inject_Z_nonneg; lia|].
    rewrite stepProgress_20; discriminate.
  - repeat split; assumption.
Qed.

Lemma step_inRange (m : Machine) : pageInRange m -> pageInRange (step m).
Proof.
  intros Hm; pose proof Hm as (Hc & Hp0 & Hp1 & Ht); unfold step.
  destruct (timer m) as [|i|i pv dur sp st|i pv|] eqn:E; simpl in Ht.
  - exact Hm.
  - destruct (Nat.leb_spec (List.length steps - 1) (S i)) as [Hle|Hlt];
      simpl in *.
    + repeat split; simpl; try lia; discriminate.
    + assert (Hcap := cap_in_range (S i) 20 ltac:(lia) (Qeq_refl _)).
      repeat split; simpl; try lia; apply Hcap.
  - destruct Ht as (Hi & Hpv & Hdur & Hsp & Hst).
    assert (Hcap := cap_in_range i sp Hi Hsp).
    assert (Hprog :
      (0 <= Qmin (st + inject_Z (pv + 2) / inject_Z dur * sp * 100)
                 (inject_Z (Z.of_nat i + 1) * sp))%Q
      /\ (Qmin (st + inject_Z (pv + 2) / inject_Z dur * sp * 100)
               (inject_Z (Z.of_nat i + 1) * sp) <= 100)%Q).
    { split.
      - apply Qmin_nonneg; [|apply Hcap].
        rewrite <- (Qplus_0_r 0); apply Qplus_le_compat; [exact Hst|].
        apply Qmult_le_0_compat; [|discriminate].
        apply Qmult_le_0_compat; [apply ratio_nonneg; lia|].
        rewrite Hsp; discriminate.
      - eapply Qle_trans; [apply Qmin_le_r | apply Hcap]. }
    destruct (Z.leb_spec dur (pv + 2)); [destruct (Nat.leb_spec (List.length steps) (S i))|];
      repeat split; simpl; try apply Hprog; try assumption; try lia.
  - apply runAnalysis_inRange; assumption.
  - repeat split; assumption.
Qed.

Lemma run_inRange (n : nat) :
  forall m, pageInRange m -> pageInRange (run n m).
Proof.
  induction n as [|n IH]; intros m Hm; simpl; [exact Hm|].
  apply IH, step_inRange, Hm.
Qed.

Lemma mount_inRange (o : FetchOutcome) (b : Browser) :
  pageInRange (mount o b).
Proof.
  unfold mount.
  destruct (item_contractData (sessionStorage b));
    [|repeat split; simpl; try lia; discriminate].
  unfold callBackendAPI, callBackendAPI_try.
  assert (H10 : pageInRange (mkMachine b 10 0 NoTimer))
    by (repeat split; simpl; try lia; discriminate).
  destruct o as [|ok status body]; [|destruct ok; [destruct body|]]; simpl.
  - apply runAnalysis_inRange; [|lia].
    repeat split; simpl; try lia; discriminate.
  - repeat split; simpl; try lia; discriminate.
  - apply runAnalysis_inRange; [|lia].
    repeat split; simpl; try lia; discriminate.
  - apply runAnalysis_inRange; [|lia].
    repeat split; simpl; try lia; discriminate.
Qed.

(** One callback navigates at most once, and then no timer is left. *)
Lemma step_navigates (m : Machine) :
  navigations (browser (step m)) = navigations (browser m)
  \/ (navigations (browser (step m))
      = navigations (browser m) ++ ["/report"%string]
      /\ timer (step m) = NoTimer).
Proof.
  unfold step; destruct (timer m) as [|i|i pv dur sp st|i pv|].
  - left; reflexivity.
  - destruct (_ <=? _)%nat; left; reflexivity.
  - destruct (_ <=? _)%Z; [destruct (_ <=? _)%nat|]; left; reflexivity.
  - rewrite AnalyzingPageFacts.runAnalysis_browser; left; reflexivity.
  - right; split; reflexivity.
Qed.

Lemma run_navigates_once (n : nat) :
  forall m,
    navigations (browser (run n m)) = navigations (browser m)
    \/ (navigations (browser (run n m))
        = navigations (browser m) ++ ["/report"%string]
        /\ timer (run n m) = NoTimer).
Proof.
  induction n as [|n IH]; intros m; simpl; [left; reflexivity|].
  destruct (step_navigates m) as [Hs|[Hs Ht]].
  - rewrite <- Hs; apply IH.
  - rewrite (AnalyzingPageFacts.run_NoTimer n (step m) Ht).
    right; split; assumption.
Qed.

End AnimationFacts.

(** X10. At every moment of the analysing page (any outcome of the
    request, any number of timer callbacks) the step it shows exists in
    [steps] and the progress it shows is between 0 and 100. *)
Theorem analyzing_page_stays_in_range
    (o : FetchOutcome) (b : Browser) (n : nat) :
  let m := AnalyzingPage.run n (AnalyzingPage.mount o b) in
  (exists s, nth_error AnalyzingPage.steps (AnalyzingPage.currentStep m)
             = Some s)
  /\ (0 <= AnalyzingPage.progress m)%Q
  /\ (AnalyzingPage.progress m <= 100)%Q.
Proof.
  cbv zeta.
  destruct (AnimationFacts.run_inRange n _ (AnimationFacts.mount_inRange o b))
    as (Hc & Hp0 & Hp1 & _).
  split; [|split; assumption].
  destruct (nth_error AnalyzingPage.steps _) as [s|] eqn:E; [eauto|].
  apply nth_error_None in E; lia.
Qed.

(** X11. With a stored contract, the analysing page never shows a toast or
    an alert and never alters the stored contract, whatever the request
    does and however long it runs; it navigates at most once, to /report,
    and from then on no timer is pending. *)
Theorem analyzing_page_navigates_at_most_once
    (o : FetchOutcome) (b : Browser) (d : ContractData) (n : nat) :
  item_contractData (sessionStorage b) = Some d ->
  let m := AnalyzingPage.run n (AnalyzingPage.mount o b) in
  toasts (AnalyzingPage.browser m) = toasts b
  /\ alerts (AnalyzingPage.browser m) = alerts b
  /\ item_contractData (sessionStorage (AnalyzingPage.browser m)) = Some d
  /\ (navigations (AnalyzingPage.browser m) = navigations b
      \/ (navigations (AnalyzingPage.browser m)
          = navigations b ++ ["/report"%string]
          /\ AnalyzingPage.timer m = AnalyzingPage.NoTimer)).
Proof.
  intros Hd; cbv zeta.
  destruct (AnalyzingPageFacts.run_quiet n (AnalyzingPage.mount o b))
    as (_ & T & A & _).
  assert (Hm : toasts (AnalyzingPage.browser (AnalyzingPage.mount o b))
               = toasts b
               /\ alerts (AnalyzingPage.browser (AnalyzingPage.mount o b))
                  = alerts b
               /\ navigations (AnalyzingPage.browser (AnalyzingPage.mount o b))
                  = navigations b).
  { unfold AnalyzingPage.mount; rewrite Hd.
    unfold AnalyzingPage.callBackendAPI, AnalyzingPage.callBackendAPI_try.
    destruct o as [|ok status body]; [|destruct ok; [destruct body|]]; simpl;
      rewrite ?AnalyzingPageFacts.runAnalysis_browser; repeat split. }
  destruct Hm as (T0 & A0 & N0).
  repeat split; try congruence.
  - rewrite FlowFacts.run_contractData, FlowFacts.mount_contractData; exact Hd.
  - rewrite <- N0; apply AnimationFacts.run_navigates_once.
Qed.

Lemma analyzing_page_navigates_at_most_once_witness :
  let m := AnalyzingPage.run 3
             (AnalyzingPage.mount (FetchResponse true 200 (Some (VObj [])))
                                  Samples.analysedBrowser) in
  toasts (AnalyzingPage.browser m) = []
  /\ alerts (AnalyzingPage.browser m) = [].
Proof.
  destruct (analyzing_page_navigates_at_most_once
              (FetchResponse true 200 (Some (VObj [])))
              Samples.analysedBrowser Samples.contract 3 eq_refl)
    as (T & A & _).
  split; [exact T | exact A].
Defined.

(* ================================================================== *)
(** * AnalyzingPage, axios variant                                      *)
(* ================================================================== *)

Module AxiosAnalyzingFacts.
Import AnalyzingPageAxios AxiosAnalyzing.

Example animationCallbacks_value : Z.of_nat animationCallbacks = 226%Z.
Proof. reflexivity. Qed.

Lemma axios_run_NoTimer (n : nat) (m : Machine) :
  timer m = NoTimer -> run n m = m.
Proof.
  revert m; induction n as [|n IH]; intros m H; simpl; [reflexivity|].
  assert (Hs : step m = m) by (unfold step; rewrite H; reflexivity).
  rewrite Hs; apply IH; assumption.
Qed.

Lemma axios_run_add (n k : nat) (m : Machine) :
  run (n + k) m = run k (run n m).
Proof.
  revert m; induction n as [|n IH]; intros m; simpl; [reflexivity|apply IH].
Qed.

(** The animation, once started, runs through the five steps and
    navigates. *)
Lemma animation_completes (m : Machine) :
  let m' := run animationCallbacks (nextStep 0 m) in
  timer m' = NoTimer
  /\ browser m' = navigate "/report" (browser m)
  /\ progress m' = 100%Q
  /\ currentStep m' = 4%nat
  /\ analysisResult m' = analysisResult m
  /\ contractData m' = contractData m.
Proof.
  cbv zeta; vm_compute; repeat split.
Qed.

Lemma loadContractData_valid (b : Browser) d :
  item_contractData (sessionStorage b) = Some d ->
  JSString.truthy (contractText d) = true ->
  JSString.truthy (partyName d) = true ->
  loadContractData b = (b, Some d).
Proof.
  intros Hd Hc Hp; unfold loadContractData; rewrite Hd, Hc, Hp; reflexivity.
Qed.

Lemma nonblank_truthy (s : jstring) : blank s = false -> JSString.truthy s = true.
Proof. destruct s; [discriminate | reflexivity]. Qed.

End AxiosAnalyzingFacts.

(** X12. The contract data that [handleSubmit] stores for an accepted
    submission always passes the validation of the (axios) analysing page:
    the page keeps it as its [contractData], shows no alert and does not
    send the user back to /input. *)
Theorem submitted_data_passes_validation
    (f : InputPage.Form) (now : Z) (b : Browser) :
  blank (InputPage.form_contractText f) = false ->
  blank (InputPage.form_partyName f) = false ->
  AxiosAnalyzing.loadContractData (InputPage.handleSubmit f now b)
  = (InputPage.handleSubmit f now b,
     Some (mkContractData (InputPage.form_contractText f)
                          (InputPage.form_partyName f)
                          (InputPage.form_language f) now)).
Proof.
  intros Hc Hp.
  destruct (InputPageFacts.handleSubmit_accepts f now b Hc Hp) as (Hd & _).
  apply AxiosAnalyzingFacts.loadContractData_valid;
    [exact Hd | apply AxiosAnalyzingFacts.nonblank_truthy; exact Hc
    | apply AxiosAnalyzingFacts.nonblank_truthy; exact Hp].
Qed.

Lemma submitted_data_passes_validation_witness :
  AxiosAnalyzing.loadContractData
    (InputPage.handleSubmit Samples.form 1700000000000 freshBrowser)
  = (InputPage.handleSubmit Samples.form 1700000000000 freshBrowser,
     Some Samples.contract).
Proof.
  exact (submitted_data_passes_validation Samples.form 1700000000000
           freshBrowser eq_refl eq_refl).
Defined.

(** X13. Stored contract data with an empty contract text or an empty
    party name is refused by the (axios) analysing page: one alert, a
    redirect to /input, no request, no stored analysis, and no timer, so
    nothing happens later either. *)
Theorem invalid_stored_data_is_refused
    (o : AnalyzingPageAxios.AxiosOutcome) (b : Browser) (d : ContractData)
    (n : nat) :
  item_contractData (sessionStorage b) = Some d ->
  contractText d = [] \/ partyName d = [] ->
  AxiosAnalyzing.run n (AxiosAnalyzing.mount o b)
  = AxiosAnalyzing.mkMachine
      (navigate "/input" (alert "Invalid contract data in sessionStorage" b))
      None VNull 0 0 AxiosAnalyzing.NoTimer.
Proof.
  intros Hd Hbad.
  assert (Hm : AxiosAnalyzing.mount o b
               = AxiosAnalyzing.mkMachine
                   (navigate "/input"
                      (alert "Invalid contract data in sessionStorage" b))
                   None VNull 0 0 AxiosAnalyzing.NoTimer).
  { unfold AxiosAnalyzing.mount, AxiosAnalyzing.loadContractData; rewrite Hd.
    destruct Hbad as [-> | ->]; simpl; [reflexivity|].
    rewrite orb_true_r; reflexivity. }
  rewrite Hm; apply AxiosAnalyzingFacts.axios_run_NoTimer; reflexivity.
Qed.

Lemma invalid_stored_data_is_refused_witness :
  alerts (AxiosAnalyzing.browser
            (AxiosAnalyzing.run 50
               (AxiosAnalyzing.mount
                  (AnalyzingPageAxios.AxiosResolves (VObj []))
                  (mkBrowser
                     (mkStorage (Some (mkContractData (lit "text") [] En 0))
                                None) [] [] [] []))))
  = ["Invalid contract data in sessionStorage"%string].
Proof.
  rewrite (invalid_stored_data_is_refused
             (AnalyzingPageAxios.AxiosResolves (VObj []))
             (mkBrowser
                (mkStorage (Some (mkContractData (lit "text") [] En 0)) None)
                [] [] [] [])
             (mkContractData (lit "text") [] En 0) 50 eq_refl
             (or_intror eq_refl)).
  reflexivity.
Defined.



(** X15. In the (axios) analysing page a rejected request is a dead end:
    the error is logged, one alert is shown, nothing is stored, and however
    many timer callbacks run the page never navigates anywhere. *)
Theorem axios_failure_never_navigates
    (b : Browser) (d : ContractData) (e : Exn) (n : nat) :
  item_contractData (sessionStorage b) = Some d ->
  JSString.truthy (contractText d) = true ->
  JSString.truthy (partyName d) = true ->
  let m := AxiosAnalyzing.run n
             (AxiosAnalyzing.mount (AnalyzingPageAxios.AxiosRejects e) b) in
  navigations (AxiosAnalyzing.browser m) = navigations b
  /\ sessionStorage (AxiosAnalyzing.browser m) = sessionStorage b
  /\ alerts (AxiosAnalyzing.browser m)
     = alerts b
       ++ ["Contract analysis failed. Check console for details."%string]
  /\ consoleErrors (AxiosAnalyzing.browser m) = consoleErrors b ++ [e]
  /\ AxiosAnalyzing.timer m = AxiosAnalyzing.NoTimer.
Proof.
  intros Hd Hc Hp; cbv zeta.
  unfold AxiosAnalyzing.mount.
  rewrite (AxiosAnalyzingFacts.loadContractData_valid b d Hd Hc Hp).
  rewrite AxiosAnalyzingFacts.axios_run_NoTimer by reflexivity.
  repeat split.
Qed.

Lemma axios_failure_never_navigates_witness :
  navigations
    (AxiosAnalyzing.browser
       (AxiosAnalyzing.run 1000
          (AxiosAnalyzing.mount (AnalyzingPageAxios.AxiosRejects NetworkError)
                                Samples.analysedBrowser)))
  = [].
Proof.
  destruct (axios_failure_never_navigates Samples.analysedBrowser
              Samples.contract NetworkError 1000 eq_refl eq_refl eq_refl)
    as (N & _).
  exact N.
Defined.

(* ================================================================== *)
(** * InputPage: file upload                                            *)
(* ================================================================== *)

Module FileUploadFacts.
Import FileUpload.

Section WithToString.

Variable toStr : Value -> jstring.

(** [b] continues [a]: same text or more at the end, same notices or more
    at the end. *)
Definition extends (a b : State) : Prop :=
  (exists more, contractText b = contractText a ++ more)
  /\ (exists added, notices b = notices a ++ added).

Lemma extends_refl (a : State) : extends a a.
Proof. split; exists []; rewrite app_nil_r; reflexivity. Qed.

Lemma extends_trans (a b c : State) : extends a b -> extends b c -> extends a c.
Proof.
  intros [[m1 H1] [n1 K1]] [[m2 H2] [n2 K2]]; split.
  - exists (m1 ++ m2); rewrite H2, H1, app_assoc; reflexivity.
  - exists (n1 ++ n2); rewrite K2, K1, app_assoc; reflexivity.
Qed.

Lemma extends_notify (n : Notice) (st : State) : extends st (notify n st).
Proof. split; [exists []; simpl; rewrite app_nil_r | exists [n]]; reflexivity. Qed.

Lemma extends_logError (e : Failure) (st : State) : extends st (logError e st).
Proof. split; exists []; simpl; rewrite app_nil_r; reflexivity. Qed.

Lemma extends_appendText (text : jstring) (st : State) :
  extends st (appendText text st).
Proof.
  split; [eexists; reflexivity | exists []; simpl; rewrite app_nil_r; reflexivity].
Qed.

Lemma uploadFailed_extends (e : Failure) (st : State) :
  extends st (uploadFailed e st).
Proof.
  unfold uploadFailed.
  apply (extends_trans st (logError e st));
    [apply extends_logError | apply extends_notify].
Qed.

Lemma uploadOne_extends (f : File) (st : State) :
  extends st (uploadOne toStr f st).
Proof.
  unfold uploadOne.
  repeat match goal with
         | |- extends _ (if ?c then _ else _) => destruct c
         | |- extends _ (match ?x with _ => _ end) => destruct x
         end;
    first [ apply extends_notify
          | apply uploadFailed_extends
          | eapply extends_trans;
            [apply extends_appendText | apply extends_notify] ].
Qed.

(** The loop only ever adds to the text and to the notices; the notices it
    adds are destructive ones, one per skipped file; and every file is
    either skipped, counted, or neither. *)
Lemma processFiles_spec (files : list File) :
  forall (count : nat) (st : State),
    let r := processFiles toStr files count st in
    (exists more, contractText (fst r) = contractText st ++ more)
    /\ (exists skipped,
          notices (fst r) = notices st ++ skipped
          /\ Forall (fun n => destructive n = true) skipped
          /\ (snd r + List.length skipped <= count + List.length files)%nat)
    /\ (count <= snd r)%nat
    /\ (snd r = count -> contractText (fst r) = contractText st).
Proof.
  induction files as [|f files IH]; intros count st; cbv zeta.
  { simpl; repeat split; try lia.
    - exists []; rewrite app_nil_r; reflexivity.
    - exists []; rewrite app_nil_r; repeat split; [constructor | simpl; lia]. }
  assert (Hsame : forall st',
             contractText st' = contractText st ->
             notices st' = notices st ->
             let r := processFiles toStr files count st' in
             (exists more, contractText (fst r) = contractText st ++ more)
             /\ (exists skipped,
                   notices (fst r) = notices st ++ skipped
                   /\ Forall (fun n => destructive n = true) skipped
                   /\ (snd r + List.length skipped
                       <= count + List.length (f :: files))%nat)
             /\ (count <= snd r)%nat
             /\ (snd r = count -> contractText (fst r) = contractText st)).
  { intros st' Ht Hn; cbv zeta.
    destruct (IH count st') as ((more & H1) & (sk & H2 & H3 & H4) & H5 & H6).
    rewrite Ht in H1, H6; rewrite Hn in H2.
    repeat split; eauto.
    exists sk; repeat split; [assumption | assumption | simpl; lia]. }
  assert (Hskip : forall n,
             destructive n = true ->
             let r := processFiles toStr files count (notify n st) in
             (exists more, contractText (fst r) = contractText st ++ more)
             /\ (exists skipped,
                   notices (fst r) = notices st ++ skipped
                   /\ Forall (fun n => destructive n = true) skipped
                   /\ (snd r + List.length skipped
                       <= count + List.length (f :: files))%nat)
             /\ (count <= snd r)%nat
             /\ (snd r = count -> contractText (fst r) = contractText st)).
  { intros n Hn; cbv zeta.
    destruct (IH count (notify n st))
      as ((more & H1) & (sk & H2 & H3 & H4) & H5 & H6).
    simpl in H1, H2, H6.
    repeat split; eauto.
    exists (n :: sk); rewrite H2, <- app_assoc.
    repeat split; [constructor; assumption | simpl; lia]. }
  assert (Hadd : forall text,
             let r := processFiles toStr files (S count) (appendText text st) in
             (exists more, contractText (fst r) = contractText st ++ more)
             /\ (exists skipped,
                   notices (fst r) = notices st ++ skipped
                   /\ Forall (fun n => destructive n = true) skipped
                   /\ (snd r + List.length skipped
                       <= count + List.length (f :: files))%nat)
             /\ (count <= snd r)%nat
             /\ (snd r = count -> contractText (fst r) = contractText st)).
  { intros text; cbv zeta.
    destruct (IH (S count) (appendText text st))
      as ((more & H1) & (sk & H2 & H3 & H4) & H5 & H6).
    simpl in H1, H2.
    repeat split; try lia.
    - eexists; rewrite H1, <- !app_assoc; reflexivity.
    - exists sk; repeat split; [assumption | assumption | simpl; lia]. }
  simpl processFiles.
  repeat match goal with
         | |- context [if ?c then _ else _] => destruct c
         | |- context [match ?x with _ => _ end] =>
             match type of x with
             | option _ => destruct x
             | FetchOutcome => destruct x
             | sum _ _ => destruct x
             end
         end;
    try (apply Hskip; reflexivity);
    try apply Hadd;
    try (apply Hsame; reflexivity).
Qed.

End WithToString.

Example untyped_text_file_is_rejected :
  handleFileUpload MoreSamples.toStrSample
                   (Some [MoreSamples.untypedTextFile]) MoreSamples.emptyUpload
  = mkState [] [InvalidFileType] [].
Proof. reflexivity. Qed.

Example plain_text_file_is_appended :
  contractText
    (handleFileUpload MoreSamples.toStrSample
       (Some [MoreSamples.plainTextFile])
       (mkState (lit "Clause 0") [] []))
  = lit "Clause 0" ++ [10; 10]%N ++ lit "Clause 1".
Proof. reflexivity. Qed.

Example two_files_one_skipped :
  notices
    (handleFileUpload MoreSamples.toStrSample
       (Some [MoreSamples.hugePdf; MoreSamples.untypedTextFile])
       MoreSamples.emptyUpload)
  = [ProcessingFiles 2; TooLargeSkipping (lit "scan.PDF");
     MultipleFilesProcessed 1 2].
Proof. reflexivity. Qed.

End FileUploadFacts.

(** X16. [handleFileUpload] with a single file: a file whose reported type
    is not one of the four accepted MIME types, or whose size is above
    10 MB (10485760 bytes), is refused whatever its name is: the contract
    text stays as it is, nothing is logged, and exactly one destructive
    toast is shown. *)
Theorem single_upload_is_validated
    (toStr : Value -> jstring) (f : FileUpload.File) (st : FileUpload.State) :
  FileUpload.includes FileUpload.allowedTypes (FileUpload.file_type f) = false
  \/ (10485760 < FileUpload.file_size f)%Z ->
  let st' := FileUpload.handleFileUpload toStr (Some [f]) st in
  FileUpload.contractText st' = FileUpload.contractText st
  /\ FileUpload.errors st' = FileUpload.errors st
  /\ exists n, FileUpload.notices st' = FileUpload.notices st ++ [n]
               /\ FileUpload.destructive n = true.
Proof.
  intros H; cbv zeta; unfold FileUpload.handleFileUpload, FileUpload.uploadOne.
  destruct (FileUpload.includes FileUpload.allowedTypes
                                (FileUpload.file_type f)) eqn:Ht; simpl.
  - destruct H as [H|H]; [discriminate|].
    assert (Hs : (FileUpload.maxSize <? FileUpload.file_size f)%Z = true)
      by (apply Z.ltb_lt; exact H).
    rewrite Hs; repeat split; eexists; split; reflexivity.
  - repeat split; eexists; split; reflexivity.
Qed.

Lemma single_upload_is_validated_witness :
  let st' := FileUpload.handleFileUpload MoreSamples.toStrSample
               (Some [MoreSamples.untypedTextFile])
               (FileUpload.mkState (lit "Clause 0") [] []) in
  FileUpload.contractText st' = lit "Clause 0".
Proof.
  destruct (single_upload_is_validated MoreSamples.toStrSample
              MoreSamples.untypedTextFile
              (FileUpload.mkState (lit "Clause 0") [] [])
              (or_introl eq_refl)) as (H & _).
  exact H.
Defined.


(** X18. [handleMultipleFileUpload] reports truthfully: the toasts it adds
    are the announcement with the number of files, then one destructive
    toast per skipped file, then the summary; the count in the summary plus
    the number of skipped files never exceeds the number of files; and when
    the summary says 0 the contract text has not changed. *)
Theorem multiple_upload_summary
    (toStr : Value -> jstring) (files : list FileUpload.File)
    (st : FileUpload.State) :
  let st' := FileUpload.handleMultipleFileUpload toStr files st in
  exists skipped processedCount,
    FileUpload.notices st'
    = FileUpload.notices st
      ++ [FileUpload.ProcessingFiles (List.length files)]
      ++ skipped
      ++ [FileUpload.MultipleFilesProcessed processedCount
                                           (List.length files)]
    /\ Forall (fun n => FileUpload.destructive n = true) skipped
    /\ (processedCount + List.length skipped <= List.length files)%nat
    /\ (processedCount = 0%nat ->
        FileUpload.contractText st' = FileUpload.contractText st).
Proof.
  cbv zeta; unfold FileUpload.handleMultipleFileUpload.
  pose proof (FileUploadFacts.processFiles_spec toStr files 0
                (FileUpload.notify
                   (FileUpload.ProcessingFiles (List.length files)) st))
    as (_ & (sk & Hn & Hd & Hle) & _ & Hz).
  destruct (FileUpload.processFiles toStr files 0 _) as [st1 n].
  simpl in Hn, Hle, Hz |- *.
  exists sk, n; repeat split; try assumption.
  rewrite Hn, <- !app_assoc; reflexivity.
Qed.

Module UploadPathsFacts.
Import FileUpload.

Lemma asciiLower_length (s : jstring) :
  List.length (asciiLower s) = List.length s.
Proof. apply length_map. Qed.

(** A name that ends in a lower-case extension still does after
    lower-casing. *)
Lemma endsWith_asciiLower (s suffix : jstring) :
  asciiLower suffix = suffix ->
  endsWith s suffix = true -> endsWith (asciiLower s) suffix = true.
Proof.
  unfold endsWith; intros Hl H.
  apply andb_true_iff in H as [He Hn]; apply andb_true_iff; split.
  - apply JSStringFacts.eqb_eq in He; apply JSStringFacts.eqb_eq.
    rewrite asciiLower_length; unfold asciiLower at 1.
    rewrite skipn_map; fold (asciiLower (skipn (List.length s - List.length suffix) s)).
    rewrite He; exact Hl.
  - rewrite asciiLower_length; exact Hn.
Qed.

Lemma txt_is_known (name : jstring) :
  endsWith name (lit ".txt") = true -> hasKnownExtension name = true.
Proof.
  intros H; unfold hasKnownExtension, extensions.
  apply existsb_exists; exists (lit ".txt"); split; [simpl; tauto|].
  apply endsWith_asciiLower; [reflexivity | exact H].
Qed.

(** One round of the loop on such a file. *)
Lemma processFiles_untyped_text (toStr : Value -> jstring) (f : File)
    (rest : list File) (count : nat) (st : State) text :
  endsWith (file_name f) (lit ".txt") = true ->
  (file_size f <= 10485760)%Z ->
  file_text f = Some text ->
  processFiles toStr (f :: rest) count st
  = processFiles toStr rest (S count)
      (appendText (header (file_name f) ++ text) st).
Proof.
  intros He Hs Hx; cbn [processFiles].
  rewrite (txt_is_known _ He), andb_false_r.
  assert (Hsz : (maxSize <? file_size f)%Z = false)
    by (apply Z.ltb_ge; exact Hs).
  rewrite Hsz.
  assert (Htxt : isTextFile f = true)
    by (unfold isTextFile; rewrite He; apply orb_true_r).
  rewrite Htxt, Hx; reflexivity.
Qed.

End UploadPathsFacts.

(** X19. The two upload paths disagree on text files without a MIME type:
    a readable file of at most 10 MB whose name ends in [.txt] but whose
    reported type is not one of the four accepted ones is refused when it
    is chosen alone (the contract text stays as it is), and is appended,
    under its [--- name ---] header, when it is chosen together with
    another file. *)
Theorem upload_paths_disagree_on_untyped_text
    (toStr : Value -> jstring) (f g : FileUpload.File) (text : jstring)
    (st : FileUpload.State) :
  FileUpload.includes FileUpload.allowedTypes (FileUpload.file_type f) = false ->
  FileUpload.endsWith (FileUpload.file_name f) (lit ".txt") = true ->
  (FileUpload.file_size f <= 10485760)%Z ->
  FileUpload.file_text f = Some text ->
  FileUpload.contractText (FileUpload.handleFileUpload toStr (Some [f]) st)
  = FileUpload.contractText st
  /\ exists more,
       FileUpload.contractText
         (FileUpload.handleFileUpload toStr (Some [f; g]) st)
       = FileUpload.contractText
           (FileUpload.appendText
              (FileUpload.header (FileUpload.file_name f) ++ text) st)
         ++ more.
Proof.
  intros Ht He Hs Hx; split.
  - unfold FileUpload.handleFileUpload, FileUpload.uploadOne; rewrite Ht.
    reflexivity.
  - unfold FileUpload.handleFileUpload, FileUpload.handleMultipleFileUpload.
    rewrite (UploadPathsFacts.processFiles_untyped_text toStr f [g] 0 _ text
               He Hs Hx).
    match goal with
    | |- context [FileUpload.processFiles toStr [g] 1 ?s] =>
        pose proof (FileUploadFacts.processFiles_spec toStr [g] 1 s)
          as ((more & Hm) & _);
        destruct (FileUpload.processFiles toStr [g] 1 s) as [st1 n]
    end.
    exists more; simpl in Hm |- *; exact Hm.
Qed.

Lemma upload_paths_disagree_on_untyped_text_witness :
  FileUpload.contractText
    (FileUpload.handleFileUpload MoreSamples.toStrSample
       (Some [MoreSamples.untypedTextFile]) MoreSamples.emptyUpload)
  = []
  /\ exists more,
       FileUpload.contractText
         (FileUpload.handleFileUpload MoreSamples.toStrSample
            (Some [MoreSamples.untypedTextFile; MoreSamples.hugePdf])
            MoreSamples.emptyUpload)
       = (lit "--- contract.txt ---" ++ [10%N] ++ lit "Clause 1") ++ more.
Proof.
  destruct (upload_paths_disagree_on_untyped_text MoreSamples.toStrSample
              MoreSamples.untypedTextFile MoreSamples.hugePdf
              (lit "Clause 1") MoreSamples.emptyUpload
              eq_refl eq_refl ltac:(vm_compute; discriminate) eq_refl)
    as (H1 & more & H2).
  split; [exact H1 | exists more; exact H2].
Defined.

(* ================================================================== *)
(** * SignupPage                                                        *)
(* ================================================================== *)

Module SignupFacts.
Import SignupPage.

Lemma bump_range (c : bool) (z : Z) : (z <= bump c z <= z + 1)%Z.
Proof. unfold bump; destruct c; lia. Qed.

(** Every code unit is in exactly one of the four classes. *)
Lemma class_of (c : N) :
  isUpper c || isLower c || isDigit c || isOther c = true.
Proof. unfold isOther; destruct (isUpper c || isLower c || isDigit c); reflexivity. Qed.

Lemma classes_disjoint (c : N) :
  (isUpper c = true -> isLower c = false /\ isDigit c = false /\ isOther c = false)
  /\ (isLower c = true -> isUpper c = false /\ isDigit c = false /\ isOther c = false)
  /\ (isDigit c = true -> isUpper c = false /\ isLower c = false /\ isOther c = false)
  /\ (isOther c = true -> isUpper c = false /\ isLower c = false /\ isDigit c = false).
Proof.
  unfold isOther, isUpper, isLower, isDigit.
  destruct (N.leb_spec 65 c), (N.leb_spec c 90), (N.leb_spec 97 c),
    (N.leb_spec c 122), (N.leb_spec 48 c), (N.leb_spec c 57);
    simpl; repeat split; intros; try discriminate; try reflexivity; lia.
Qed.

Lemma existsb_none (p q : N -> bool) (s : jstring) :
  (forall c, p c = true -> q c = false) ->
  forallb p s = true -> existsb q s = false.
Proof.
  intros Hpq; induction s as [|c s IH]; simpl; [reflexivity|].
  intros H; apply andb_true_iff in H as [Hc Hs].
  rewrite (Hpq c Hc), (IH Hs); reflexivity.
Qed.

End SignupFacts.

(** X20. [getPasswordStrength] is between 0 and 5, it is 0 exactly for the
    empty password, and the label looked up for it always exists: the index
    [strength - 1] is inside [strengthLabels] whenever the strength is
    positive. *)
Theorem password_strength_in_range (pass : jstring) :
  (0 <= SignupPage.getPasswordStrength pass <= 5)%Z
  /\ (SignupPage.getPasswordStrength pass = 0%Z <-> pass = [])
  /\ exists label, SignupPage.strengthLabel pass = Some label.
Proof.
  assert (R : (0 <= SignupPage.getPasswordStrength pass <= 5)%Z).
  { unfold SignupPage.getPasswordStrength, SignupPage.bump.
    destruct (existsb SignupPage.isOther pass),
      (existsb SignupPage.isDigit pass), (existsb SignupPage.isLower pass),
      (existsb SignupPage.isUpper pass),
      (8 <=? Z.of_nat (List.length pass))%Z; lia. }
  split; [exact R|]; split.
  - split.
    + destruct pass as [|c pass]; [reflexivity|].
      unfold SignupPage.getPasswordStrength, SignupPage.bump; simpl existsb.
      pose proof (SignupFacts.class_of c) as Hc.
      intros H; exfalso.
      destruct (SignupPage.isUpper c), (SignupPage.isLower c),
        (SignupPage.isDigit c), (SignupPage.isOther c);
        try discriminate Hc; simpl in H;
        repeat match goal with
               | H : context [if ?b then _ else _] |- _ => destruct b
               end; lia.
    + intros ->; reflexivity.
  - unfold SignupPage.strengthLabel.
    destruct (Z.ltb_spec 0 (SignupPage.getPasswordStrength pass)); [|eauto].
    destruct (nth_error SignupPage.strengthLabels
                (Z.to_nat (SignupPage.getPasswordStrength pass - 1)))
      as [l|] eqn:E; [eauto|].
    apply nth_error_None in E; simpl in E; lia.
Qed.

(** X21. [handleEmailSignup] never accepts a password made of a single
    kind of character (only digits, only lower-case letters, only
    upper-case letters, or only other characters), however long it is:
    with the terms agreed it shows "Password too weak", calls [signUp] not
    at all and does not navigate. *)
Theorem single_class_password_is_rejected
    (signUp : jstring -> jstring -> jstring -> option jstring)
    (f : SignupPage.Form) :
  SignupPage.agreeToTerms f = true ->
  forallb SignupPage.isDigit (SignupPage.password f) = true
  \/ forallb SignupPage.isLower (SignupPage.password f) = true
  \/ forallb SignupPage.isUpper (SignupPage.password f) = true
  \/ forallb SignupPage.isOther (SignupPage.password f) = true ->
  SignupPage.handleEmailSignup signUp f
  = SignupPage.mkOutcome [] [SignupPage.PasswordTooWeak] [] false.
Proof.
  intros Ha Hclass; unfold SignupPage.handleEmailSignup; rewrite Ha; simpl.
  assert (H : (SignupPage.getPasswordStrength (SignupPage.password f) < 3)%Z).
  { unfold SignupPage.getPasswordStrength.
    pose proof SignupFacts.classes_disjoint as D.
    destruct Hclass as [H|[H|[H|H]]].
    - rewrite (SignupFacts.existsb_none SignupPage.isDigit SignupPage.isOther),
        (SignupFacts.existsb_none SignupPage.isDigit SignupPage.isLower),
        (SignupFacts.existsb_none SignupPage.isDigit SignupPage.isUpper);
        try exact H; try (intros c Hc; pose proof (D c); tauto).
      unfold SignupPage.bump; cbv iota;
        destruct (existsb _ _), (_ <=? _)%Z; lia.
    - rewrite (SignupFacts.existsb_none SignupPage.isLower SignupPage.isOther),
        (SignupFacts.existsb_none SignupPage.isLower SignupPage.isDigit),
        (SignupFacts.existsb_none SignupPage.isLower SignupPage.isUpper);
        try exact H; try (intros c Hc; pose proof (D c); tauto).
      unfold SignupPage.bump; cbv iota;
        destruct (existsb _ _), (_ <=? _)%Z; lia.
    - rewrite (SignupFacts.existsb_none SignupPage.isUpper SignupPage.isOther),
        (SignupFacts.existsb_none SignupPage.isUpper SignupPage.isDigit),
        (SignupFacts.existsb_none SignupPage.isUpper SignupPage.isLower);
        try exact H; try (intros c Hc; pose proof (D c); tauto).
      unfold SignupPage.bump; cbv iota;
        destruct (existsb _ _), (_ <=? _)%Z; lia.
    - rewrite (SignupFacts.existsb_none SignupPage.isOther SignupPage.isDigit),
        (SignupFacts.existsb_none SignupPage.isOther SignupPage.isLower),
        (SignupFacts.existsb_none SignupPage.isOther SignupPage.isUpper);
        try exact H; try (intros c Hc; pose proof (D c); tauto).
      unfold SignupPage.bump; cbv iota;
        destruct (existsb _ _), (_ <=? _)%Z; lia. }
  apply Z.ltb_lt in H; rewrite H; reflexivity.
Qed.

Lemma single_class_password_is_rejected_witness :
  SignupPage.handleEmailSignup (fun _ _ _ => None)
    (SignupPage.mkForm (lit "A B") (lit "a@b.in")
                       (lit "12345678901234567890") true)
  = SignupPage.mkOutcome [] [SignupPage.PasswordTooWeak] [] false.
Proof.
  exact (single_class_password_is_rejected (fun _ _ _ => None)
           (SignupPage.mkForm (lit "A B") (lit "a@b.in")
                              (lit "12345678901234567890") true)
           eq_refl (or_introl eq_refl)).
Defined.

(* ================================================================== *)
(** * ChatPage                                                          *)
(* ================================================================== *)

Module TrimFacts.

(** [trimStart] drops a prefix. *)
Lemma trimStart_suffix (s : jstring) :
  exists dropped, s = dropped ++ trimStart s.
Proof.
  induction s as [|c s [w IH]]; simpl; [exists []; reflexivity|].
  destruct (isWhiteSpace c).
  - exists (c :: w); simpl; f_equal; exact IH.
  - exists []; reflexivity.
Qed.

(** [trimEnd] drops a suffix. *)
Lemma trimEnd_prefix (s : jstring) :
  exists dropped, s = trimEnd s ++ dropped.
Proof.
  unfold trimEnd; destruct (trimStart_suffix (rev s)) as [w Hw].
  exists (rev w).
  rewrite <- rev_app_distr, <- Hw, rev_involutive; reflexivity.
Qed.

(** A trimmed string does not start with whitespace ... *)
Lemma trim_first (s : jstring) c rest :
  trim s = c :: rest -> isWhiteSpace c = false.
Proof.
  unfold trim; intros H.
  destruct (trimEnd_prefix (trimStart s)) as [w Hw].
  rewrite H in Hw; simpl in Hw.
  eapply JSStringFacts.trimStart_head; exact Hw.
Qed.

(** ... and does not end with whitespace. *)
Lemma trim_last (s : jstring) front c :
  trim s = front ++ [c] -> isWhiteSpace c = false.
Proof.
  unfold trim, trimEnd; intros H.
  apply (f_equal (@rev N)) in H.
  rewrite rev_involutive, rev_app_distr in H; simpl in H.
  eapply JSStringFacts.trimStart_head; exact H.
Qed.

End TrimFacts.



(* ================================================================== *)
(** * ReportPage, variant that fetches the analysis itself              *)
(* ================================================================== *)

Module ReportPageFetchFacts.
Import ReportPageFetch.

Lemma getRiskColor_values (toLowerCase : jstring -> jstring) (level : jstring) :
  In (RiskColor.getRiskColor toLowerCase level)
     ["destructive"; "warning"; "success"; "secondary"]%string.
Proof.
  unfold RiskColor.getRiskColor.
  repeat match goal with
         | |- context [if ?c then _ else _] => destruct c
         end; simpl; tauto.
Qed.

(** A finding gets a badge exactly when its [riskLevel] is a string. *)
Lemma badgeOf_ok_iff (toLowerCase : jstring -> jstring) (finding : Value) :
  (exists badge, badgeOf toLowerCase finding = inr badge)
  <-> exists level, getPropOpt finding (lit "riskLevel") = VStr level.
Proof.
  unfold badgeOf, getPropOpt.
  destruct (getProp finding (lit "riskLevel")) as [e|v].
  - split; [intros [b H]; discriminate | intros [l H]; discriminate].
  - destruct v; split; try (intros [x H]; discriminate); eauto.
Qed.

Lemma badgeOf_value (toLowerCase : jstring -> jstring) (finding : Value) badge :
  badgeOf toLowerCase finding = inr badge ->
  In badge ["destructive"; "warning"; "success"; "secondary"]%string.
Proof.
  unfold badgeOf.
  destruct (getProp finding (lit "riskLevel")) as [e|v]; [discriminate|].
  destruct v; try discriminate.
  intros H; injection H as <-; apply getRiskColor_values.
Qed.

End ReportPageFetchFacts.

(** X23. In the report page that fetches the analysis itself, a failing
    backend (rejected fetch or non-OK status) leaves [analysisResults]
    untouched and adds exactly one error toast; starting from the initial
    [null] the page therefore keeps showing "Loading contract analysis...". *)
Theorem failed_fetch_keeps_loading
    (o : FetchOutcome) (st : ReportPageFetch.State) (d : ContractData) :
  ReportPageFetch.contractData st = Some d ->
  backendFails o = true ->
  let st' := ReportPageFetch.fetchAnalysis o st in
  ReportPageFetch.analysisResults st' = ReportPageFetch.analysisResults st
  /\ (exists e, ReportPageFetch.notices st'
                = ReportPageFetch.notices st
                  ++ [ReportPageFetch.ErrorFetchingAnalysis e])
  /\ (ReportPageFetch.analysisResults st = VNull ->
      ReportPageFetch.showsLoading st' = true).
Proof.
  intros Hd Hf; cbv zeta.
  assert (E : exists e,
             ReportPageFetch.fetchAnalysis o st
             = ReportPageFetch.mkState
                 (ReportPageFetch.contractData st)
                 (ReportPageFetch.analysisResults st)
                 (ReportPageFetch.notices st
                  ++ [ReportPageFetch.ErrorFetchingAnalysis e])).
  { unfold ReportPageFetch.fetchAnalysis; rewrite Hd.
    destruct o as [|ok status body]; simpl in *; [eauto|].
    destruct ok; [discriminate | simpl; eauto]. }
  destruct E as [e ->]; simpl.
  split; [reflexivity|]; split; [eauto|].
  intros Hn; unfold ReportPageFetch.showsLoading; simpl; rewrite Hd, Hn.
  reflexivity.
Qed.

Lemma failed_fetch_keeps_loading_witness :
  ReportPageFetch.showsLoading
    (ReportPageFetch.fetchAnalysis (FetchResponse false 502 None)
       (ReportPageFetch.mkState (Some Samples.contract) VNull []))
  = true.
Proof.
  destruct (failed_fetch_keeps_loading (FetchResponse false 502 None)
              (ReportPageFetch.mkState (Some Samples.contract) VNull [])
              Samples.contract eq_refl eq_refl) as (_ & _ & H).
  exact (H eq_refl).
Defined.

(** X24. In that report page the badges of the findings are computed by
    [getRiskColor(finding.riskLevel)]: this succeeds exactly when every
    finding has a string as [riskLevel] (a finding without one, or with a
    number, makes it throw), and then there is one badge per finding, each
    one of ['destructive'], ['warning'], ['success'], ['secondary']. *)
Theorem finding_badges_need_string_levels
    (toLowerCase : jstring -> jstring) (findings : list Value) :
  ((exists badges, ReportPageFetch.badgesOf toLowerCase findings = inr badges)
   <-> Forall (fun finding =>
                 exists level,
                   getPropOpt finding (lit "riskLevel") = VStr level)
              findings)
  /\ forall badges,
       ReportPageFetch.badgesOf toLowerCase findings = inr badges ->
       List.length badges = List.length findings
       /\ Forall (fun badge =>
                    In badge ["destructive"; "warning"; "success";
                              "secondary"]%string) badges.
Proof.
  induction findings as [|finding findings [IH1 IH2]]; simpl.
  - split.
    + split; [constructor | eauto].
    + intros badges H; injection H as <-; split; [reflexivity | constructor].
  - destruct (ReportPageFetch.badgeOf toLowerCase finding) as [e|badge] eqn:E.
    + split.
      * split; [intros [b H]; discriminate|].
        intros H; inversion H as [|? ? Hl _]; subst.
        apply (ReportPageFetchFacts.badgeOf_ok_iff toLowerCase) in Hl
          as [b Hb]; congruence.
      * intros badges H; discriminate.
    + assert (Hl : exists level,
                 getPropOpt finding (lit "riskLevel") = VStr level)
        by (apply (ReportPageFetchFacts.badgeOf_ok_iff toLowerCase); eauto).
      destruct (ReportPageFetch.badgesOf toLowerCase findings) as [e|bs].
      * split.
        -- split; [intros [b H]; discriminate|].
           intros H; inversion H as [|? ? _ Hrest]; subst.
           apply IH1 in Hrest as [b Hb]; discriminate.
        -- intros badges H; discriminate.
      * split.
        -- split; [intros _; constructor; [exact Hl | apply IH1; eauto]
                  | eauto].
        -- intros badges H; injection H as <-.
           destruct (IH2 bs eq_refl) as [L F]; split; [simpl; congruence|].
           constructor; [|exact F].
           exact (ReportPageFetchFacts.badgeOf_value toLowerCase finding badge E).
Qed.

(* ================================================================== *)
(** * InputPage, guarded variant                                        *)
(* ================================================================== *)

(** X25. The [handleSubmit] that wraps the storage write in [try]: when
    [sessionStorage.setItem] throws for an otherwise acceptable form, the
    error is logged, the user sees one destructive toast, nothing is stored
    and the page does not navigate; when it does not throw, the handler
    stores, notifies and navigates exactly as the unguarded [handleSubmit]
    does.  The loading flag ends [false] either way. *)
Theorem guarded_submit_survives_full_storage
    (f : InputPage.Form) (now : Z)
    (setItemThrows : option InputPageGuarded.DOMException) (b : Browser) :
  blank (InputPage.form_contractText f) = false ->
  blank (InputPage.form_partyName f) = false ->
  let r := InputPageGuarded.handleSubmit f now setItemThrows b in
  InputPageGuarded.loading r = false
  /\ (forall error, setItemThrows = Some error ->
        InputPageGuarded.logged r = [error]
        /\ sessionStorage (InputPageGuarded.browser r) = sessionStorage b
        /\ navigations (InputPageGuarded.browser r) = navigations b
        /\ exists t, toasts (InputPageGuarded.browser r) = toasts b ++ [t]
                     /\ toast_variant t = Destructive)
  /\ (setItemThrows = None ->
        InputPageGuarded.logged r = []
        /\ InputPageGuarded.browser r = InputPage.handleSubmit f now b).
Proof.
  intros Hc Hp; cbv zeta; unfold InputPageGuarded.handleSubmit.
  rewrite InputPageFacts.handleSubmit_cases.
  rewrite !JSStringFacts.truthy_trim, Hc, Hp; simpl.
  destruct setItemThrows as [e|]; simpl.
  - split; [reflexivity|]; split; [|discriminate].
    intros error H; injection H as <-.
    repeat split; eexists; split; reflexivity.
  - split; [reflexivity|]; split; [discriminate|].
    intros _; split; reflexivity.
Qed.

Lemma guarded_submit_survives_full_storage_witness :
  navigations
    (InputPageGuarded.browser
       (InputPageGuarded.handleSubmit Samples.form 1700000000000
          (Some InputPageGuarded.QuotaExceededError) freshBrowser))
  = [].
Proof.
  destruct (guarded_submit_survives_full_storage Samples.form 1700000000000
              (Some InputPageGuarded.QuotaExceededError) freshBrowser
              eq_refl eq_refl) as (_ & H & _).
  destruct (H _ eq_refl) as (_ & _ & N & _); exact N.
Defined.

(* ================================================================== *)
(** * NyayBot                                                           *)
(* ================================================================== *)

Module NyayBotFacts.
Import NyayBot.

Lemma getFallbackResponse_canned (toLowerCase : jstring -> jstring) message :
  In (getFallbackResponse toLowerCase message) cannedResponses.
Proof.
  unfold getFallbackResponse, cannedResponses.
  repeat match goal with
         | |- context [if ?c then _ else _] => destruct c
         end; simpl; tauto.
Qed.

Lemma botReply_fallback (toLowerCase : jstring -> jstring) o userMessage :
  backendFails o = true ->
  botReply toLowerCase o userMessage
  = Canned (getFallbackResponse toLowerCase userMessage).
Proof.
  destruct o as [|ok status body]; simpl; [reflexivity|].
  destruct ok; [discriminate | reflexivity].
Qed.

Example includes_inside :
  includes (lit "is my data secure?") (lit "secure") = true.
Proof. reflexivity. Qed.

Example getFallbackResponse_priority :
  getFallbackResponse asciiLower (lit "Is the Analysis FREE?") = aboutAnalysis.
Proof. reflexivity. Qed.

End NyayBotFacts.

(** X26. NyayBot answers every message: when a quick question is passed,
    or the typed input is not blank, the conversation grows by the user's
    message followed by exactly one bot message, the input is cleared and
    the loading flag ends [false].  A quick question is sent as it is (not
    trimmed).  When the backend fails, the bot's message is one of the
    seven canned answers. *)
Theorem nyaybot_always_replies
    (toLowerCase : jstring -> jstring) (message : option jstring)
    (o : FetchOutcome) (st : NyayBot.State) :
  (exists m, message = Some m /\ m <> [])
  \/ blank (NyayBot.inputMessage st) = false ->
  let st' := NyayBot.handleSendMessage toLowerCase message o st in
  exists userMessage reply,
    NyayBot.messages st'
    = NyayBot.messages st
      ++ [NyayBot.mkMessage "user" (NyayBot.Typed userMessage);
          NyayBot.mkMessage "bot" reply]
    /\ userMessage <> []
    /\ (forall m, message = Some m -> m <> [] -> userMessage = m)
    /\ NyayBot.inputMessage st' = []
    /\ NyayBot.isLoading st' = false
    /\ (backendFails o = true ->
        exists s, reply = NyayBot.Canned s /\ In s NyayBot.cannedResponses).
Proof.
  intros H; cbv zeta; unfold NyayBot.handleSendMessage.
  set (userMessage :=
         match message with
         | Some m => if JSString.truthy m then m
                     else trim (NyayBot.inputMessage st)
         | None => trim (NyayBot.inputMessage st)
         end).
  assert (Hne : userMessage <> []).
  { unfold userMessage; destruct H as [(m & -> & Hm)|Hb].
    - destruct m; [congruence | simpl; discriminate].
    - assert (Ht : trim (NyayBot.inputMessage st) <> [])
        by (intros E; apply JSStringFacts.trim_nil_iff_blank in E; congruence).
      destruct message as [[|c m]|]; simpl; try exact Ht; discriminate. }
  assert (Htruthy : JSString.truthy userMessage = true)
    by (destruct userMessage; [congruence | reflexivity]).
  rewrite Htruthy; simpl.
  exists userMessage, (NyayBot.botReply toLowerCase o userMessage).
  repeat split; try assumption.
  - intros m -> Hm; unfold userMessage.
    destruct m; [congruence | reflexivity].
  - intros Hf; eexists; split;
      [apply NyayBotFacts.botReply_fallback; exact Hf
      | apply NyayBotFacts.getFallbackResponse_canned].
Qed.

Lemma nyaybot_always_replies_witness :
  List.length
    (NyayBot.messages
       (NyayBot.handleSendMessage asciiLower (Some (lit "Is my data secure?"))
          FetchRejects (NyayBot.mkState [] [] false)))
  = 2%nat.
Proof.
  assert (Hm : (exists m, Some (lit "Is my data secure?") = Some m /\ m <> [])
               \/ blank (NyayBot.inputMessage (NyayBot.mkState [] [] false))
                  = false).
  { left; eexists; split; [reflexivity | discriminate]. }
  pose proof (nyaybot_always_replies asciiLower
                (Some (lit "Is my data secure?")) FetchRejects
                (NyayBot.mkState [] [] false) Hm) as H.
  cbv zeta in H; destruct H as (u & r & H & _).
  exact (eq_trans (f_equal (@List.length NyayBot.Message) H) eq_refl).
Defined.

(* ================================================================== *)
(** * ReportPage: what the JSX throws                                   *)
(* ================================================================== *)

Module ReportJsxFacts.
Import ReportPage.

Lemma typeErrorOnly_inr (children : list Child) : typeErrorOnly (inr children).
Proof. intros e H; discriminate. Qed.

Lemma typeErrorOnly_next (a b : Jsx) :
  typeErrorOnly a -> typeErrorOnly b -> typeErrorOnly (next a b).
Proof.
  intros Ha Hb e; unfold next.
  destruct a as [ea|x]; [intros H; apply Ha; exact H|].
  destruct b as [eb|y]; [intros H; apply Hb; exact H | discriminate].
Qed.

Lemma typeErrorOnly_fragment (parts : list Jsx) :
  Forall typeErrorOnly parts -> typeErrorOnly (fragment parts).
Proof.
  induction 1 as [|part parts Hp _ IH]; simpl.
  - apply typeErrorOnly_inr.
  - apply typeErrorOnly_next; assumption.
Qed.

Lemma typeErrorOnly_andElement (cond : Value) (element : Jsx) :
  typeErrorOnly element -> typeErrorOnly (andElement cond element).
Proof.
  unfold andElement; destruct (truthy cond);
    [auto | intros _; apply typeErrorOnly_inr].
Qed.

Lemma typeErrorOnly_mapElements (element : Value -> Jsx) (items : Value) :
  (forall item, typeErrorOnly (element item)) ->
  typeErrorOnly (mapElements element items).
Proof.
  intros H; unfold mapElements.
  destruct items; try (intros e E; congruence).
  apply typeErrorOnly_fragment, Forall_forall.
  intros j Hj; apply in_map_iff in Hj as (item & <- & _); apply H.
Qed.

Lemma getProp_TypeError (v : Value) (k : jstring) e :
  getProp v k = inl e -> e = TypeError.
Proof. destruct v; simpl; congruence. Qed.

Lemma reviewCard_typeErrorOnly (review : Value) :
  typeErrorOnly (reviewCard review).
Proof.
  unfold reviewCard.
  destruct (getProp review (lit "title")) as [e|title] eqn:E.
  - intros e' H; injection H as <-; eapply getProp_TypeError; exact E.
  - apply typeErrorOnly_fragment; repeat constructor;
      try apply typeErrorOnly_andElement; apply typeErrorOnly_inr.
Qed.

Lemma reviewSummary_typeErrorOnly (analysis : Value) :
  typeErrorOnly (reviewSummary analysis).
Proof.
  unfold reviewSummary; cbv zeta.
  destruct (getProp _ (lit "positive")); [intros e' H; congruence|].
  destruct (getProp _ (lit "negative")); intros e' H; congruence.
Qed.

Lemma companyReviewsSection_typeErrorOnly (companyReviews : Value) :
  typeErrorOnly (companyReviewsSection companyReviews).
Proof.
  unfold companyReviewsSection.
  do 2 apply typeErrorOnly_andElement.
  apply typeErrorOnly_fragment; repeat constructor.
  - apply typeErrorOnly_inr.
  - apply typeErrorOnly_andElement, reviewSummary_typeErrorOnly.
  - apply typeErrorOnly_mapElements, reviewCard_typeErrorOnly.
Qed.

Lemma bulletList_typeErrorOnly (entries : Value) :
  typeErrorOnly (bulletList entries).
Proof.
  unfold bulletList; apply typeErrorOnly_andElement.
  apply typeErrorOnly_mapElements; intros item; apply typeErrorOnly_inr.
Qed.

Lemma reportJsx_typeErrorOnly (st : State) (results : DisplayResults) :
  typeErrorOnly (reportJsx st results).
Proof.
  unfold reportJsx; apply typeErrorOnly_fragment; repeat constructor.
  - apply typeErrorOnly_inr.
  - unfold recommendationLine; apply typeErrorOnly_andElement.
    destruct (getPropOpt _ (lit "recommendation")); intros e H; congruence.
  - apply typeErrorOnly_inr.
  - unfold executiveSummaryCard; apply typeErrorOnly_andElement.
    apply typeErrorOnly_next; apply bulletList_typeErrorOnly.
  - unfold transparencyCard; apply typeErrorOnly_andElement.
    apply typeErrorOnly_fragment; repeat constructor.
    + apply typeErrorOnly_andElement, typeErrorOnly_inr.
    + apply typeErrorOnly_andElement, typeErrorOnly_next;
        [apply typeErrorOnly_inr|].
      apply typeErrorOnly_andElement, typeErrorOnly_inr.
    + apply typeErrorOnly_inr.
  - apply typeErrorOnly_inr.
  - apply companyReviewsSection_typeErrorOnly.
  - apply typeErrorOnly_inr.
  - apply typeErrorOnly_inr.
Qed.

(** A fragment throws as soon as one of its parts does. *)
Lemma fragment_throws (parts : list Jsx) (part : Jsx) e :
  In part parts -> part = inl e -> exists e', fragment parts = inl e'.
Proof.
  intros Hin ->; induction parts as [|p parts IH]; [elim Hin|].
  simpl; destruct Hin as [->|Hin]; [simpl; eauto|].
  destruct (IH Hin) as [e' ->].
  destruct p as [ep|x]; simpl; eauto.
Qed.

Lemma displayResults_TypeError (st : State) e :
  displayResults st = inl e -> e = TypeError.
Proof.
  unfold displayResults.
  destruct (truthy (analysisResults st)); [|discriminate].
  destruct (getProp (analysisResults st) (lit "analysis")) as [e1|analysis] eqn:E1.
  { intros H; injection H as <-; eapply getProp_TypeError; exact E1. }
  unfold contractAnalysisOf; rewrite E1.
  destruct (getPropOpt (getPropOpt analysis (lit "advanced_risk_analysis"))
                       (lit "loophole_analysis")) as [| | | | |items|];
    try discriminate; try (intros H; congruence).
  assert (M : forall k e', mapFrom k items = inl e' -> e' = TypeError).
  { induction items as [|item items IH]; intros k e'; simpl; [discriminate|].
    destruct (mapLoophole item k) as [e1|f] eqn:E.
    - intros H; injection H as <-.
      destruct item; cbv in E; congruence.
    - specialize (IH (S k)).
      destruct (mapFrom (S k) items) as [e2|fs]; [|discriminate].
      intros H; injection H as <-; apply (IH e2); reflexivity. }
  destruct (mapFrom 0 items) as [e1|fs] eqn:E; [|discriminate].
  intros H; injection H as <-; apply (M 0%nat e1 E).
Qed.

(** The page never throws anything but a [TypeError]. *)
Lemma render_TypeError (st : State) e :
  render st = inl (Throws e) -> e = TypeError.
Proof.
  unfold render.
  destruct (contractData st); [|discriminate].
  destruct (displayResults st) as [e1|results] eqn:D.
  { intros H; injection H as <-; eapply displayResults_TypeError; exact D. }
  destruct (truthy (analysisResults st)); [|discriminate].
  destruct (reportJsx st results) as [e1|children] eqn:J.
  { intros H; injection H as <-.
    apply (reportJsx_typeErrorOnly st results e1 J). }
  destruct (forallb accepted children); discriminate.
Qed.

End ReportJsxFacts.

Module ReviewsFacts.
Import ReportPage.

(** A successful company reviews request stores the backend's answer. *)
Lemma load_reviews_ok (o : FetchOutcome) (b : Browser) d status result :
  item_contractData (sessionStorage b) = Some d ->
  JSString.truthy (partyName d) = true ->
  companyReviews
    (snd (load o (FetchResponse true status (Some result)) b)) = result.
Proof.
  intros Hd Hp; rewrite (ReportLoadFacts.load_unfold o _ b d Hd).
  unfold effect; rewrite Hd; cbn [contractData]; rewrite Hp.
  destruct (performKarmaCheck o b _) as [b1 stK].
  unfold getCompanyReviews, getCompanyReviews_try; cbn [contractData].
  destruct (item_analysisResult (sessionStorage b)); reflexivity.
Qed.

(** Reviews that say [success] but carry no list make the section throw. *)
Lemma companyReviewsSection_throws (reviews : Value) :
  truthy reviews = true ->
  truthy (getPropOpt reviews (lit "success")) = true ->
  (forall entries, getPropOpt reviews (lit "reviews") <> VArr entries) ->
  companyReviewsSection reviews = inl TypeError.
Proof.
  intros Ht Hs Hn; unfold companyReviewsSection, andElement.
  rewrite Ht, Hs.
  match goal with
  | |- fragment ?parts = _ =>
      destruct (ReportJsxFacts.fragment_throws parts
                  (mapElements reviewCard (getPropOpt reviews (lit "reviews")))
                  TypeError) as [e He]
  end.
  - right; right; left; reflexivity.
  - unfold mapElements.
    destruct (getPropOpt reviews (lit "reviews")) as [| | | | |entries|];
      try reflexivity.
    elim (Hn entries); reflexivity.
  - pose proof (ReportJsxFacts.companyReviewsSection_typeErrorOnly reviews e)
      as T.
    unfold companyReviewsSection, andElement in T; rewrite Ht, Hs in T.
    rewrite He; f_equal; apply T; exact He.
Qed.

End ReviewsFacts.

(** X27. The list of company reviews is mapped without a guard: when the
    company reviews request succeeds with a truthy body whose [success] is
    truthy but whose [reviews] is not an array, the report page of a
    contract with a stored, truthy analysis throws a TypeError instead of
    rendering, whatever the analysis is and whatever the Karma Check
    request does. *)
Theorem reviews_without_list_break_the_report
    (o : FetchOutcome) (b : Browser) (d : ContractData) (status : Z)
    (reviews : Value) :
  item_contractData (sessionStorage b) = Some d ->
  JSString.truthy (partyName d) = true ->
  truthy (storedAnalysis b) = true ->
  truthy reviews = true ->
  truthy (getPropOpt reviews (lit "success")) = true ->
  (forall entries, getPropOpt reviews (lit "reviews") <> VArr entries) ->
  ReportPage.render
    (snd (ReportPage.load o (FetchResponse true status (Some reviews)) b))
  = inl (ReportPage.Throws TypeError).
Proof.
  intros Hd Hp Ha Ht Hs Hn.
  pose proof (ReviewsFacts.load_reviews_ok o b d status reviews Hd Hp) as Hr.
  destruct (ReportLoadFacts.load_state
              o (FetchResponse true status (Some reviews)) b d Hd) as (Hc & Har).
  set (st := snd (ReportPage.load o _ b)) in *.
  unfold ReportPage.render; rewrite Hc.
  destruct (ReportPage.displayResults st) as [e|results] eqn:D.
  { rewrite (ReportJsxFacts.displayResults_TypeError st e D); reflexivity. }
  rewrite Har, Ha.
  destruct (ReportJsxFacts.fragment_throws
              [ inr [ReportPage.Text];
                ReportPage.recommendationLine (ReportPage.analysisResults st);
                inr [ReportPage.Given (ReportPage.overallRisk results);
                     ReportPage.Given (ReportPage.riskLevel results)];
                ReportPage.executiveSummaryCard (ReportPage.analysisResults st);
                ReportPage.transparencyCard (ReportPage.analysisResults st);
                ReportPage.karmaCards results;
                ReportPage.companyReviewsSection (ReportPage.companyReviews st);
                ReportPage.insightCards results;
                inr [ReportPage.Text] ]
              (ReportPage.companyReviewsSection (ReportPage.companyReviews st))
              TypeError) as [e He].
  - simpl; tauto.
  - rewrite Hr; apply ReviewsFacts.companyReviewsSection_throws; assumption.
  - fold (ReportPage.reportJsx st results) in He; rewrite He.
    rewrite (ReportJsxFacts.reportJsx_typeErrorOnly st results e He).
    reflexivity.
Qed.

Lemma reviews_without_list_break_the_report_witness :
  ReportPage.render
    (snd (ReportPage.load FetchRejects
            (FetchResponse true 200
               (Some (VObj [(lit "success", VBool true)])))
            Samples.analysedBrowser))
  = inl (ReportPage.Throws TypeError).
Proof.
  apply (reviews_without_list_break_the_report
           FetchRejects Samples.analysedBrowser
           Samples.contract 200 (VObj [(lit "success", VBool true)]));
    try reflexivity.
  intros entries; discriminate.
Defined.
